(** * Document template generator: the assembly engine

    A shallow embedding of the template helpers
    ([getNestedValue], [renderTemplate], [evaluateCondition],
    [isFieldVisible]), of the form renderer's [evaluateConditional], of
    [validateUserData] and of the document generator
    ([generateFromStructure], [processContentItem], [createTable],
    [generateHtmlPreview], [renderHtmlContentItem], [escapeHtml]),
    followed by the properties of the engine.

    Modelling conventions.
    - Every JavaScript value the engine handles comes out of a parsed JSON
      document, except the two helper entries the generator merges into the
      data record (a date string and an arrow function), and the built-in
      functions and the prototype of objects, which a lookup can reach.
      [jsval] has one constructor per kind of value.
    - Numbers are integers ([Z]); numeric text is read as a number only when
      it is an optionally signed run of decimal digits.  The text of a
      number is its decimal writing, which is the runtime's for the safe
      integers.
    - A text is a sequence of code units below 256, a character standing
      for the code unit of its number; [length], [trim], [toLowerCase] and
      the comparisons are the runtime's on such texts.
    - [get_prop] is the member a value has itself; it stands for [v.k] with
      the member names the engine reads.  [lookup] is [v[k]] for a computed
      key: the member of the value itself, or else the member inherited
      from the built-in prototypes of ECMAScript 2024.  [charted] tells the
      reads the model has: it leaves out [__proto__] on anything but an
      object, and the members of their own of the built-in constructors.
    - [to_string] and [to_primitive] are the built-in conversions; the
      runtime converts an object with a [toString] or [valueOf] entry of
      its own through that entry, and [plain_text] tells the values
      without one.
    - Two distinct arrays or objects are never identical under [===]: the
      values compared by the engine come from separately parsed documents.
    - A thrown exception is a [Throw] result; console output is not
      modelled. *)

From Stdlib Require Import String Ascii List ZArith Bool Lia Arith.
From Stdlib Require Import DecimalString.
Import ListNotations.
Local Open Scope string_scope.

Set Implicit Arguments.
Set Warnings "-register-all".

(** ** Exceptions *)

Inductive exn : Type :=
| TypeError (what : string)
| Error (message : string).

Inductive result (A : Type) : Type :=
| Ok (a : A)
| Throw (e : exn).

Arguments Ok {A} a.
Arguments Throw {A} e.

Definition bind {A B : Type} (c : result A) (k : A -> result B) : result B :=
  match c with
  | Ok a => k a
  | Throw e => Throw e
  end.

Notation "x <- c ;; k" := (bind c (fun x => k))
  (at level 61, c at next level, right associativity).

Fixpoint mapM {A B : Type} (f : A -> result B) (xs : list A) : result (list B) :=
  match xs with
  | [] => Ok []
  | x :: xs' => y <- f x ;; ys <- mapM f xs' ;; Ok (y :: ys)
  end.

(** [message] of a caught exception; for a [TypeError] the text is the
    engine's, the model keeps a short description of the fault. *)
Definition exn_message (e : exn) : string :=
  match e with
  | TypeError what => what
  | Error message => message
  end.

(** The double quote character, as a text. *)
Definition dquote : string := String "034"%char EmptyString.

(** ** JavaScript values *)

Module Js.

Inductive jsval : Type :=
| VUndef
| VNull
| VBool (b : bool)
| VNum (n : Z)
| VStr (s : string)
| VArr (xs : list jsval)
| VObj (props : list (string * jsval))
| VFun (name : string) (arity : nat) (src : string).

Definition is_undef (v : jsval) : bool :=
  match v with VUndef => true | _ => false end.

Definition is_nullish (v : jsval) : bool :=
  match v with VUndef | VNull => true | _ => false end.

Definition is_string (v : jsval) : bool :=
  match v with VStr _ => true | _ => false end.

(** [Array.isArray] *)
Definition is_array (v : jsval) : bool :=
  match v with VArr _ => true | _ => false end.

(** ToBoolean *)
Definition truthy (v : jsval) : bool :=
  match v with
  | VUndef | VNull => false
  | VBool b => b
  | VNum n => negb (Z.eqb n 0)
  | VStr s => negb (String.eqb s EmptyString)
  | VArr _ | VObj _ | VFun _ _ _ => true
  end.

(** [a || b] *)
Definition or_else (a b : jsval) : jsval := if truthy a then a else b.

(** *** Text *)

(** The white space [trim] removes, among the code units below 256: the
    space, the characters from the tabulation to the carriage return, and
    the no-break space. *)
Definition is_space (c : ascii) : bool :=
  let n := nat_of_ascii c in
  (Nat.eqb n 32 || (Nat.leb 9 n && Nat.leb n 13) || Nat.eqb n 160)%bool.

Fixpoint trim_start (s : string) : string :=
  match s with
  | String c rest => if is_space c then trim_start rest else s
  | EmptyString => EmptyString
  end.

(** [trim_end] keeps a character when it is not a space or when something
    that is kept follows it. *)
Fixpoint trim_end (s : string) : string :=
  match s with
  | EmptyString => EmptyString
  | String c rest =>
      match trim_end rest with
      | EmptyString => if is_space c then EmptyString else String c EmptyString
      | kept => String c kept
      end
  end.

(** [String.prototype.trim] *)
Definition trim (s : string) : string := trim_end (trim_start s).

(** [s.substring(n)] *)
Fixpoint drop (n : nat) (s : string) : string :=
  match n, s with
  | O, _ => s
  | S n', String _ rest => drop n' rest
  | S _, EmptyString => EmptyString
  end.

(** [s.startsWith(p)] *)
Definition starts_with (p s : string) : bool := String.prefix p s.

(** [s.includes(sub)] *)
Fixpoint includes (sub s : string) : bool :=
  (String.prefix sub s ||
   match s with
   | EmptyString => false
   | String _ rest => includes sub rest
   end)%bool.

(** [s.split(sep)] for a one-character separator: [cur] holds the piece
    being read. *)
Fixpoint split_on (sep : ascii) (cur : string) (s : string) : list string :=
  match s with
  | EmptyString => [cur]
  | String c rest =>
      if Ascii.eqb c sep then cur :: split_on sep EmptyString rest
      else split_on sep (cur ++ String c EmptyString) rest
  end.

Definition split (sep : ascii) (s : string) : list string :=
  split_on sep EmptyString s.

(** [s.replace(/[...]/g, '')]: the characters of a class are removed. *)
Fixpoint remove_chars (bad : ascii -> bool) (s : string) : string :=
  match s with
  | EmptyString => EmptyString
  | String c rest =>
      if bad c then remove_chars bad rest else String c (remove_chars bad rest)
  end.

(** The letters with a lower case among the code units below 256: [A] to
    [Z], and the accented capitals from 192 to 222, the multiplication sign
    215 apart. *)
Definition upper_char (c : ascii) : bool :=
  let n := nat_of_ascii c in
  ((Nat.leb 65 n && Nat.leb n 90)
   || (Nat.leb 192 n && Nat.leb n 222 && negb (Nat.eqb n 215)))%bool.

Definition lower_char (c : ascii) : ascii :=
  if upper_char c then ascii_of_nat (nat_of_ascii c + 32) else c.

(** [s.toLowerCase()] *)
Fixpoint to_lower (s : string) : string :=
  match s with
  | EmptyString => EmptyString
  | String c rest => String (lower_char c) (to_lower rest)
  end.

(** *** Numbers and text *)

Definition string_of_Z (n : Z) : string := NilZero.string_of_int (Z.to_int n).

Definition digit_value (c : ascii) : option Z :=
  let n := nat_of_ascii c in
  if (Nat.leb 48 n && Nat.leb n 57)%bool then Some (Z.of_nat (n - 48)) else None.

(** Value of a run of decimal digits read after the prefix valued [acc];
    [None] when a character is not a digit. *)
Fixpoint digits_from (acc : Z) (s : string) : option Z :=
  match s with
  | EmptyString => Some acc
  | String c rest =>
      match digit_value c with
      | Some d => digits_from (acc * 10 + d) rest
      | None => None
      end
  end.

Definition digits (s : string) : option Z :=
  match s with
  | EmptyString => None
  | _ => digits_from 0 s
  end.

(** ToNumber on text; [None] is NaN. *)
Definition number_of_string (s : string) : option Z :=
  match trim s with
  | EmptyString => Some 0%Z
  | String "+" rest => digits rest
  | String "-" rest => option_map Z.opp (digits rest)
  | t => digits t
  end.

(** An array index in canonical form: ["0"], or digits with no leading
    zero. *)
Definition array_index (k : string) : option nat :=
  match k with
  | String "0" EmptyString => Some O
  | String "0" _ => None
  | _ => option_map Z.to_nat (digits k)
  end.

(** ToString; an array is joined with commas, its [null] and [undefined]
    elements giving the empty text. *)
Fixpoint to_string (v : jsval) : string :=
  match v with
  | VUndef => "undefined"
  | VNull => "null"
  | VBool true => "true"
  | VBool false => "false"
  | VNum n => string_of_Z n
  | VStr s => s
  | VArr xs =>
      (fix join (ys : list jsval) : string :=
         match ys with
         | [] => EmptyString
         | y :: ys' =>
             let e := match y with
                      | VUndef | VNull => EmptyString
                      | _ => to_string y
                      end in
             match ys' with
             | [] => e
             | _ :: _ => e ++ "," ++ join ys'
             end
         end) xs
  | VObj _ => "[object Object]"
  | VFun _ _ src => src
  end.

(** ToPrimitive: arrays, objects and functions turn into their text. *)
Definition to_primitive (v : jsval) : jsval :=
  match v with
  | VArr _ | VObj _ | VFun _ _ _ => VStr (to_string v)
  | _ => v
  end.

(** ToNumber of a primitive; [None] is NaN. *)
Definition to_number (v : jsval) : option Z :=
  match to_primitive v with
  | VNull => Some 0%Z
  | VBool true => Some 1%Z
  | VBool false => Some 0%Z
  | VNum n => Some n
  | VStr s => number_of_string s
  | _ => None
  end.

(** [isNaN(v)] *)
Definition isNaN (v : jsval) : bool :=
  match to_number v with Some _ => false | None => true end.

(** [a < b]: two texts are compared character by character, anything else
    as numbers, and a NaN operand makes the comparison false. *)
Definition lt (a b : jsval) : bool :=
  match to_primitive a, to_primitive b with
  | VStr x, VStr y => String.ltb x y
  | pa, pb =>
      match to_number pa, to_number pb with
      | Some x, Some y => Z.ltb x y
      | _, _ => false
      end
  end.

(** [a > b] *)
Definition gt (a b : jsval) : bool := lt b a.

(** [a === b] *)
Definition strict_eq (a b : jsval) : bool :=
  match a, b with
  | VUndef, VUndef => true
  | VNull, VNull => true
  | VBool x, VBool y => Bool.eqb x y
  | VNum x, VNum y => Z.eqb x y
  | VStr x, VStr y => String.eqb x y
  | _, _ => false
  end.

(** [xs.includes(v)] *)
Definition array_includes (xs : list jsval) (v : jsval) : bool :=
  existsb (fun x => strict_eq x v) xs.

(** *** Members *)

Fixpoint assoc (k : string) (props : list (string * jsval)) : jsval :=
  match props with
  | [] => VUndef
  | (k', v) :: rest => if String.eqb k k' then v else assoc k rest
  end.

Definition char_at (s : string) (i : nat) : jsval :=
  match String.get i s with
  | Some c => VStr (String c EmptyString)
  | None => VUndef
  end.

(** The member [k] a value has itself: an entry of an object, [length]
    or an element of an array or of a text, [name] or [length] of a
    function.  This is [v.k] for the member names the engine reads, none
    of which a value has from a prototype, except [bold] on a text. *)
Definition get_prop (v : jsval) (k : string) : jsval :=
  match v with
  | VObj props => assoc k props
  | VArr xs =>
      if String.eqb k "length" then VNum (Z.of_nat (List.length xs))
      else match array_index k with
           | Some i => nth i xs VUndef
           | None => VUndef
           end
  | VStr s =>
      if String.eqb k "length" then VNum (Z.of_nat (String.length s))
      else match array_index k with
           | Some i => char_at s i
           | None => VUndef
           end
  | VFun name arity _ =>
      if String.eqb k "name" then VStr name
      else if String.eqb k "length" then VNum (Z.of_nat arity)
      else VUndef
  | _ => VUndef
  end.

(** [v.k], for the member names the engine reads in this way; [index]
    below is [v[k]] for a computed key. *)
Definition member (v : jsval) (k : string) : result jsval :=
  if is_nullish v
  then Throw (TypeError ("Cannot read properties of " ++ to_string v))
  else Ok (get_prop v k).

(** [v?.k] *)
Definition opt_member (v : jsval) (k : string) : jsval :=
  if is_nullish v then VUndef else get_prop v k.

(** [{...base, k: v}]: an own key of the spread value is overridden. *)
Fixpoint remove_key (k : string) (props : list (string * jsval)) :=
  match props with
  | [] => []
  | (k', v) :: rest =>
      if String.eqb k k' then remove_key k rest else (k', v) :: remove_key k rest
  end.

(** The own enumerable entries a spread copies: the keys of an object, the
    indices of an array or of a text; nothing for other values. *)
Fixpoint indexed (i : nat) (xs : list jsval) : list (string * jsval) :=
  match xs with
  | [] => []
  | x :: rest => (string_of_Z (Z.of_nat i), x) :: indexed (S i) rest
  end.

Fixpoint chars (s : string) : list jsval :=
  match s with
  | EmptyString => []
  | String c rest => VStr (String c EmptyString) :: chars rest
  end.

Definition own_entries (v : jsval) : list (string * jsval) :=
  match v with
  | VObj props => props
  | VArr xs => indexed 0 xs
  | VStr s => indexed 0 (chars s)
  | _ => []
  end.

Definition set_key (k : string) (v : jsval) (props : list (string * jsval)) :=
  (remove_key k props ++ [(k, v)])%list.

(** [for (const x of v)]: arrays and texts are iterable. *)
Definition iterate (v : jsval) : result (list jsval) :=
  match v with
  | VArr xs => Ok xs
  | VStr s => Ok (chars s)
  | _ => Throw (TypeError (to_string v ++ " is not iterable"))
  end.

(** The receiver of [.map] and [.forEach]: only arrays have them. *)
Definition as_array (v : jsval) : result (list jsval) :=
  match v with
  | VArr xs => Ok xs
  | VUndef | VNull => Throw (TypeError ("Cannot read properties of " ++ to_string v))
  | _ => Throw (TypeError "not a function")
  end.

(** *** Inherited members

    A member a value does not have itself is looked for in its prototype.
    Every value inherits the members of [Object.prototype]; arrays, texts,
    numbers, booleans and functions have the methods of their own
    prototype before these.  A built-in method is a function whose text
    reads [function name() { [native code] }]. *)

Definition native (name : string) (arity : nat) : jsval :=
  VFun name arity ("function " ++ name ++ "() { [native code] }").

(** The methods of a prototype: the key, and the name and the number of
    parameters of the function under it. *)
Definition method (name : string) (arity : nat) : string * (string * nat) :=
  (name, (name, arity)).

Definition object_methods : list (string * (string * nat)) :=
  [method "hasOwnProperty" 1; method "isPrototypeOf" 1;
   method "propertyIsEnumerable" 1; method "toLocaleString" 0;
   method "toString" 0; method "valueOf" 0;
   method "__defineGetter__" 2; method "__defineSetter__" 2;
   method "__lookupGetter__" 1; method "__lookupSetter__" 1].

Definition array_methods : list (string * (string * nat)) :=
  [method "at" 1; method "concat" 1; method "copyWithin" 2; method "entries" 0;
   method "every" 1; method "fill" 1; method "filter" 1; method "find" 1;
   method "findIndex" 1; method "findLast" 1; method "findLastIndex" 1;
   method "flat" 0; method "flatMap" 1; method "forEach" 1;
   method "includes" 1; method "indexOf" 1; method "join" 1; method "keys" 0;
   method "lastIndexOf" 1; method "map" 1; method "pop" 0; method "push" 1;
   method "reduce" 1; method "reduceRight" 1; method "reverse" 0;
   method "shift" 0; method "slice" 2; method "some" 1; method "sort" 1;
   method "splice" 2; method "toLocaleString" 0; method "toReversed" 0;
   method "toSorted" 1; method "toSpliced" 2; method "toString" 0;
   method "unshift" 1; method "values" 0; method "with" 2].

Definition string_methods : list (string * (string * nat)) :=
  [method "at" 1; method "charAt" 1; method "charCodeAt" 1;
   method "codePointAt" 1; method "concat" 1; method "endsWith" 1;
   method "includes" 1; method "indexOf" 1; method "isWellFormed" 0;
   method "lastIndexOf" 1; method "localeCompare" 1; method "match" 1;
   method "matchAll" 1; method "normalize" 0; method "padEnd" 1;
   method "padStart" 1; method "repeat" 1; method "replace" 2;
   method "replaceAll" 2; method "search" 1; method "slice" 2;
   method "split" 2; method "startsWith" 1; method "substr" 2;
   method "substring" 2; method "toLocaleLowerCase" 0;
   method "toLocaleUpperCase" 0; method "toLowerCase" 0;
   method "toString" 0; method "toUpperCase" 0; method "toWellFormed" 0;
   method "trim" 0; method "trimEnd" 0; method "trimStart" 0;
   ("trimLeft", ("trimStart", 0)); ("trimRight", ("trimEnd", 0));
   method "valueOf" 0; method "anchor" 1; method "big" 0; method "blink" 0;
   method "bold" 0; method "fixed" 0; method "fontcolor" 1;
   method "fontsize" 1; method "italics" 0; method "link" 1;
   method "small" 0; method "strike" 0; method "sub" 0; method "sup" 0].

Definition number_methods : list (string * (string * nat)) :=
  [method "toExponential" 1; method "toFixed" 1; method "toLocaleString" 0;
   method "toPrecision" 1; method "toString" 1; method "valueOf" 0].

Definition boolean_methods : list (string * (string * nat)) :=
  [method "toString" 0; method "valueOf" 0].

Definition function_methods : list (string * (string * nat)) :=
  [method "apply" 2; method "bind" 1; method "call" 1; method "toString" 0].

Fixpoint find_method (k : string) (ms : list (string * (string * nat)))
  : option jsval :=
  match ms with
  | [] => None
  | (k', (name, arity)) :: rest =>
      if String.eqb k k' then Some (native name arity) else find_method k rest
  end.

(** The methods of the prototype of a value, ahead of those of
    [Object.prototype]. *)
Definition own_methods (v : jsval) : list (string * (string * nat)) :=
  match v with
  | VArr _ => array_methods
  | VStr _ => string_methods
  | VNum _ => number_methods
  | VBool _ => boolean_methods
  | VFun _ _ _ => function_methods
  | _ => []
  end.

Definition constructor_name (v : jsval) : string :=
  match v with
  | VArr _ => "Array"
  | VStr _ => "String"
  | VNum _ => "Number"
  | VBool _ => "Boolean"
  | VFun _ _ _ => "Function"
  | _ => "Object"
  end.

(** [Object.prototype] as a value: its members are its own, and its
    [__proto__] is [null]. *)
Definition object_prototype : jsval :=
  VObj (("constructor", native "Object" 1) :: ("__proto__", VNull)
        :: map (fun m => (fst m, native (fst (snd m)) (snd (snd m))))
             object_methods).

(** What [__proto__] reads on an object.  The prototypes of arrays,
    texts, numbers, booleans and functions are built-in objects [jsval]
    has no constructor for: [charted] below leaves these reads out, and
    [undefined] stands in for them here. *)
Definition prototype_of (v : jsval) : jsval :=
  match v with
  | VObj _ => object_prototype
  | _ => VUndef
  end.

(** The accessors [caller] and [arguments] of [Function.prototype] raise
    on built-in functions and on the functions of a module. *)
Definition restricted (v : jsval) (k : string) : bool :=
  match v with
  | VFun _ _ _ => (String.eqb k "caller" || String.eqb k "arguments")%bool
  | _ => false
  end.

(** The value has the member itself. *)
Definition has_own (v : jsval) (k : string) : bool :=
  match v with
  | VObj props => existsb (fun p => String.eqb k (fst p)) props
  | VArr xs =>
      (String.eqb k "length"
       || match array_index k with
          | Some i => Nat.ltb i (List.length xs)
          | None => false
          end)%bool
  | VStr s =>
      (String.eqb k "length"
       || match array_index k with
          | Some i => Nat.ltb i (String.length s)
          | None => false
          end)%bool
  | VFun _ _ _ => (String.eqb k "name" || String.eqb k "length")%bool
  | _ => false
  end.

(** A member found in the prototype chain. *)
Definition inherited (v : jsval) (k : string) : result jsval :=
  if restricted v k
  then Throw (TypeError "'caller' and 'arguments' may not be accessed")
  else if String.eqb k "constructor" then Ok (native (constructor_name v) 1)
  else if String.eqb k "__proto__" then Ok (prototype_of v)
  else
    match find_method k (own_methods v) with
    | Some f => Ok f
    | None =>
        match find_method k object_methods with
        | Some f => Ok f
        | None => Ok VUndef
        end
    end.

(** [v[k]] for a computed key, on a value that is neither [null] nor
    [undefined]: the member of the value itself, or else the inherited
    one. *)
Definition lookup (v : jsval) (k : string) : result jsval :=
  if has_own v k then Ok (get_prop v k) else inherited v k.

(** [v[k]] *)
Definition index (v : jsval) (k : string) : result jsval :=
  if is_nullish v
  then Throw (TypeError ("Cannot read properties of " ++ to_string v))
  else lookup v k.

(** [v?.[k]] *)
Definition opt_index (v : jsval) (k : string) : result jsval :=
  if is_nullish v then Ok VUndef else lookup v k.

(** The reads the definitions above chart: every read on an object, on
    [null] and on [undefined]; on an array, a text, a number or a boolean,
    every read but that of [__proto__]; on a function, the reads of the
    members named above.  A built-in constructor has members of its own
    besides ([Object.keys], [Number.EPSILON], ...), which are not
    charted. *)
Definition charted (v : jsval) (k : string) : bool :=
  match v with
  | VUndef | VNull | VObj _ => true
  | VFun _ _ _ =>
      (has_own v k || restricted v k || String.eqb k "constructor"
       || match find_method k (function_methods ++ object_methods) with
          | Some _ => true
          | None => false
          end)%bool
  | _ => negb (String.eqb k "__proto__")
  end.

(** The reads of a walk [v?.[k1]?.[k2]...] are all charted. *)
Fixpoint charted_walk (v : jsval) (ks : list string) : bool :=
  match ks with
  | [] => true
  | k :: ks' =>
      (charted v k
       && match opt_index v k with
          | Ok v' => charted_walk v' ks'
          | Throw _ => true
          end)%bool
  end.

(** The integers every one of which is a number of the runtime, written
    out in full by the conversion to text. *)
Definition MAX_SAFE_INTEGER : Z := 9007199254740991.

Definition safe_integer (n : Z) : bool :=
  (Z.leb (- MAX_SAFE_INTEGER) n && Z.leb n MAX_SAFE_INTEGER)%bool.

(** A value whose conversion to text or to a number is the built-in one,
    as [to_string] and [to_primitive] have it: an object with a [toString]
    or [valueOf] entry of its own is converted by that entry, which raises
    when the entry is not a function, and a number beyond the safe
    integers is written with an exponent or is no integer of the runtime. *)
Fixpoint plain_text (v : jsval) : bool :=
  match v with
  | VObj props =>
      negb (existsb (fun p => (String.eqb (fst p) "toString"
                               || String.eqb (fst p) "valueOf")%bool) props)
  | VArr xs =>
      (fix all (ys : list jsval) : bool :=
         match ys with
         | [] => true
         | y :: ys' => (plain_text y && all ys')%bool
         end) xs
  | VNum n => safe_integer n
  | _ => true
  end.

(** [typeof v] *)
Definition typeof (v : jsval) : string :=
  match v with
  | VUndef => "undefined"
  | VNull | VArr _ | VObj _ => "object"
  | VBool _ => "boolean"
  | VNum _ => "number"
  | VStr _ => "string"
  | VFun _ _ _ => "function"
  end.



(** [o[k] = v] on the entries of an object: the value of a key the object
    has is replaced where it stands, a new key comes last. *)
Fixpoint assign (k : string) (v : jsval) (props : list (string * jsval))
  : list (string * jsval) :=
  match props with
  | [] => [(k, v)]
  | (k', v') :: rest =>
      if String.eqb k k' then (k, v) :: rest else (k', v') :: assign k v rest
  end.

End Js.

Import Js.

Fixpoint foldM {A S : Type} (f : S -> A -> result S) (xs : list A) (s : S)
  : result S :=
  match xs with
  | [] => Ok s
  | x :: xs' => s' <- f s x ;; foldM f xs' s'
  end.

(** [switch (v) { case 'label': ... }] compares with [===]. *)
Definition is_case (v : jsval) (label : string) : bool :=
  strict_eq v (VStr label).

(** ** Template helpers *)

Module TemplateHelpers.

(** [getNestedValue(obj, path)] *)
Definition getNestedValue (obj path : jsval) : result jsval :=
  if negb (truthy path) then Ok VUndef
  else
    match path with
    | VStr p => foldM opt_index (split "." p) obj
    | _ => Throw (TypeError "path.split is not a function")
    end.

(** *** The placeholder pattern [/{{([^}]+)}}/g]

    After the two opening braces the class [[^}]+] takes the longest run of
    characters other than a closing brace; the run must be non-empty and be
    followed by two closing braces. *)

Fixpoint span_path (s : string) : string * string :=
  match s with
  | EmptyString => (EmptyString, EmptyString)
  | String c rest =>
      if Ascii.eqb c "}" then (EmptyString, s)
      else let (p, t) := span_path rest in (String c p, t)
  end.

(** The capture group of a match that starts at the head of [s]. *)
Definition placeholder_at (s : string) : option string :=
  match s with
  | String c1 (String c2 rest) =>
      if (Ascii.eqb c1 "{" && Ascii.eqb c2 "{")%bool then
        match span_path rest with
        | (String c p, String d1 (String d2 _)) =>
            if (Ascii.eqb d1 "}" && Ascii.eqb d2 "}")%bool
            then Some (String c p) else None
        | _ => None
        end
      else None
  | _ => None
  end.

(** What a global replace sees in a text: characters outside any match, and
    matches, each with its capture group. *)
Inductive segment : Type :=
| Lit (c : ascii)
| Hole (raw : string).

(** The matched text of a placeholder. *)
Definition matched (raw : string) : string := "{{" ++ raw ++ "}}".

Definition segment_text (g : segment) : string :=
  match g with
  | Lit c => String c EmptyString
  | Hole raw => matched raw
  end.

(** The scan goes left to right; after a match it resumes behind the match,
    [skip] counting the characters of the match still to be passed. *)
Fixpoint scan (skip : nat) (s : string) : list segment :=
  match s with
  | EmptyString => []
  | String c rest =>
      match skip with
      | S k => scan k rest
      | O =>
          match placeholder_at s with
          | Some raw => Hole raw :: scan (String.length raw + 3) rest
          | None => Lit c :: scan 0 rest
          end
      end
  end.

Definition segments (template : string) : list segment := scan 0 template.

(** The replacement callback of [renderTemplate]. *)
Definition substitute (data boilerplate : jsval) (raw : string) : result string :=
  let trimmedPath := trim raw in
  if starts_with "boilerplate." trimmedPath then
    let boilerplatePath := drop 12 trimmedPath in
    value <- getNestedValue boilerplate (VStr boilerplatePath) ;;
    Ok (if negb (is_undef value) then to_string value else matched raw)
  else
    value <- getNestedValue data (VStr trimmedPath) ;;
    Ok (if negb (is_undef value) then to_string value else matched raw).

Definition render_segment (data boilerplate : jsval) (g : segment)
  : result string :=
  match g with
  | Lit c => Ok (String c EmptyString)
  | Hole raw => substitute data boilerplate raw
  end.

(** [renderTemplate(template, data, boilerplate = {})] *)
Definition renderTemplate (template data boilerplate : jsval) : result jsval :=
  let boilerplate :=
    match boilerplate with VUndef => VObj [] | _ => boilerplate end in
  if (negb (truthy template) || negb (is_string template))%bool then Ok template
  else
    match template with
    | VStr t =>
        parts <- mapM (render_segment data boilerplate) (segments t) ;;
        Ok (VStr (String.concat EmptyString parts))
    | _ => Ok template
    end.

(** [evaluateCondition(condition, data)] *)
Definition evaluateCondition (condition data : jsval) : result bool :=
  if (negb (truthy condition)
      || negb (truthy (get_prop condition "field")))%bool then Ok true
  else
    let field := get_prop condition "field" in
    let operator := get_prop condition "operator" in
    let value := get_prop condition "value" in
    fieldValue <- getNestedValue data field ;;
    if is_case operator "equals" then Ok (strict_eq fieldValue value)
    else if is_case operator "not_equals" then Ok (negb (strict_eq fieldValue value))
    else if is_case operator "greater_than" then Ok (gt fieldValue value)
    else if is_case operator "less_than" then Ok (lt fieldValue value)
    else if is_case operator "contains" then
      Ok (match fieldValue with
          | VArr xs => array_includes xs value
          | _ => includes (to_string value) (to_string fieldValue)
          end)
    else if is_case operator "not_contains" then
      Ok (match fieldValue with
          | VArr xs => negb (array_includes xs value)
          | _ => negb (includes (to_string value) (to_string fieldValue))
          end)
    else Ok true.

(** [isFieldVisible(field, formData)] *)
Definition isFieldVisible (field formData : jsval) : result bool :=
  conditional <- member field "conditional" ;;
  if (negb (truthy conditional)
      || negb (truthy (get_prop conditional "show_when")))%bool then Ok true
  else evaluateCondition (get_prop conditional "show_when") formData.

End TemplateHelpers.

(** ** The form renderer's visibility test *)

Module FormRenderer.

(** [evaluateConditional(conditional)], a closure over the watched form
    values [formData]. *)
Definition evaluateConditional (formData conditional : jsval) : result bool :=
  if (negb (truthy conditional)
      || negb (truthy (get_prop conditional "show_when")))%bool then Ok true
  else
    let show_when := get_prop conditional "show_when" in
    let field := get_prop show_when "field" in
    let operator := get_prop show_when "operator" in
    let value := get_prop show_when "value" in
    fieldValue <- index formData (to_string field) ;;
    if is_case operator "equals" then Ok (strict_eq fieldValue value)
    else if is_case operator "not_equals" then Ok (negb (strict_eq fieldValue value))
    else if is_case operator "contains" then
      Ok (match fieldValue with
          | VArr xs => array_includes xs value
          | _ => includes (to_string value)
                   (to_string (or_else fieldValue (VStr EmptyString)))
          end)
    else Ok true.

End FormRenderer.

(** ** Validation of a submitted record *)

Module Validation.

Import TemplateHelpers.

Record report : Type := { valid : bool; errors : list string }.

Definition push (errors : list string) (e : string) : list string :=
  (errors ++ [e])%list.

(** The opening of every message: [Field "<label>"]. *)
Definition field_name (label : jsval) : string :=
  "Field " ++ dquote ++ to_string label ++ dquote.

Definition required_message (label : jsval) : string :=
  field_name label ++ " is required".

(** The check of a required field. *)
Definition required_check (required label value : jsval) (errors : list string)
  : list string :=
  if (truthy required && negb (truthy value))%bool
  then push errors (required_message label)
  else errors.

(** The [switch (field.type)] of the type-specific validation. *)
Definition type_check (field value : jsval) (errors : list string)
  : result (list string) :=
  let type := get_prop field "type" in
  let label := get_prop field "label" in
  let validation := get_prop field "validation" in
  if is_case type "number" then
    let errors :=
      if isNaN value then push errors (field_name label ++ " must be a number")
      else errors in
    let min := opt_member validation "min" in
    let errors :=
      if (negb (is_undef min) && lt value min)%bool
      then push errors (field_name label ++ " must be at least " ++ to_string min)
      else errors in
    let max := opt_member validation "max" in
    let errors :=
      if (negb (is_undef max) && gt value max)%bool
      then push errors (field_name label ++ " must be at most " ++ to_string max)
      else errors in
    Ok errors
  else if (is_case type "text" || is_case type "textarea")%bool then
    let errors :=
      if negb (is_string value) then push errors (field_name label ++ " must be text")
      else errors in
    let minLength := opt_member validation "minLength" in
    errors <-
      (if truthy minLength then
         len <- member value "length" ;;
         Ok (if lt len minLength
             then push errors (field_name label ++ " must be at least "
                                 ++ to_string minLength ++ " characters")
             else errors)
       else Ok errors) ;;
    let maxLength := opt_member validation "maxLength" in
    if truthy maxLength then
      len <- member value "length" ;;
      Ok (if gt len maxLength
          then push errors (field_name label ++ " must be at most "
                              ++ to_string maxLength ++ " characters")
          else errors)
    else Ok errors
  else if is_case type "table" then
    Ok (if negb (is_array value)
        then push errors (field_name label ++ " must be a table (array)")
        else errors)
  else Ok errors.

(** The body of the inner [forEach]: one field of one section. *)
Definition validate_field (data : jsval) (errors : list string) (field : jsval)
  : result (list string) :=
  required <- member field "required" ;;
  value <- index data (to_string (get_prop field "id")) ;;
  let errors := required_check required (get_prop field "label") value errors in
  if negb (is_undef value) then type_check field value errors else Ok errors.

(** The body of the outer [forEach]: [section.fields?.forEach(...)]. *)
Definition validate_section (data : jsval) (errors : list string) (section : jsval)
  : result (list string) :=
  fields <- member section "fields" ;;
  if is_nullish fields then Ok errors
  else
    fs <- as_array fields ;;
    foldM (validate_field data) fs errors.

(** [validateUserData(data, schema)] *)
Definition validateUserData (data schema : jsval) : result report :=
  if (negb (truthy schema) || negb (truthy (get_prop schema "sections")))%bool
  then Ok {| valid := true; errors := [] |}
  else
    sections <- as_array (get_prop schema "sections") ;;
    errors <- foldM (validate_section data) sections [] ;;
    Ok {| valid := Nat.eqb (List.length errors) 0; errors := errors |}.

Definition ALLOWED_FILE_TYPES : list jsval :=
  [VStr "application/vnd.openxmlformats-officedocument.wordprocessingml.document"].

Definition MAX_FILE_SIZE : Z := 10 * 1024 * 1024.

(** [validateDocxFile(file)] *)
Definition validateDocxFile (file : jsval) : report :=
  if negb (truthy file)
  then {| valid := false; errors := push [] "No file provided" |}
  else
    let errors := [] in
    let errors :=
      if negb (array_includes ALLOWED_FILE_TYPES (get_prop file "mimetype"))
      then push errors "File must be a .docx Word document"
      else errors in
    let errors :=
      if gt (get_prop file "size") (VNum MAX_FILE_SIZE)
      then push errors ("File size must be less than "
                          ++ string_of_Z (MAX_FILE_SIZE / 1024 / 1024) ++ "MB")
      else errors in
    {| valid := Nat.eqb (List.length errors) 0; errors := errors |}.

(** [!v || typeof v !== 'object'] *)
Definition not_an_object (v : jsval) : bool :=
  (negb (truthy v) || negb (String.eqb (typeof v) "object"))%bool.

(** [validateTemplateData(data)] *)
Definition validateTemplateData (data : jsval) : result report :=
  name <- member data "name" ;;
  let errors := [] in
  let errors :=
    if match name with
       | VStr s => (negb (truthy name) || Nat.ltb (String.length (trim s)) 3)%bool
       | _ => true
       end
    then push errors "Template name must be at least 3 characters"
    else errors in
  let errors :=
    if (truthy name && gt (get_prop name "length") (VNum 255))%bool
    then push errors "Template name must be less than 255 characters"
    else errors in
  let errors :=
    if not_an_object (get_prop data "schemaJson")
    then push errors "Invalid schema JSON" else errors in
  let errors :=
    if not_an_object (get_prop data "contentJson")
    then push errors "Invalid content JSON" else errors in
  let errors :=
    if not_an_object (get_prop data "structureJson")
    then push errors "Invalid structure JSON" else errors in
  Ok {| valid := Nat.eqb (List.length errors) 0; errors := errors |}.

End Validation.

(** ** The document generator *)

Module DocumentGenerator.

Import TemplateHelpers.

(** *** The document description handed to the word-processing library

    [Packer.toBuffer] serialises the description; the description is the
    output of the engine. *)

(** The options of [new Paragraph(...)]; an option that is not given is
    [None]. *)
Record paragraph : Type := {
  text : jsval;
  heading : option jsval;
  alignment : option jsval;
  bold : option jsval;
  spacing : option (Z * Z) }.

Record table_cell : Type := { cell_child : paragraph; shading : option string }.

Record table_row : Type := { cells : list table_cell; tableHeader : bool }.

Record table : Type := { rows : list table_row; borders : bool }.

Inductive element : Type :=
| EParagraph (p : paragraph)
| ETable (t : table).

Record doc_section : Type := { children : list element }.

Record document : Type := { sections : list doc_section }.

(** [new Paragraph(text)] *)
Definition plain (s : string) : paragraph :=
  {| text := VStr s; heading := None; alignment := None; bold := None;
     spacing := None |}.

(** The library's enumerations. *)
Definition HeadingLevel : jsval :=
  VObj [("HEADING_1", VStr "Heading1"); ("HEADING_2", VStr "Heading2");
        ("HEADING_3", VStr "Heading3"); ("HEADING_4", VStr "Heading4");
        ("HEADING_5", VStr "Heading5"); ("HEADING_6", VStr "Heading6");
        ("TITLE", VStr "Title")].

Definition alignmentMap : jsval :=
  VObj [("left", VStr "left"); ("center", VStr "center");
        ("right", VStr "right"); ("justified", VStr "both")].

(** [getAlignment(alignment)]: [alignment?.toLowerCase()] needs a text
    unless the value is [null] or [undefined]. *)
Definition getAlignment (alignment : jsval) : result jsval :=
  key <-
    match alignment with
    | VUndef | VNull => Ok VUndef
    | VStr s => Ok (VStr (to_lower s))
    | _ => Throw (TypeError "alignment.toLowerCase is not a function")
    end ;;
  found <- index alignmentMap (to_string key) ;;
  Ok (or_else found (VStr "left")).

(** Nesting depth of a value: the recursion over nested content items is
    bounded by it. *)
Fixpoint depth (v : jsval) : nat :=
  match v with
  | VArr xs =>
      S ((fix go (ys : list jsval) : nat :=
            match ys with
            | [] => O
            | y :: ys' => Nat.max (depth y) (go ys')
            end) xs)
  | VObj props =>
      S ((fix go (ps : list (string * jsval)) : nat :=
            match ps with
            | [] => O
            | (_, y) :: ps' => Nat.max (depth y) (go ps')
            end) props)
  | _ => O
  end.

(** A receiver of [.replace]: only texts have it. *)
Definition as_text (v : jsval) : result string :=
  match v with
  | VStr s => Ok s
  | _ => Throw (TypeError "replace is not a function")
  end.

Definition loop_char (c : ascii) : bool :=
  (Ascii.eqb c "{" || Ascii.eqb c "}" || Ascii.eqb c "#" || Ascii.eqb c "/")%bool.

Definition brace_char (c : ascii) : bool :=
  (Ascii.eqb c "{" || Ascii.eqb c "}")%bool.

(** Number of passes of [for (let i = 0; i < bound; i++)]. *)
Definition loop_count (bound : jsval) : nat :=
  match to_number bound with
  | Some z => Z.to_nat z
  | None => O
  end.

(** [item.headers?.length || 3], as the length [Array(...)] is given. *)
Definition column_count (headers : jsval) : nat :=
  match or_else (opt_member headers "length") (VNum 3) with
  | VNum n => Z.to_nat n
  | _ => 1
  end.

Definition header_cell (header : jsval) : table_cell :=
  {| cell_child := {| text := VStr (to_string header); heading := None;
                      alignment := None; bold := Some (VBool true);
                      spacing := None |};
     shading := Some "CCCCCC" |}.

Definition text_cell (s : string) : table_cell :=
  {| cell_child := plain s; shading := None |}.

Definition body_row (cs : list table_cell) : table_row :=
  {| cells := cs; tableHeader := false |}.

(** One row of a loop table: every cell template rendered against the
    element [rowData]. *)
Definition loop_row (item contentJson rowData : jsval) : result table_row :=
  templates <- as_array (or_else (get_prop item "rows") (VArr [])) ;;
  cs <- mapM (fun template =>
                blocks <- member contentJson "blocks" ;;
                text <- renderTemplate template rowData blocks ;;
                Ok (text_cell (to_string text))) templates ;;
  Ok (body_row cs).

(** One row of a table taken from the content library. *)
Definition source_row (rowData : jsval) : result table_row :=
  cs <- as_array rowData ;;
  Ok (body_row (map (fun cellValue => text_cell (to_string cellValue)) cs)).

(** One row of a table written out in the structure. *)
Definition static_row (userData contentJson rowDef : jsval) : result table_row :=
  cs <- as_array rowDef ;;
  cs' <- mapM (fun cellDef =>
                 template <- member cellDef "template" ;;
                 blocks <- member contentJson "blocks" ;;
                 text <- renderTemplate
                           (or_else template
                              (or_else (get_prop cellDef "text") (VStr EmptyString)))
                           userData blocks ;;
                 bold <- index cellDef "bold" ;;
                 Ok {| cell_child :=
                         {| text := VStr (to_string text); heading := None;
                            alignment := None;
                            bold := Some (or_else bold (VBool false));
                            spacing := None |};
                       shading := None |}) cs ;;
  Ok (body_row cs').

(** The body rows of [createTable], by the first directive that is set. *)
Definition body_rows (item userData contentJson : jsval) : result (list table_row) :=
  if truthy (get_prop item "loop") then
    loop <- as_text (get_prop item "loop") ;;
    let loopPath := trim (remove_chars loop_char loop) in
    dataArray <- getNestedValue userData (VStr loopPath) ;;
    match dataArray with
    | VArr ((_ :: _) as elems) => mapM (loop_row item contentJson) elems
    | _ => Ok []
    end
  else if truthy (get_prop item "source") then
    source <- as_text (get_prop item "source") ;;
    let sourcePath := trim (remove_chars brace_char source) in
    tableData <- getNestedValue contentJson (VStr sourcePath) ;;
    if (truthy tableData && truthy (get_prop tableData "defaultRows"))%bool then
      rs <- iterate (get_prop tableData "defaultRows") ;;
      mapM source_row rs
    else Ok []
  else if truthy (get_prop item "rows") then
    rs <- iterate (get_prop item "rows") ;;
    mapM (static_row userData contentJson) rs
  else if truthy (get_prop item "emptyRows") then
    let columnCount := column_count (get_prop item "headers") in
    Ok (repeat (body_row (repeat (text_cell EmptyString) columnCount))
          (loop_count (get_prop item "emptyRows")))
  else Ok [].

(** [createTable(item, userData, contentJson)]; [None] is [null]. *)
Definition createTable (item userData contentJson : jsval) : result (option table) :=
  headers <- member item "headers" ;;
  head <-
    (if truthy headers then
       hs <- as_array headers ;;
       Ok [{| cells := map header_cell hs; tableHeader := true |}]
     else Ok []) ;;
  body <- body_rows item userData contentJson ;;
  let rows := (head ++ body)%list in
  if Nat.eqb (List.length rows) 0 then Ok None
  else Ok (Some {| rows := rows;
                   borders := negb (strict_eq (get_prop item "borders") (VBool false)) |}).

(** [processContentItem(item, userData, contentJson)]; [fuel] bounds the
    depth of the calls, and running out of it is the engine's stack
    overflow. *)
Fixpoint processContentItem (fuel : nat) (item userData contentJson : jsval)
  : result (list element) :=
  type <- member item "type" ;;
  if is_case type "paragraph" then
    blocks <- member contentJson "blocks" ;;
    text <- renderTemplate
              (or_else (get_prop item "template")
                 (or_else (get_prop item "text") (VStr EmptyString)))
              userData blocks ;;
    align <- getAlignment (get_prop item "alignment") ;;
    Ok [EParagraph {| text := text; heading := None; alignment := Some align;
                      bold := None; spacing := Some (120, 120)%Z |}]
  else if is_case type "table" then
    t <- createTable item userData contentJson ;;
    Ok (match t with Some t => [ETable t] | None => [] end)
  else if is_case type "conditional" then
    holds <- evaluateCondition (get_prop item "condition") userData ;;
    if holds then
      subItems <- iterate (or_else (get_prop item "content") (VArr [])) ;;
      match fuel with
      | O => Throw (Error "Maximum call stack size exceeded")
      | S fuel' =>
          elements <- mapM (fun subItem =>
                              processContentItem fuel' subItem userData contentJson)
                        subItems ;;
          Ok (List.concat elements)
      end
    else Ok []
  else Ok [].

(** The helper entries merged into the data record. *)
Definition formatDate_helper : jsval :=
  VFun "formatDate" 1 "(date) => formatDate(date)".

(** [getToday()], given what [new Date().toISOString()] reads. *)
Definition getToday (now : string) : string :=
  hd EmptyString (split "T" now).

(** [{...userData, today: getToday(), formatDate: ...}] *)
Definition enhance (now : string) (userData : jsval) : jsval :=
  VObj (set_key "formatDate" formatDate_helper
          (set_key "today" (VStr (getToday now)) (own_entries userData))).

(** The heading paragraph of a section. *)
Definition heading_paragraph (heading data contentJson : jsval) : result element :=
  blocks <- member contentJson "blocks" ;;
  headingText <- renderTemplate (get_prop heading "text") data blocks ;;
  Ok (EParagraph
        {| text := headingText;
           heading := Some (get_prop HeadingLevel
                              ("HEADING_" ++ to_string
                                 (or_else (get_prop heading "level") (VNum 1))));
           alignment := None; bold := None; spacing := Some (400, 200)%Z |}).

(** One content item of a section: skipped when its condition fails. *)
Definition section_item (fuel : nat) (data contentJson item : jsval)
  : result (list element) :=
  condition <- member item "condition" ;;
  skip <- (if truthy condition then
             holds <- evaluateCondition condition data ;; Ok (negb holds)
           else Ok false) ;;
  if skip then Ok [] else processContentItem fuel item data contentJson.

(** One pass of the loop over the sections; [None] for a header or footer
    section. *)
Definition build_section (data contentJson section : jsval)
  : result (option doc_section) :=
  type <- member section "type" ;;
  if (is_case type "header" || is_case type "footer")%bool then Ok None
  else
    head <-
      (if truthy (get_prop section "heading") then
         h <- heading_paragraph (get_prop section "heading") data contentJson ;;
         Ok [h]
       else Ok []) ;;
    body <-
      (if truthy (get_prop section "content") then
         items <- iterate (get_prop section "content") ;;
         elements <- mapM (section_item (depth section) data contentJson) items ;;
         Ok (List.concat elements)
       else Ok []) ;;
    Ok (Some {| children := (head ++ body)%list |}).

Fixpoint somes {A : Type} (xs : list (option A)) : list A :=
  match xs with
  | [] => []
  | Some x :: xs' => x :: somes xs'
  | None :: xs' => somes xs'
  end.

(** [generateFromStructure(structureJson, userData, contentJson)] *)
Definition generateFromStructure (now : string)
    (structureJson userData contentJson : jsval) : result document :=
  if (negb (truthy structureJson)
      || negb (truthy (get_prop structureJson "sections")))%bool
  then Throw (Error "Invalid structure JSON")
  else
    let enhancedUserData := enhance now userData in
    secs <- iterate (get_prop structureJson "sections") ;;
    built <- mapM (build_section enhancedUserData contentJson) secs ;;
    let docSections := somes built in
    Ok {| sections :=
            if Nat.ltb 0 (List.length docSections) then docSections
            else [{| children := [EParagraph (plain "Empty document")] |}] |}.

(** [generateDocument(template, userData, null)]: the document is built
    from the structure, and a failure is thrown again with a prefix. *)
Definition generateDocument (now : string) (template userData : jsval)
  : result document :=
  match
    (structure_json <- member template "structure_json" ;;
     content_json <- member template "content_json" ;;
     generateFromStructure now structure_json userData content_json)
  with
  | Ok doc => Ok doc
  | Throw e => Throw (Error ("Failed to generate document: " ++ exn_message e))
  end.

(** *** The HTML preview

    The preview is a text built by appending markup.  The model keeps the
    appended pieces apart, an opening tag being marked with the element it
    opens; the text is their concatenation. *)

Inductive tag : Type :=
| Div | Section | Heading | P | Table | Thead | Tbody | Tr | Th | Td.

Inductive piece : Type :=
| Open (t : tag) (markup : string)
| Raw (markup : string).

Definition piece_text (p : piece) : string :=
  match p with
  | Open _ markup => markup
  | Raw markup => markup
  end.

Definition flatten (ps : list piece) : string :=
  String.concat EmptyString (map piece_text ps).

Definition escape_char (c : ascii) : string :=
  if Ascii.eqb c "&" then "&amp;"
  else if Ascii.eqb c "<" then "&lt;"
  else if Ascii.eqb c ">" then "&gt;"
  else if Ascii.eqb c "034" then "&quot;"
  else if Ascii.eqb c "'" then "&#039;"
  else String c EmptyString.

Fixpoint escape_text (s : string) : string :=
  match s with
  | EmptyString => EmptyString
  | String c rest => escape_char c ++ escape_text rest
  end.

(** [escapeHtml(text)] *)
Definition escapeHtml (text : jsval) : string := escape_text (to_string text).

Definition html_header (header : jsval) : list piece :=
  [Open Th ("<th style=" ++ dquote ++ "background-color: #ccc; padding: 8px;" ++ dquote ++ ">");
   Raw (escapeHtml header); Raw "</th>"].

Definition td_open : piece :=
  Open Td ("<td style=" ++ dquote ++ "padding: 8px;" ++ dquote ++ ">").

(** One row of a loop table in the preview. *)
Definition html_loop_row (item contentJson rowData : jsval) : result (list piece) :=
  templates <- as_array (or_else (get_prop item "rows") (VArr [])) ;;
  cs <- mapM (fun template =>
                blocks <- member contentJson "blocks" ;;
                text <- renderTemplate template rowData blocks ;;
                Ok [td_open; Raw (escapeHtml text); Raw "</td>"]) templates ;;
  Ok ([Open Tr "<tr>"] ++ List.concat cs ++ [Raw "</tr>"])%list.

(** The body rows of a table in the preview. *)
Definition html_body_rows (item userData contentJson : jsval)
  : result (list piece) :=
  if truthy (get_prop item "loop") then
    loop <- as_text (get_prop item "loop") ;;
    let loopPath := trim (remove_chars loop_char loop) in
    dataArray <- getNestedValue userData (VStr loopPath) ;;
    match dataArray with
    | VArr elems =>
        rs <- mapM (html_loop_row item contentJson) elems ;;
        Ok (List.concat rs)
    | _ => Ok []
    end
  else if truthy (get_prop item "emptyRows") then
    let columnCount := column_count (get_prop item "headers") in
    Ok (List.concat
          (repeat ([Open Tr "<tr>"]
                     ++ List.concat (repeat [td_open; Raw "&nbsp;</td>"] columnCount)
                     ++ [Raw "</tr>"])%list
             (loop_count (get_prop item "emptyRows"))))
  else Ok [].

(** The [table] case of [renderHtmlContentItem]. *)
Definition html_table (item userData contentJson : jsval) : result (list piece) :=
  let opening :=
    Open Table ("<table border=" ++ dquote ++ "1" ++ dquote ++ " style=" ++ dquote
                  ++ "border-collapse: collapse; width: 100%;" ++ dquote ++ ">") in
  head <-
    (if truthy (get_prop item "headers") then
       hs <- as_array (get_prop item "headers") ;;
       Ok ([Open Thead "<thead>"; Open Tr "<tr>"]
             ++ List.concat (map html_header hs)
             ++ [Raw "</tr></thead>"])%list
     else Ok []) ;;
  body <- html_body_rows item userData contentJson ;;
  Ok ([opening] ++ head ++ [Open Tbody "<tbody>"] ++ body
        ++ [Raw "</tbody></table>"])%list.

(** [renderHtmlContentItem(item, userData, contentJson)] *)
Fixpoint renderHtmlContentItem (fuel : nat) (item userData contentJson : jsval)
  : result (list piece) :=
  type <- member item "type" ;;
  if is_case type "paragraph" then
    blocks <- member contentJson "blocks" ;;
    text <- renderTemplate
              (or_else (get_prop item "template")
                 (or_else (get_prop item "text") (VStr EmptyString)))
              userData blocks ;;
    Ok [Open P "<p>"; Raw (escapeHtml text); Raw "</p>"]
  else if is_case type "table" then
    html_table item userData contentJson
  else if is_case type "conditional" then
    holds <- evaluateCondition (get_prop item "condition") userData ;;
    if holds then
      subItems <- as_array (or_else (get_prop item "content") (VArr [])) ;;
      match fuel with
      | O => Throw (Error "Maximum call stack size exceeded")
      | S fuel' =>
          html <- mapM (fun subItem =>
                          renderHtmlContentItem fuel' subItem userData contentJson)
                    subItems ;;
          Ok (List.concat html)
      end
    else Ok []
  else Ok [].

Definition html_heading (heading userData contentJson : jsval)
  : result (list piece) :=
  blocks <- member contentJson "blocks" ;;
  headingText <- renderTemplate (get_prop heading "text") userData blocks ;;
  let level := to_string (or_else (get_prop heading "level") (VNum 1)) in
  Ok [Open Heading ("<h" ++ level ++ ">"); Raw (escapeHtml headingText);
      Raw ("</h" ++ level ++ ">")].

Definition html_section_item (fuel : nat) (userData contentJson item : jsval)
  : result (list piece) :=
  condition <- member item "condition" ;;
  skip <- (if truthy condition then
             holds <- evaluateCondition condition userData ;; Ok (negb holds)
           else Ok false) ;;
  if skip then Ok [] else renderHtmlContentItem fuel item userData contentJson.

(** One pass of the loop over the sections of the preview. *)
Definition html_section (userData contentJson section : jsval)
  : result (list piece) :=
  type <- member section "type" ;;
  if (is_case type "header" || is_case type "footer")%bool then Ok []
  else
    head <-
      (if truthy (get_prop section "heading") then
         html_heading (get_prop section "heading") userData contentJson
       else Ok []) ;;
    body <-
      (if truthy (get_prop section "content") then
         items <- iterate (get_prop section "content") ;;
         html <- mapM (html_section_item (depth section) userData contentJson) items ;;
         Ok (List.concat html)
       else Ok []) ;;
    Ok ([Open Section "<section>"] ++ head ++ body ++ [Raw "</section>"])%list.

(** The [try] block of [generateHtmlPreview]. *)
Definition preview_body (structureJson userData contentJson : jsval)
  : result (list piece) :=
  sections <- member structureJson "sections" ;;
  secs <- iterate (or_else sections (VArr [])) ;;
  html <- mapM (html_section userData contentJson) secs ;;
  Ok ([Open Div ("<div class=" ++ dquote ++ "document-preview" ++ dquote ++ ">")]
        ++ List.concat html ++ [Raw "</div>"])%list.

(** The pieces of the preview; the [catch] block replaces a failed preview
    by a fixed paragraph. *)
Definition preview_pieces (structureJson userData contentJson : jsval)
  : list piece :=
  match preview_body structureJson userData contentJson with
  | Ok ps => ps
  | Throw _ => [Open P "<p>"; Raw "Preview generation failed"; Raw "</p>"]
  end.

(** [generateHtmlPreview(structureJson, userData, contentJson)] *)
Definition generateHtmlPreview (structureJson userData contentJson : jsval)
  : string :=
  flatten (preview_pieces structureJson userData contentJson).

(** *** Counting what a renderer produced *)

(** A heading is a paragraph given a heading style the library knows; a
    paragraph whose style lookup comes back [undefined] is body text. *)
Definition is_heading (e : element) : bool :=
  match e with
  | EParagraph p =>
      match heading p with Some v => negb (is_undef v) | None => false end
  | ETable _ => false
  end.

Definition is_body_paragraph (e : element) : bool :=
  match e with
  | EParagraph _ => negb (is_heading e)
  | ETable _ => false
  end.

Definition is_table (e : element) : bool :=
  match e with ETable _ => true | EParagraph _ => false end.

Definition all_children (doc : document) : list element :=
  flat_map children (sections doc).

Definition doc_sections (doc : document) : nat := List.length (sections doc).
Definition doc_headings (doc : document) : nat :=
  List.length (filter is_heading (all_children doc)).
Definition doc_paragraphs (doc : document) : nat :=
  List.length (filter is_body_paragraph (all_children doc)).
Definition doc_tables (doc : document) : nat :=
  List.length (filter is_table (all_children doc)).

Definition tag_eqb (a b : tag) : bool :=
  match a, b with
  | Div, Div | Section, Section | Heading, Heading | P, P | Table, Table
  | Thead, Thead | Tbody, Tbody | Tr, Tr | Th, Th | Td, Td => true
  | _, _ => false
  end.

Definition opens (t : tag) (p : piece) : bool :=
  match p with
  | Open t' _ => tag_eqb t t'
  | Raw _ => false
  end.

Definition html_count (t : tag) (ps : list piece) : nat :=
  List.length (filter (opens t) ps).

End DocumentGenerator.

(** ** The table field of the form *)

Module TableField.

(** [emptyRow[key] = '']: the key becomes an entry of the row, except
    [__proto__], whose setter in [Object.prototype] ignores a text. *)
Definition set_empty (key : string) (props : list (string * jsval))
  : list (string * jsval) :=
  if String.eqb key "__proto__" then props
  else assign key (VStr EmptyString) props.

(** The row of empty cells: [field.columns?.forEach(col => emptyRow[col.key] = '')]. *)
Definition emptyRow (field : jsval) : result jsval :=
  columns <- member field "columns" ;;
  if is_nullish columns then Ok (VObj [])
  else
    cols <- as_array columns ;;
    props <- foldM (fun props col =>
                      key <- member col "key" ;;
                      Ok (set_empty (to_string key) props))
               cols [] ;;
    Ok (VObj props).

(** The length [Array(count)] gets: a number is the length, and must be
    a natural number below [2^32]; any other value is the single element of
    the array. *)
Definition array_length (count : jsval) : result nat :=
  match count with
  | VNum n =>
      if (Z.ltb n 0 || Z.ltb 4294967295 n)%bool
      then Throw (Error "Invalid array length")
      else Ok (Z.to_nat n)
  | _ => Ok 1
  end.

(** [getInitialRows()] *)
Definition getInitialRows (field : jsval) : result (list jsval) :=
  defaultRows <- member field "defaultRows" ;;
  let count := or_else defaultRows (VNum 5) in
  row <- emptyRow field ;;
  n <- array_length count ;;
  Ok (repeat (VObj (own_entries row)) n).

(** [{...row, [columnKey]: value}] *)
Definition with_cell (row : jsval) (columnKey : string) (value : jsval) : jsval :=
  VObj (assign columnKey value (own_entries row)).

(** [newRows[rowIndex] = cell]: an index past the end extends the array,
    the places in between reading as [undefined]. *)
Fixpoint store (rows : list jsval) (rowIndex : nat) (cell : jsval -> jsval)
  : list jsval :=
  match rows, rowIndex with
  | row :: rest, O => cell row :: rest
  | row :: rest, S i => row :: store rest i cell
  | [], O => [cell VUndef]
  | [], S i => VUndef :: store [] i cell
  end.

(** [handleCellChange(rowIndex, columnKey, value)]: the rows it sets. *)
Definition handleCellChange (rows : list jsval) (rowIndex : nat)
    (columnKey : string) (value : jsval) : list jsval :=
  store rows rowIndex (fun row => with_cell row columnKey value).





End TableField.

(** ** The document routes and the storage service *)

Module Storage.

Definition is_alnum (c : ascii) : bool :=
  let n := nat_of_ascii c in
  ((Nat.leb 48 n && Nat.leb n 57) || (Nat.leb 65 n && Nat.leb n 90)
   || (Nat.leb 97 n && Nat.leb n 122))%bool.

(** [s.replace(/[^a-zA-Z0-9]/g, '_')] *)
Fixpoint underscore (s : string) : string :=
  match s with
  | EmptyString => EmptyString
  | String c rest =>
      String (if is_alnum c then c else "_"%char) (underscore rest)
  end.

(** The name a generated document is uploaded under:
    [`${name.replace(/[^a-zA-Z0-9]/g, '_')}.docx`]. *)
Definition documentFileName (name : jsval) : result string :=
  text <- DocumentGenerator.as_text name ;;
  Ok (underscore text ++ ".docx").

(** [fileName.split('.').pop()] *)
Definition fileExtension (fileName : string) : string :=
  last (split "." fileName) EmptyString.

(** The path [uploadFile] stores a file under, [uuid] being what
    [randomUUID()] returns. *)
Definition filePath (uuid fileName userId folder : string) : string :=
  folder ++ "/" ++ userId ++ "/" ++ uuid ++ "." ++ fileExtension fileName.

(** [xs.slice(-n)] *)
Definition slice_last {A : Type} (n : nat) (xs : list A) : list A :=
  skipn (List.length xs - n) xs.

(** The storage path the download route reads off a stored URL:
    [url.split('/').slice(-3).join('/')]. *)
Definition downloadPath (url : string) : string :=
  String.concat "/" (slice_last 3 (split "/" url)).

End Storage.

Import Js TemplateHelpers Validation DocumentGenerator.

(** ** Definitions used in the statements below *)

(** *** Template substitution *)

(** The value a placeholder with capture group [raw] stands for: a path
    under [boilerplate.] is looked up in the boilerplate mapping, any other
    path in the data record. *)
Definition placeholder_value (data boilerplate : jsval) (raw : string)
  : result jsval :=
  if starts_with "boilerplate." (trim raw)
  then getNestedValue boilerplate (VStr (drop 12 (trim raw)))
  else getNestedValue data (VStr (trim raw)).

(** The text a placeholder is replaced by, given the value it stands
    for. *)
Definition replacement (raw : string) (value : jsval) : string :=
  if is_undef value then matched raw else to_string value.

(** [renderTemplate]'s default for a boilerplate argument left out. *)
Definition or_empty (boilerplate : jsval) : jsval :=
  match boilerplate with VUndef => VObj [] | _ => boilerplate end.

(** The reads of [getNestedValue(obj, path)] are all charted. *)
Definition charted_path (obj path : jsval) : bool :=
  match path with
  | VStr p => if truthy path then charted_walk obj (split "." p) else true
  | _ => true
  end.

(** The reads of the lookup of a placeholder are all charted. *)
Definition charted_hole (data boilerplate : jsval) (raw : string) : bool :=
  if starts_with "boilerplate." (trim raw)
  then charted_path boilerplate (VStr (drop 12 (trim raw)))
  else charted_path data (VStr (trim raw)).

(** The reads of the lookups of the placeholders of a template are all
    charted. *)
Definition charted_template (data boilerplate : jsval) (t : string) : bool :=
  forallb (fun g =>
             match g with
             | Lit _ => true
             | Hole raw => charted_hole data (or_empty boilerplate) raw
             end) (segments t).

(** A segment that does not read the data record. *)
Definition boilerplate_hole (g : segment) : bool :=
  match g with
  | Hole raw => starts_with "boilerplate." (trim raw)
  | Lit _ => true
  end.

(** A segment that does not read the boilerplate mapping. *)
Definition data_hole (g : segment) : bool :=
  match g with
  | Hole raw => negb (starts_with "boilerplate." (trim raw))
  | Lit _ => true
  end.

(** *** Validation *)

(** The values that count as missing: the falsy ones. *)
Definition falsy (v : jsval) : Prop :=
  v = VUndef \/ v = VNull \/ v = VBool false \/ v = VNum 0 \/ v = VStr EmptyString.

(** The opening of the messages of a field. *)
Definition quoted_label (field : jsval) : string :=
  "Field " ++ dquote ++ to_string (get_prop field "label") ++ dquote.

(** The message of a required field that is missing. *)
Definition missing_message (field : jsval) : string :=
  quoted_label field ++ " is required".

(** A message of the checks of the type of a field. *)
Definition type_message (field : jsval) (m : string) : Prop :=
  exists rest, m = quoted_label field ++ " must be " ++ rest.

(** The fields of a list of sections, in the order of the schema. *)
Definition schema_fields (sections : list jsval) : list jsval :=
  flat_map (fun section =>
              match get_prop section "fields" with
              | VArr fields => fields
              | _ => []
              end) sections.

(** What one field contributes to the list of messages: the message of a
    missing field when the field is required and what the record reads
    under its id is falsy, and then messages of the checks of its type,
    none when the record reads [undefined]. *)
Definition field_part (data field : jsval) (part : list string) : Prop :=
  exists value checks,
    index data (to_string (get_prop field "id")) = Ok value /\
    Forall (type_message field) checks /\
    (is_undef value = true -> checks = []) /\
    (truthy (get_prop field "required") = true /\ falsy value ->
     part = missing_message field :: checks) /\
    (~ (truthy (get_prop field "required") = true /\ falsy value) ->
     part = checks).

(** A field whose label and id have the built-in conversion to text, and
    under whose id the read of the record is charted. *)
Definition field_plain (data field : jsval) : Prop :=
  plain_text (get_prop field "label") = true /\
  plain_text (get_prop field "id") = true /\
  charted data (to_string (get_prop field "id")) = true.

(** A field the validation can go through: it is an object, what the
    record reads under its id is not [null], and that value, its [length]
    and the bounds of the field have the built-in conversions. *)
Definition field_ok (data field : jsval) : Prop :=
  is_nullish field = false /\
  field_plain data field /\
  (exists value,
     index data (to_string (get_prop field "id")) = Ok value /\
     value <> VNull /\ plain_text value = true /\
     plain_text (get_prop value "length") = true) /\
  Forall (fun bound =>
            plain_text (opt_member (get_prop field "validation") bound) = true)
    ["min"; "max"; "minLength"; "maxLength"].

(** A section the validation can go through: it has no field list, or a
    list of such fields. *)
Definition section_ok (data section : jsval) : Prop :=
  is_nullish section = false /\
  (is_nullish (get_prop section "fields") = true \/
   exists fields,
     get_prop section "fields" = VArr fields /\ Forall (field_ok data) fields).

(** *** Documents and previews *)

Definition is_body_row (r : table_row) : bool := negb (tableHeader r).

Definition element_text (e : element) : jsval :=
  match e with
  | EParagraph p => text p
  | ETable _ => VUndef
  end.

(** The texts of the paragraphs of a document, section by section. *)
Definition texts (doc : document) : list (list jsval) :=
  map (fun s => map element_text (children s)) (sections doc).

Definition count {A : Type} (p : A -> bool) (l : list A) : nat :=
  List.length (filter p l).

(** A piece of a table's inside: a row, a cell, a header or text. *)
Definition cell_piece (p : piece) : bool :=
  match p with
  | Open (Thead | Tbody | Tr | Th | Td) _ => true
  | Open _ _ => false
  | Raw _ => true
  end.

(** The tags the comparison counts. *)
Definition counted (t : tag) : bool :=
  match t with
  | Section | Heading | P | Table => true
  | _ => false
  end.

(** A list that iterates without an element. *)
Definition iterates_empty (v : jsval) : bool :=
  match iterate v with
  | Ok [] => true
  | _ => false
  end.

(** A table item without a body row, by its first directive: in loop mode
    the loop path resolves to something other than an array with an
    element; in source mode the source path resolves to nothing that has
    default rows; in static mode the list of rows is empty; in empty-rows
    mode the count allows no pass; and an item without any directive. *)
Definition no_body_row (data contentJson item : jsval) : bool :=
  if truthy (get_prop item "loop") then
    match get_prop item "loop" with
    | VStr loop =>
        match getNestedValue data (VStr (trim (remove_chars loop_char loop))) with
        | Ok (VArr (_ :: _)) => false
        | Ok _ => true
        | Throw _ => false
        end
    | _ => false
    end
  else if truthy (get_prop item "source") then
    match get_prop item "source" with
    | VStr source =>
        match getNestedValue contentJson
                (VStr (trim (remove_chars brace_char source))) with
        | Ok tableData =>
            (negb (truthy tableData && truthy (get_prop tableData "defaultRows"))
             || iterates_empty (get_prop tableData "defaultRows"))%bool
        | Throw _ => false
        end
    | _ => false
    end
  else if truthy (get_prop item "rows") then
    iterates_empty (get_prop item "rows")
  else if truthy (get_prop item "emptyRows") then
    Nat.eqb (loop_count (get_prop item "emptyRows")) 0
  else true.

(** A table item for which [createTable] has no row: no header row and
    no body row. *)
Definition no_row (data contentJson item : jsval) : bool :=
  (negb (truthy (get_prop item "headers"))
   && no_body_row data contentJson item)%bool.

(** The table items without a row among the content items the renderers
    reach in [item]: the item itself, or the items of a conditional block
    whose condition holds. *)
Fixpoint rowless (fuel : nat) (data contentJson item : jsval) : nat :=
  let type := get_prop item "type" in
  if is_case type "paragraph" then 0
  else if is_case type "table" then
    if no_row data contentJson item then 1 else 0
  else if is_case type "conditional" then
    match evaluateCondition (get_prop item "condition") data, fuel with
    | Ok true, S fuel' =>
        match iterate (or_else (get_prop item "content") (VArr [])) with
        | Ok subItems => list_sum (map (rowless fuel' data contentJson) subItems)
        | Throw _ => 0
        end
    | _, _ => 0
    end
  else 0.

(** An item of a section that is not skipped: it has no condition, or
    its condition holds. *)
Definition shown (data item : jsval) : bool :=
  (negb (truthy (get_prop item "condition"))
   || match evaluateCondition (get_prop item "condition") data with
      | Ok true => true
      | _ => false
      end)%bool.

Definition item_rowless (fuel : nat) (data contentJson item : jsval) : nat :=
  if shown data item then rowless fuel data contentJson item else 0.

(** The table items without a row in a section. *)
Definition section_rowless (data contentJson section : jsval) : nat :=
  if (is_case (get_prop section "type") "header"
      || is_case (get_prop section "type") "footer")%bool then 0
  else if truthy (get_prop section "content") then
    match iterate (get_prop section "content") with
    | Ok items =>
        list_sum (map (item_rowless (depth section) data contentJson) items)
    | Throw _ => 0
    end
  else 0.

(** A heading level the library has a style for. *)
Definition known_level (heading : jsval) : bool :=
  existsb (String.eqb (to_string (or_else (get_prop heading "level") (VNum 1))))
    ["1"; "2"; "3"; "4"; "5"; "6"].

(** A section whose heading has a level without a style: [1], otherwise
    [0]. *)
Definition section_unstyled (section : jsval) : nat :=
  if (is_case (get_prop section "type") "header"
      || is_case (get_prop section "type") "footer")%bool then 0
  else if (truthy (get_prop section "heading")
           && negb (known_level (get_prop section "heading")))%bool then 1
  else 0.

(** The sections a structure lists. *)
Definition listed_sections (structureJson : jsval) : list jsval :=
  match iterate (get_prop structureJson "sections") with
  | Ok secs => secs
  | Throw _ => []
  end.

(** The table items without a row, and the headings without a style, of a
    structure. *)
Definition tables_without_rows (structureJson data contentJson : jsval) : nat :=
  list_sum (map (section_rowless data contentJson) (listed_sections structureJson)).

Definition headings_without_style (structureJson : jsval) : nat :=
  list_sum (map section_unstyled (listed_sections structureJson)).

(** What the two renderings of one content item have in common, [r] being
    the number of its table items without a row. *)
Record item_agree (es : list element) (ps : list piece) (r : nat) : Prop := {
  no_heading : count is_heading es = 0;
  no_html_heading : html_count Heading ps = 0;
  no_html_section : html_count Section ps = 0;
  same_paragraphs : count is_body_paragraph es = html_count P ps;
  same_tables : count is_table es + r = html_count Table ps }.

(** What the two renderings of the children of one section have in
    common, [u] being the number of its headings without a style. *)
Record section_agree (es : list element) (ps : list piece) (u r : nat)
  : Prop := {
  same_headings : count is_heading es + u = html_count Heading ps;
  same_body : count is_body_paragraph es = html_count P ps + u;
  same_section_tables : count is_table es + r = html_count Table ps }.

(** The document generated when no section is rendered. *)
Definition empty_document : document :=
  {| sections := [{| children := [EParagraph (plain "Empty document")] |}] |}.


(** *** Scenarios *)

(** A report of one section: a heading and one paragraph. *)
Definition report_structure (paragraph_template : string) : jsval :=
  VObj [("sections",
         VArr [VObj [("heading", VObj [("text", VStr "Report for {{project}}")]);
                     ("content",
                      VArr [VObj [("type", VStr "paragraph");
                                  ("template", VStr paragraph_template)]])]])].

Definition report_content : jsval :=
  VObj [("blocks",
         VObj [("intro", VObj [("default", VStr "Standard intro text.")])])].

Definition report_data : jsval := VObj [("project", VStr "Alpha")].

(** Three readings of the clock, two of them on the same day. *)
Definition a_morning : string := "2024-01-15T10:30:00.000Z".
Definition that_evening : string := "2024-01-15T23:59:59.999Z".
Definition next_morning : string := "2024-01-16T10:30:00.000Z".

Definition dated_structure : jsval :=
  VObj [("sections",
         VArr [VObj [("heading", VObj [("text", VStr "Issued {{today}}")])]])].

Definition table_without_rows : jsval :=
  VObj [("sections",
         VArr [VObj [("content", VArr [VObj [("type", VStr "table")]])]])].

(** A section with a heading, a paragraph and a table over the crew. *)
Definition crew_structure : jsval :=
  VObj [("sections",
         VArr [VObj [("heading", VObj [("text", VStr "Crew of {{project}}");
                                       ("level", VNum 2)]);
                     ("content",
                      VArr [VObj [("type", VStr "paragraph");
                                  ("text", VStr "On site today:")];
                            VObj [("type", VStr "table");
                                  ("headers", VArr [VStr "Name"; VStr "Role"]);
                                  ("loop", VStr "{{#crew}}");
                                  ("rows", VArr [VStr "{{name}}";
                                                 VStr "{{role}}"])]])]])].

Definition crew_data : jsval :=
  VObj [("project", VStr "Alpha");
        ("crew", VArr [VObj [("name", VStr "Ann"); ("role", VStr "diver")];
                       VObj [("name", VStr "Bo"); ("role", VStr "tender")]])].

Definition no_section : jsval := VObj [("sections", VArr [])].

Definition deep_heading : jsval :=
  VObj [("sections",
         VArr [VObj [("heading",
                      VObj [("text", VStr "Annex"); ("level", VNum 7)])]])].

(** A paragraph shown once the date is known. *)
Definition dated_paragraph : jsval :=
  VObj [("sections",
         VArr [VObj [("content",
                      VArr [VObj [("type", VStr "paragraph");
                                  ("text", VStr "Dated copy");
                                  ("condition",
                                   VObj [("field", VStr "today");
                                         ("operator", VStr "greater_than");
                                         ("value", VStr "0")])]])]])].

(** A form of one section with a required number and a free text. *)
Definition count_field : jsval :=
  VObj [("id", VStr "count"); ("label", VStr "Count"); ("type", VStr "number");
        ("required", VBool true)].

Definition note_field : jsval :=
  VObj [("id", VStr "note"); ("label", VStr "Note"); ("type", VStr "text")].

Definition order_section : jsval :=
  VObj [("id", VStr "order"); ("fields", VArr [count_field; note_field])].

Definition order_schema : jsval := VObj [("sections", VArr [order_section])].

Definition order_data : jsval :=
  VObj [("count", VNum 0); ("note", VStr "two crates")].

(** *** Further definitions *)

(** [s] has the character [c]. *)
Fixpoint mentions (c : ascii) (s : string) : bool :=
  match s with
  | EmptyString => false
  | String c' rest => (Ascii.eqb c' c || mentions c rest)%bool
  end.

(** Every character of [s] passes [ok]. *)
Fixpoint all_chars (ok : ascii -> bool) (s : string) : bool :=
  match s with
  | EmptyString => true
  | String c rest => (ok c && all_chars ok rest)%bool
  end.

(** A heading whose level, [1] when it gives none, is written with
    letters and digits: the preview puts the level into the name of the
    heading tag as it is, and such a level leaves the tag a single tag. *)
Definition tag_level (heading : jsval) : bool :=
  let level := or_else (get_prop heading "level") (VNum 1) in
  (plain_text level && all_chars Storage.is_alnum (to_string level))%bool.

(** A rendering with the text [a] put before it; an exception stays. *)
Definition prefixed (a : string) (r : result jsval) : result jsval :=
  match r with
  | Ok (VStr out) => Ok (VStr (a ++ out))
  | other => other
  end.

(** A clause with the operator [op] and the other entries [rest]. *)
Definition with_operator (op : string) (rest : list (string * jsval)) : jsval :=
  VObj (("operator", VStr op) :: rest).

(** The outcome of a clause, negated; an exception stays. *)
Definition negated (r : result bool) : result bool :=
  match r with
  | Ok b => Ok (negb b)
  | Throw e => Throw e
  end.

(** One of the six operators [evaluateCondition] has a case for. *)
Definition known_operator (operator : jsval) : bool :=
  (is_case operator "equals" || is_case operator "not_equals"
   || is_case operator "greater_than" || is_case operator "less_than"
   || is_case operator "contains" || is_case operator "not_contains")%bool.

(** A section the generator leaves to the page layout. *)
Definition layout_section (section : jsval) : bool :=
  (is_case (get_prop section "type") "header"
   || is_case (get_prop section "type") "footer")%bool.

(** A capital letter of the ASCII range. *)
Definition capital (c : ascii) : bool :=
  (Nat.leb 65 (nat_of_ascii c) && Nat.leb (nat_of_ascii c) 90)%bool.

(** The characters [escapeHtml] replaces. *)
Definition html_special (c : ascii) : bool :=
  (Ascii.eqb c "&" || Ascii.eqb c "<" || Ascii.eqb c ">" || Ascii.eqb c "034"
   || Ascii.eqb c "'")%bool.

(** The characters that can open or close markup or an attribute. *)
Definition html_delimiter (c : ascii) : bool :=
  (Ascii.eqb c "<" || Ascii.eqb c ">" || Ascii.eqb c "034" || Ascii.eqb c "'")%bool.

(** The number of cells of a list of rows. *)
Definition cell_total (rows : list table_row) : nat :=
  list_sum (map (fun r => List.length (cells r)) rows).

(** A field that is not required and under whose id the record reads
    [undefined]; the id has the built-in conversion to text, and the read
    is charted. *)
Definition optional_absent (data field : jsval) : Prop :=
  is_nullish field = false /\
  plain_text (get_prop field "id") = true /\
  charted data (to_string (get_prop field "id")) = true /\
  truthy (get_prop field "required") = false /\
  index data (to_string (get_prop field "id")) = Ok VUndef.

(** A section of such fields, or without a field list. *)
Definition optional_section (data section : jsval) : Prop :=
  is_nullish section = false /\
  (is_nullish (get_prop section "fields") = true \/
   exists fields,
     get_prop section "fields" = VArr fields
     /\ Forall (optional_absent data) fields).

(** A character of the ASCII range. *)
Definition ascii_char (c : ascii) : bool := Nat.ltb (nat_of_ascii c) 128.

(** A name the model measures as the code does: a text of ASCII
    characters, or a value that is no text and whose [length], when it has
    one, is a number. *)
Definition name_exact (name : jsval) : Prop :=
  match name with
  | VStr s => all_chars ascii_char s = true
  | _ =>
      match get_prop name "length" with
      | VUndef | VNum _ => True
      | _ => False
      end
  end.

(** A template name [validateTemplateData] takes. *)
Definition name_ok (name : jsval) : Prop :=
  exists s,
    name = VStr s /\ 3 <= String.length (trim s) /\ String.length s <= 255.

(** The characters of the name a generated document is stored under. *)
Definition file_char (c : ascii) : bool :=
  (Storage.is_alnum c || Ascii.eqb c "_")%bool.

(** A conditional block with no condition of its own. *)
Definition block (items : list jsval) : jsval :=
  VObj [("type", VStr "conditional"); ("content", VArr items)].

(** Under the key of the column the row reads the empty text; under
    [__proto__] it reads the prototype of objects. *)
Definition empty_cell (row col : jsval) : Prop :=
  lookup row (to_string (get_prop col "key"))
  = Ok (if String.eqb (to_string (get_prop col "key")) "__proto__"
        then object_prototype else VStr EmptyString).

(** ** Small runs *)

Example trim_run : trim "  a b   " = "a b".
Proof. reflexivity. Qed.

Example split_run : split "." "a..b" = ["a"; EmptyString; "b"].
Proof. reflexivity. Qed.

Example to_string_run :
  to_string (VArr [VNum (-12); VNull; VArr [VStr "x"; VBool true]]) = "-12,,x,true".
Proof. reflexivity. Qed.

Example lt_run :
  lt (VStr "10") (VStr "9") = true /\ lt (VStr "10") (VNum 9) = false /\
  lt VNull (VNum 1) = true /\ lt (VStr "abc") (VNum 1) = false.
Proof. repeat split; reflexivity. Qed.

Example getNestedValue_run :
  getNestedValue (VObj [("a", VArr [VStr "xy"; VNum 2])]) (VStr "a.0.length")
  = Ok (VNum 2).
Proof. reflexivity. Qed.

Example segments_run :
  segments "a{{ b }}{{}}{{{c}}}"
  = [Lit "a"; Hole " b "; Lit "{"; Lit "{"; Lit "}"; Lit "}"; Hole "{c";
     Lit "}"].
Proof. reflexivity. Qed.

Example renderTemplate_run :
  renderTemplate (VStr "{{ who.name }} has {{n}} of {{boilerplate.unit}}")
    (VObj [("who", VObj [("name", VStr "Ann")]); ("n", VNum 3)])
    (VObj [("unit", VStr "crates")])
  = Ok (VStr "Ann has 3 of crates").
Proof. reflexivity. Qed.

Example validateUserData_run :
  validateUserData order_data order_schema
  = Ok {| valid := false;
          errors := ["Field " ++ dquote ++ "Count" ++ dquote ++ " is required"] |}.
Proof. reflexivity. Qed.

Example generateHtmlPreview_run :
  generateHtmlPreview (report_structure "{{boilerplate.intro.default}}")
    report_data report_content
  = "<div class=" ++ dquote ++ "document-preview" ++ dquote
    ++ "><section><h1>Report for Alpha</h1><p>Standard intro text.</p>"
    ++ "</section></div>".
Proof. reflexivity. Qed.

(** ** Monadic plumbing *)

Lemma bind_ok {A B : Type} (c : result A) (k : A -> result B) (b : B) :
  (x <- c ;; k x) = Ok b -> exists a, c = Ok a /\ k a = Ok b.
Proof.
  destruct c as [a|e]; simpl; intros H; [eauto | discriminate].
Qed.

Lemma bind_throw {A B : Type} (c : result A) (k : A -> result B) (e : exn) :
  (x <- c ;; k x) = Throw e ->
  c = Throw e \/ exists a, c = Ok a /\ k a = Throw e.
Proof.
  destruct c as [a|e']; simpl; intros H; [eauto | left; congruence].
Qed.

Lemma member_ok (v : jsval) (k : string) (x : jsval) :
  member v k = Ok x -> is_nullish v = false /\ x = get_prop v k.
Proof.
  unfold member. destruct (is_nullish v); [discriminate|].
  intros [= <-]. auto.
Qed.

Section Plumbing.

Context {A B : Type}.

Lemma mapM_ok (f : A -> result B) (xs : list A) (ys : list B) :
  mapM f xs = Ok ys -> Forall2 (fun x y => f x = Ok y) xs ys.
Proof.
  revert ys. induction xs as [|x xs IH]; simpl; intros ys H.
  - injection H as <-. constructor.
  - apply bind_ok in H as (y & Hy & H).
    apply bind_ok in H as (ys' & Hys & H).
    injection H as <-. constructor; auto.
Qed.

Lemma mapM_total (f : A -> result B) (xs : list A) :
  (forall x, In x xs -> exists y, f x = Ok y) ->
  exists ys, mapM f xs = Ok ys.
Proof.
  induction xs as [|x xs IH]; simpl; intros H; [eauto|].
  destruct (H x) as (y & ->); [auto|].
  destruct IH as (ys & ->); [auto|]. simpl. eauto.
Qed.

Lemma mapM_throw (f : A -> result B) (xs : list A) (e : exn) :
  mapM f xs = Throw e -> exists x, In x xs /\ f x = Throw e.
Proof.
  induction xs as [|x xs IH]; simpl; [discriminate|].
  destruct (f x) as [y|e'] eqn:E; simpl.
  - destruct (mapM f xs) as [ys|e'']; simpl; [discriminate|].
    intros [= <-]. destruct IH as (x' & Hin & Hx); eauto.
  - intros [= <-]. eauto.
Qed.

Lemma mapM_raises (f : A -> result B) (xs : list A) (x : A) (e : exn) :
  In x xs -> f x = Throw e -> exists e', mapM f xs = Throw e'.
Proof.
  induction xs as [|y xs IH]; simpl; [contradiction|].
  intros [->|Hin] Hx.
  - rewrite Hx. simpl. eauto.
  - destruct (f y) as [z|e1]; simpl; [|eauto].
    destruct (IH Hin Hx) as (e' & ->). simpl. eauto.
Qed.

Lemma mapM_ext (f g : A -> result B) (xs : list A) :
  (forall x, In x xs -> f x = g x) -> mapM f xs = mapM g xs.
Proof.
  induction xs as [|x xs IH]; simpl; intros H; [reflexivity|].
  rewrite (H x), IH; auto.
Qed.

End Plumbing.

(** ** Members *)

Lemma get_at_length (s : string) (i : nat) (c : ascii) :
  String.get i s = Some c -> i < String.length s.
Proof.
  revert i. induction s as [|d s IH]; intros [|i]; simpl; try discriminate.
  - lia.
  - intros H. apply IH in H. lia.
Qed.

(** A member that reads as something is a member of the value itself. *)
Lemma has_own_of_value (v : jsval) (k : string) :
  get_prop v k <> VUndef -> has_own v k = true.
Proof.
  destruct v as [| | | |s|xs|props|name arity src]; simpl;
    try (intros H; now contradiction H).
  - destruct (String.eqb k "length"); [reflexivity|]. simpl.
    destruct (array_index k) as [i|]; [|intros H; now contradiction H].
    unfold char_at. destruct (String.get i s) eqn:E;
      [|intros H; now contradiction H].
    intros _. apply Nat.ltb_lt. eapply get_at_length; eauto.
  - destruct (String.eqb k "length"); [reflexivity|]. simpl.
    destruct (array_index k) as [i|]; [|intros H; now contradiction H].
    intros H. apply Nat.ltb_lt.
    destruct (Nat.lt_ge_cases i (List.length xs)) as [Hlt|Hge]; [exact Hlt|].
    contradiction H. now apply nth_overflow.
  - induction props as [|[k' x] props IH]; simpl;
      [intros H; now contradiction H|].
    destruct (String.eqb k k'); [reflexivity|exact IH].
  - destruct (String.eqb k "name"); [reflexivity|].
    destruct (String.eqb k "length"); [reflexivity|].
    intros H; now contradiction H.
Qed.

Lemma lookup_own (v : jsval) (k : string) :
  get_prop v k <> VUndef -> lookup v k = Ok (get_prop v k).
Proof.
  intros H. unfold lookup. now rewrite has_own_of_value.
Qed.

Lemma truthy_defined (v : jsval) : truthy v = true -> v <> VUndef.
Proof. intros H ->. discriminate. Qed.

(** A plain object never raises when one of its members is read. *)
Lemma lookup_object (props : list (string * jsval)) (k : string) :
  exists v, lookup (VObj props) k = Ok v.
Proof.
  unfold lookup. destruct (has_own (VObj props) k); [eauto|].
  unfold inherited. cbn [restricted own_methods find_method].
  repeat match goal with
         | |- context [if ?c then _ else _] => destruct c
         | |- context [match ?c with _ => _ end] => destruct c
         end; eauto.
Qed.

(** ** Texts *)

Lemma append_empty_r (s : string) : s ++ EmptyString = s.
Proof. induction s; simpl; congruence. Qed.

Lemma append_assoc_s (a b c : string) : (a ++ b) ++ c = a ++ (b ++ c).
Proof. induction a; simpl; congruence. Qed.

Lemma length_append_s (a b : string) :
  String.length (a ++ b) = String.length a + String.length b.
Proof. induction a; simpl; congruence. Qed.

Lemma drop_append (a b : string) : drop (String.length a) (a ++ b) = b.
Proof. induction a; simpl; auto. Qed.

Lemma concat_empty_cons (x : string) (xs : list string) :
  String.concat EmptyString (x :: xs) = x ++ String.concat EmptyString xs.
Proof.
  destruct xs; simpl; [now rewrite append_empty_r | reflexivity].
Qed.

(** ** The placeholder scan *)

Lemma span_path_spec (s p t : string) :
  span_path s = (p, t) -> s = p ++ t.
Proof.
  revert p t. induction s as [|c s IH]; simpl; intros p t H.
  - injection H as <- <-. reflexivity.
  - destruct (Ascii.eqb c "}").
    + injection H as <- <-. reflexivity.
    + destruct (span_path s) as [p' t'] eqn:E. injection H as <- <-.
      simpl. f_equal. auto.
Qed.

(** A match at the head of [s] is the text [{{raw}}] followed by the rest
    of [s]. *)
Lemma placeholder_at_spec (s raw : string) :
  placeholder_at s = Some raw -> exists after, s = matched raw ++ after.
Proof.
  unfold placeholder_at, matched.
  destruct s as [|c1 [|c2 rest]]; try discriminate.
  destruct (Ascii.eqb_spec c1 "{"); [|discriminate].
  destruct (Ascii.eqb_spec c2 "{"); [|discriminate]. simpl. subst.
  destruct (span_path rest) as [p t] eqn:E.
  apply span_path_spec in E.
  destruct p as [|c p]; [discriminate|].
  destruct t as [|d1 [|d2 after]]; try discriminate.
  destruct (Ascii.eqb_spec d1 "}"); [|discriminate].
  destruct (Ascii.eqb_spec d2 "}"); [|discriminate]. simpl.
  intros [= <-]. subst. exists after. simpl. f_equal.
  rewrite append_assoc_s. reflexivity.
Qed.

Lemma scan_text (s : string) (k : nat) :
  k <= String.length s ->
  String.concat EmptyString (map segment_text (scan k s)) = drop k s.
Proof.
  revert k. induction s as [|c rest IH]; intros k Hk.
  - simpl in *. destruct k; reflexivity.
  - destruct k as [|k].
    + cbn [scan drop].
      destruct (placeholder_at (String c rest)) as [raw|] eqn:E.
      * apply placeholder_at_spec in E as (after & E).
        cbn [map]. rewrite concat_empty_cons. cbn [segment_text].
        unfold matched in E. simpl in E. injection E as -> E.
        assert (Hrest : rest = ("{" ++ raw ++ "}}") ++ after).
        { rewrite E. simpl. now rewrite append_assoc_s. }
        rewrite IH.
        -- replace (String.length raw + 3)
             with (String.length ("{" ++ raw ++ "}}")).
           ++ rewrite Hrest at 1. rewrite drop_append.
              rewrite Hrest. unfold matched. simpl.
              now rewrite !append_assoc_s.
           ++ simpl. rewrite length_append_s. simpl. lia.
        -- rewrite Hrest, length_append_s. simpl.
           rewrite length_append_s. simpl. lia.
      * cbn [map]. rewrite concat_empty_cons. cbn [segment_text].
        rewrite IH by lia. reflexivity.
    + cbn [scan drop]. apply IH. simpl in Hk. lia.
Qed.

(** The segments of a template, put back together, are the template. *)
Lemma segments_text (t : string) :
  String.concat EmptyString (map segment_text (segments t)) = t.
Proof. unfold segments. now rewrite scan_text by lia. Qed.

(** *** Where the placeholders of a template are *)

Lemma placeholder_at_plain (c : ascii) (rest : string) :
  Ascii.eqb c "{" = false -> placeholder_at (String c rest) = None.
Proof.
  intros Hc. unfold placeholder_at. destruct rest; [reflexivity|].
  now rewrite Hc.
Qed.

(** Text without an opening brace is scanned as itself. *)
Lemma scan_plain (a b : string) :
  mentions "{" a = false ->
  scan 0 (a ++ b) = (map Lit (list_ascii_of_string a) ++ scan 0 b)%list.
Proof.
  induction a as [|c a IH]; intros H; [reflexivity|].
  simpl in H. apply orb_false_iff in H as (Hc & Ha).
  cbn [append scan list_ascii_of_string map app].
  rewrite placeholder_at_plain by assumption. now rewrite IH.
Qed.

Lemma scan_skip (a b : string) : scan (String.length a) (a ++ b) = scan 0 b.
Proof.
  induction a as [|c a IH]; [reflexivity|]. simpl. exact IH.
Qed.

Lemma span_path_plain (raw t : string) :
  mentions "}" raw = false ->
  span_path (raw ++ String "}" t) = (raw, String "}" t).
Proof.
  induction raw as [|c raw IH]; intros H; [reflexivity|].
  simpl in H. apply orb_false_iff in H as (Hc & Hr).
  simpl. rewrite Hc, IH by assumption. reflexivity.
Qed.

(** A well-formed placeholder at the head of a text is one segment, and
    the scan resumes behind it. *)
Lemma scan_placeholder (raw b : string) :
  raw <> EmptyString -> mentions "}" raw = false ->
  scan 0 (matched raw ++ b) = Hole raw :: scan 0 b.
Proof.
  intros Hne Hraw. unfold matched.
  assert (Hat : placeholder_at (("{{" ++ raw ++ "}}") ++ b) = Some raw).
  { cbn [append placeholder_at]. cbn [Ascii.eqb Bool.eqb andb].
    rewrite append_assoc_s. cbn [append].
    rewrite span_path_plain by assumption.
    destruct raw; [contradiction|reflexivity]. }
  cbn [append] in *. cbn [scan]. rewrite Hat. f_equal.
  replace (String "{" ((raw ++ "}}") ++ b)) with (("{" ++ raw ++ "}}") ++ b)
    by reflexivity.
  replace (String.length raw + 3) with (String.length ("{" ++ raw ++ "}}")).
  - apply scan_skip.
  - simpl. rewrite length_append_s. simpl. lia.
Qed.

(** ** Template substitution *)

(** The callback looks the placeholder up and keeps the matched text when
    the value is [undefined]. *)
Lemma substitute_spec (data boilerplate : jsval) (raw : string) :
  substitute data boilerplate raw =
  (value <- placeholder_value data boilerplate raw ;;
   Ok (if negb (is_undef value) then to_string value else matched raw)).
Proof.
  unfold substitute, placeholder_value.
  destruct (starts_with _ _); reflexivity.
Qed.

Lemma substitute_replacement (data boilerplate : jsval) (raw : string) :
  substitute data boilerplate raw =
  (value <- placeholder_value data boilerplate raw ;; Ok (replacement raw value)).
Proof.
  rewrite substitute_spec. unfold replacement.
  destruct (placeholder_value data boilerplate raw) as [v|e]; [|reflexivity].
  simpl. now destruct (is_undef v).
Qed.

Lemma renderTemplate_text (t : string) (data boilerplate : jsval) :
  renderTemplate (VStr t) data boilerplate =
  (parts <- mapM (render_segment data (or_empty boilerplate)) (segments t) ;;
   Ok (VStr (String.concat EmptyString parts))).
Proof.
  unfold renderTemplate. fold (or_empty boilerplate).
  destruct t as [|c t]; reflexivity.
Qed.

Lemma renderTemplate_other (template data boilerplate : jsval) :
  is_string template = false ->
  renderTemplate template data boilerplate = Ok template.
Proof.
  intros H. unfold renderTemplate. rewrite H.
  now rewrite orb_true_r.
Qed.

(** A text template renders to a text, when it renders. *)
Lemma renderTemplate_gives_text (t : string) (data boilerplate out : jsval) :
  renderTemplate (VStr t) data boilerplate = Ok out -> is_string out = true.
Proof.
  rewrite renderTemplate_text. intros H.
  apply bind_ok in H as (parts & _ & H). now injection H as <-.
Qed.

Lemma matched_not_empty (raw : string) : matched raw <> EmptyString.
Proof. unfold matched. simpl. discriminate. Qed.

(** C3, as the code has it.  A text template renders part by part, one
    part per segment of the template: a character outside any placeholder
    gives itself, a placeholder whose path resolves to [undefined] gives its
    own text, braces included and so never the empty text, and any other
    placeholder gives the text of its value, when the value has the
    built-in conversion to text.  The rendering returns when the lookup of
    every placeholder returns a value with the built-in conversion to
    text; it raises when the lookup of one of its placeholders raises,
    and, the values looked up having the built-in conversion to text,
    only then and with the exception of one of these lookups.  The texts
    of the segments make up the template: text without an opening brace
    is scanned character by character, and a placeholder [{{raw}}], [raw]
    not empty and without a closing brace, is one segment.  A template
    that is not a text is returned as it is; and
    ["Hello {{missing.path}}"] rendered against a record in which
    [missing.path] is [undefined] is returned unchanged.  The lookups of
    the placeholders are taken to go through charted reads only. *)
Theorem renderTemplate_keeps_unresolved :
  forall (t : string) (data boilerplate : jsval),
    charted_template data boilerplate t = true ->
    (Forall
       (fun g =>
          match g with
          | Lit _ => True
          | Hole raw =>
              exists v,
                placeholder_value data (or_empty boilerplate) raw = Ok v /\
                plain_text v = true
          end) (segments t) ->
     exists out, renderTemplate (VStr t) data boilerplate = Ok (VStr out)) /\
    (forall out,
       renderTemplate (VStr t) data boilerplate = Ok out ->
       exists parts,
         out = VStr (String.concat EmptyString parts) /\
         Forall2
           (fun g part =>
              match g with
              | Lit c => part = String c EmptyString
              | Hole raw =>
                  exists v,
                    placeholder_value data (or_empty boilerplate) raw = Ok v /\
                    (is_undef v = true ->
                     part = segment_text g /\ part <> EmptyString) /\
                    (is_undef v = false -> plain_text v = true ->
                     part = to_string v)
              end) (segments t) parts) /\
    (forall raw e,
       In (Hole raw) (segments t) ->
       placeholder_value data (or_empty boilerplate) raw = Throw e ->
       exists e', renderTemplate (VStr t) data boilerplate = Throw e') /\
    (Forall
       (fun g =>
          match g with
          | Lit _ => True
          | Hole raw =>
              forall v,
                placeholder_value data (or_empty boilerplate) raw = Ok v ->
                plain_text v = true
          end) (segments t) ->
     forall e,
       renderTemplate (VStr t) data boilerplate = Throw e ->
       exists raw,
         In (Hole raw) (segments t) /\
         placeholder_value data (or_empty boilerplate) raw = Throw e) /\
    String.concat EmptyString (map segment_text (segments t)) = t /\
    (forall a b,
       mentions "{" a = false ->
       segments (a ++ b) = (map Lit (list_ascii_of_string a) ++ segments b)%list) /\
    (forall raw b,
       raw <> EmptyString -> mentions "}" raw = false ->
       segments (matched raw ++ b) = Hole raw :: segments b) /\
    (forall template,
       is_string template = false ->
       renderTemplate template data boilerplate = Ok template) /\
    (charted_path data (VStr "missing.path") = true ->
     getNestedValue data (VStr "missing.path") = Ok VUndef ->
     renderTemplate (VStr "Hello {{missing.path}}") data boilerplate
       = Ok (VStr "Hello {{missing.path}}")).
Proof.
  intros t data boilerplate _.
  split; [|split; [|split; [|split; [|split; [|split; [|split; [|split]]]]]]].
  - intros Hall. rewrite renderTemplate_text.
    destruct (mapM_total (render_segment data (or_empty boilerplate))
                (segments t)) as (parts & ->).
    + intros g Hg. rewrite Forall_forall in Hall. specialize (Hall g Hg).
      destruct g as [c|raw]; simpl; [eauto|].
      destruct Hall as (v & Hv & _). rewrite substitute_replacement, Hv.
      simpl. eauto.
    + simpl. eauto.
  - intros out H. rewrite renderTemplate_text in H.
    apply bind_ok in H as (parts & Hparts & H). injection H as <-.
    exists parts. split; [reflexivity|].
    apply mapM_ok in Hparts.
    induction Hparts as [|g part gs ps Hg _ IH]; constructor; auto.
    destruct g as [c|raw]; simpl in Hg.
    + now injection Hg as <-.
    + rewrite substitute_replacement in Hg.
      apply bind_ok in Hg as (v & Hv & Hg). injection Hg as <-.
      exists v. split; [exact Hv|]. unfold replacement. split.
      * intros ->. split; [reflexivity|apply matched_not_empty].
      * intros -> _. reflexivity.
  - intros raw e Hin He. rewrite renderTemplate_text.
    destruct (@mapM_raises _ _ (render_segment data (or_empty boilerplate))
                (segments t) (Hole raw) e Hin) as (e' & ->).
    + simpl. now rewrite substitute_replacement, He.
    + simpl. eauto.
  - intros _ e H. rewrite renderTemplate_text in H.
    apply bind_throw in H as [H|(parts & _ & H)]; [|discriminate].
    apply mapM_throw in H as (g & Hg & H).
    destruct g as [c|raw]; simpl in H; [discriminate|].
    exists raw. split; [exact Hg|].
    rewrite substitute_replacement in H.
    apply bind_throw in H as [H|(v & _ & H)]; [exact H|discriminate].
  - apply segments_text.
  - intros a b Ha. now apply scan_plain.
  - intros raw b Hne Hraw. now apply scan_placeholder.
  - intros template H. now apply renderTemplate_other.
  - intros _ Hundef. rewrite renderTemplate_text.
    change (segments "Hello {{missing.path}}")
      with [Lit "H"; Lit "e"; Lit "l"; Lit "l"; Lit "o"; Lit " ";
            Hole "missing.path"].
    cbn [mapM render_segment]. rewrite substitute_spec.
    unfold placeholder_value.
    change (starts_with "boilerplate." (trim "missing.path")) with false.
    cbv iota. change (trim "missing.path") with "missing.path".
    rewrite Hundef. reflexivity.
Qed.

Lemma renderTemplate_keeps_unresolved_witness :
  renderTemplate (VStr "Hello {{missing.path}}")
    (VObj [("missing", VStr "a text"); ("name", VStr "Ann")]) VUndef
  = Ok (VStr "Hello {{missing.path}}") /\
  (exists out,
     renderTemplate (VStr "Hi {{name}}")
       (VObj [("missing", VStr "a text"); ("name", VStr "Ann")]) VUndef
     = Ok (VStr out)).
Proof.
  split.
  - apply (proj2 (proj2 (proj2 (proj2 (proj2 (proj2 (proj2 (proj2
             (@renderTemplate_keeps_unresolved
                "Hello {{missing.path}}"
                (VObj [("missing", VStr "a text"); ("name", VStr "Ann")])
                VUndef eq_refl))))))))); reflexivity.
  - apply (proj1
             (@renderTemplate_keeps_unresolved
                "Hi {{name}}"
                (VObj [("missing", VStr "a text"); ("name", VStr "Ann")])
                VUndef eq_refl)).
    repeat constructor. exists (VStr "Ann"). split; reflexivity.
Defined.

(** C3 as stated fails: a placeholder whose path leads through an
    inherited accessor makes [renderTemplate] raise, and a placeholder
    whose value is the empty text is blanked. *)
Lemma renderTemplate_raises_and_blanks :
  (exists e,
     renderTemplate (VStr "Hello {{constructor.caller}}") (VObj []) VUndef
     = Throw e) /\
  renderTemplate (VStr "Hello {{name}}") (VObj [("name", VStr EmptyString)])
    VUndef
  = Ok (VStr "Hello ").
Proof. split; [eexists|]; reflexivity. Qed.

(** C5. A placeholder whose trimmed path starts with [boilerplate.] is
    replaced by what the rest of the path gives in the boilerplate mapping,
    whatever the data record holds; any other placeholder is replaced by
    what its path gives in the data record, whatever the boilerplate
    mapping holds.  So a template of boilerplate placeholders renders the
    same against any two records, also a record with a [boilerplate] key of
    its own: the library's block wins, and a block missing from the library
    leaves the placeholder as it is. *)
Theorem boilerplate_paths_bypass_data :
  (forall raw data data' boilerplate,
     starts_with "boilerplate." (trim raw) = true ->
     substitute data boilerplate raw = substitute data' boilerplate raw /\
     substitute data boilerplate raw =
       (value <- getNestedValue boilerplate (VStr (drop 12 (trim raw))) ;;
        Ok (if negb (is_undef value) then to_string value else matched raw))) /\
  (forall raw data boilerplate boilerplate',
     starts_with "boilerplate." (trim raw) = false ->
     substitute data boilerplate raw = substitute data boilerplate' raw /\
     substitute data boilerplate raw =
       (value <- getNestedValue data (VStr (trim raw)) ;;
        Ok (if negb (is_undef value) then to_string value else matched raw))) /\
  (forall t data data' boilerplate,
     forallb boilerplate_hole (segments t) = true ->
     renderTemplate (VStr t) data boilerplate
       = renderTemplate (VStr t) data' boilerplate) /\
  (forall t data boilerplate boilerplate',
     forallb data_hole (segments t) = true ->
     renderTemplate (VStr t) data boilerplate
       = renderTemplate (VStr t) data boilerplate') /\
  renderTemplate (VStr "{{boilerplate.blockA}}")
    (VObj [("boilerplate", VObj [("blockA", VStr "from the record")])])
    (VObj [("blockA", VStr "from the library")])
    = Ok (VStr "from the library") /\
  renderTemplate (VStr "{{boilerplate.blockA}}")
    (VObj [("boilerplate", VObj [("blockA", VStr "from the record")])])
    (VObj [])
    = Ok (VStr "{{boilerplate.blockA}}").
Proof.
  split; [|split; [|split; [|split; [|split]]]].
  - intros raw data data' boilerplate H. unfold substitute. rewrite H. auto.
  - intros raw data boilerplate boilerplate' H. unfold substitute.
    rewrite H. auto.
  - intros t data data' boilerplate H. rewrite !renderTemplate_text.
    f_equal. apply mapM_ext. intros g Hg.
    rewrite forallb_forall in H. specialize (H g Hg).
    destruct g as [c|raw]; [reflexivity|].
    cbn [boilerplate_hole render_segment] in *.
    unfold substitute. now rewrite H.
  - intros t data boilerplate boilerplate' H. rewrite !renderTemplate_text.
    f_equal. apply mapM_ext. intros g Hg.
    rewrite forallb_forall in H. specialize (H g Hg).
    destruct g as [c|raw]; [reflexivity|].
    cbn [data_hole render_segment] in *.
    unfold substitute.
    destruct (starts_with "boilerplate." (trim raw)); [discriminate|reflexivity].
  - reflexivity.
  - reflexivity.
Qed.

Lemma boilerplate_paths_bypass_data_witness :
  substitute (VObj [("boilerplate", VObj [("blockA", VStr "from the record")])])
    (VObj [("blockA", VStr "from the library")]) " boilerplate.blockA "
  = substitute VNull (VObj [("blockA", VStr "from the library")])
      " boilerplate.blockA " /\
  renderTemplate (VStr "{{name}} and {{ boilerplate.blockA }}")
    (VObj [("name", VStr "Ann")]) (VObj [("blockA", VStr "B")])
  = Ok (VStr "Ann and B").
Proof.
  split.
  - refine (proj1 (proj1 boilerplate_paths_bypass_data
                     " boilerplate.blockA " _ _ _ _)).
    reflexivity.
  - reflexivity.
Defined.

(** ** Conditions *)

Lemma strict_eq_undef (v : jsval) : strict_eq VUndef v = is_undef v.
Proof. destruct v; reflexivity. Qed.

Lemma lt_undef_l (v : jsval) : lt VUndef v = false.
Proof.
  unfold lt. simpl. destruct (to_primitive v); simpl; try reflexivity;
    match goal with |- match ?x with _ => _ end = _ => destruct x end;
    reflexivity.
Qed.

Lemma lt_undef_r (v : jsval) : lt v VUndef = false.
Proof.
  unfold lt. simpl. destruct (to_primitive v) eqn:E; simpl; try reflexivity;
    try (destruct b; reflexivity);
    match goal with |- match ?x with _ => _ end = _ => destruct x end;
    reflexivity.
Qed.

(** A value with a text under [field] is an object, hence truthy. *)
Lemma field_text_truthy (condition : jsval) (f : string) :
  get_prop condition "field" = VStr f -> truthy condition = true.
Proof.
  destruct condition; simpl; try discriminate; try reflexivity.
Qed.

(** C6, as the code has it.  For a clause whose field is a non-empty text
    looked up through charted reads, and whose comparison value has the
    built-in conversions: when the field path resolves to [undefined] in
    the data record, evaluation returns without raising, and what it
    returns depends on the operator:
    [false] for [greater_than] and [less_than]; for [equals], whether the
    clause's value is itself [undefined]; for [contains], whether the text
    of the clause's value occurs in the text ["undefined"]; for
    [not_equals] and [not_contains], the negation of these; and [true] for
    any other operator.  When the lookup of the field path raises, the
    evaluation raises with the same exception. *)
Theorem evaluateCondition_missing_field :
  forall (condition data : jsval) (f : string),
    get_prop condition "field" = VStr f ->
    f <> EmptyString ->
    plain_text (get_prop condition "value") = true ->
    charted_path data (VStr f) = true ->
    let operator := get_prop condition "operator" in
    let value := get_prop condition "value" in
    (getNestedValue data (VStr f) = Ok VUndef ->
     evaluateCondition condition data =
     Ok (if is_case operator "equals" then is_undef value
         else if is_case operator "not_equals" then negb (is_undef value)
         else if is_case operator "greater_than" then false
         else if is_case operator "less_than" then false
         else if is_case operator "contains"
              then includes (to_string value) "undefined"
         else if is_case operator "not_contains"
              then negb (includes (to_string value) "undefined")
         else true)) /\
    (forall e,
       getNestedValue data (VStr f) = Throw e ->
       evaluateCondition condition data = Throw e).
Proof.
  intros condition data f Hf Hne _ _ operator value.
  unfold evaluateCondition.
  rewrite (field_text_truthy condition Hf), Hf.
  assert (Htruthy : truthy (VStr f) = true).
  { simpl. destruct f; [contradiction | reflexivity]. }
  rewrite Htruthy. cbn [negb orb]. split.
  - intros Hundef. rewrite Hundef. cbn [bind].
    fold operator value. unfold gt.
    rewrite strict_eq_undef, lt_undef_l, lt_undef_r.
    repeat match goal with
           | |- context [is_case operator ?l] => destruct (is_case operator l)
           end; reflexivity.
  - intros e He. now rewrite He.
Qed.

Lemma evaluateCondition_missing_field_witness :
  evaluateCondition
    (VObj [("field", VStr "site.phone"); ("operator", VStr "less_than");
           ("value", VNum 5)])
    (VObj [("site", VObj [("name", VStr "Dock")])])
  = Ok false.
Proof.
  apply (proj1 (@evaluateCondition_missing_field
                  (VObj [("field", VStr "site.phone");
                         ("operator", VStr "less_than"); ("value", VNum 5)])
                  (VObj [("site", VObj [("name", VStr "Dock")])]) "site.phone"
                  eq_refl ltac:(discriminate) eq_refl eq_refl)).
  reflexivity.
Defined.

(** C6 as stated fails: a [not_equals] clause on a field the record does
    not have is satisfied, and so is a [not_contains] clause; and a clause
    whose field path leads through an inherited accessor raises. *)
Lemma missing_field_can_satisfy :
  getNestedValue (VObj [("name", VStr "Ann")]) (VStr "includeSafety")
    = Ok VUndef /\
  evaluateCondition
    (VObj [("field", VStr "includeSafety"); ("operator", VStr "not_equals");
           ("value", VBool true)])
    (VObj [("name", VStr "Ann")])
  = Ok true /\
  evaluateCondition
    (VObj [("field", VStr "includeSafety"); ("operator", VStr "not_contains");
           ("value", VStr "yes")])
    (VObj [("name", VStr "Ann")])
  = Ok true /\
  (exists e,
     evaluateCondition
       (VObj [("field", VStr "constructor.caller"); ("operator", VStr "equals");
              ("value", VBool true)])
       (VObj [("name", VStr "Ann")])
     = Throw e).
Proof. repeat split; try reflexivity. eexists. reflexivity. Qed.

(** C1, evaluated at a [greater_than] clause.  The server-side evaluator,
    also through [isFieldVisible], finds [3 > 5] false; the form renderer
    has no case for the operator and shows the field. *)
Theorem visibility_evaluators_disagree :
  let clause := VObj [("field", VStr "count"); ("operator", VStr "greater_than");
                      ("value", VNum 5)] in
  let data := VObj [("count", VNum 3)] in
  evaluateCondition clause data = Ok false /\
  isFieldVisible (VObj [("conditional", VObj [("show_when", clause)])]) data
    = Ok false /\
  FormRenderer.evaluateConditional data (VObj [("show_when", clause)])
    = Ok true.
Proof. repeat split; reflexivity. Qed.

(** ** Validation *)

Lemma falsy_iff (v : jsval) : falsy v <-> truthy v = false.
Proof.
  unfold falsy. split.
  - intros [-> | [-> | [-> | [-> | ->]]]]; reflexivity.
  - destruct v as [| |[|]|n|s| | |]; simpl; try discriminate; auto.
    + intros H. apply negb_false_iff, Z.eqb_eq in H. subst. auto 6.
    + intros H. apply negb_false_iff, String.eqb_eq in H. subst. auto 6.
Qed.

Lemma append_inj_l (a b c : string) : a ++ b = a ++ c -> b = c.
Proof. induction a as [|x a IH]; simpl; [auto|]. intros [= H]. auto. Qed.

Lemma required_message_is (field : jsval) :
  required_message (get_prop field "label") = missing_message field.
Proof.
  unfold required_message, field_name, missing_message, quoted_label.
  now rewrite !append_assoc_s.
Qed.

(** The message of a missing field is none of the messages of the type
    checks. *)
Lemma missing_not_type (field : jsval) :
  ~ type_message field (missing_message field).
Proof.
  intros (rest & H). unfold missing_message in H.
  apply append_inj_l in H. discriminate.
Qed.

Lemma type_message_intro (field : jsval) (rest : string) :
  type_message field
    (field_name (get_prop field "label") ++ " must be " ++ rest).
Proof.
  exists rest. unfold field_name, quoted_label. now rewrite !append_assoc_s.
Qed.

(** The type checks only ever add messages of their own form, at the end
    of the list. *)
Lemma type_check_extends (field value : jsval) (errors errors' : list string) :
  type_check field value errors = Ok errors' ->
  exists tail, errors' = (errors ++ tail)%list /\ Forall (type_message field) tail.
Proof.
  assert (Hone : forall rest tail,
            Forall (type_message field) tail ->
            Forall (type_message field)
              ((field_name (get_prop field "label") ++ " must be " ++ rest)
                 :: tail)).
  { intros. constructor; [apply type_message_intro|assumption]. }
  unfold type_check, push.
  destruct (member value "length") as [len|e]; simpl;
    repeat match goal with
           | |- context [if ?c then _ else _] => destruct c; simpl
           end;
    try discriminate; intros [= <-];
    rewrite <- ?app_assoc; cbn [app];
    solve [ eexists; split; [reflexivity|];
            repeat first [ apply Forall_nil
                         | apply (Hone "a number")
                         | apply (Hone "text")
                         | apply (Hone "a table (array)")
                         | apply (Hone ("at least " ++ _))
                         | apply (Hone ("at most " ++ _)) ]
          | exists []; split; [now rewrite app_nil_r|constructor] ].
Qed.

(** What one field adds to the list. *)
Lemma validate_field_part (data field : jsval) (errors errors' : list string) :
  validate_field data errors field = Ok errors' ->
  exists part, errors' = (errors ++ part)%list /\ field_part data field part.
Proof.
  unfold validate_field. intros H.
  apply bind_ok in H as (required & Hreq & H).
  apply bind_ok in H as (value & Hval & H).
  assert (Hr : required = get_prop field "required").
  { unfold member in Hreq. destruct (is_nullish field); [discriminate|].
    now injection Hreq. }
  subst required. unfold required_check, push in H.
  rewrite required_message_is in H.
  set (b := (truthy (get_prop field "required") && negb (truthy value))%bool) in H.
  assert (Hb : b = true <-> truthy (get_prop field "required") = true /\ falsy value).
  { unfold b. rewrite andb_true_iff, negb_true_iff, falsy_iff. tauto. }
  assert (Hparts : exists checks,
            Forall (type_message field) checks /\
            (is_undef value = true -> checks = []) /\
            errors' = (errors ++ (if b then [missing_message field] else [])
                         ++ checks)%list).
  { destruct (is_undef value) eqn:Hu; cbn [negb] in H.
    - injection H as <-. exists []. split; [constructor|]. split; [auto|].
      destruct b; now rewrite ?app_nil_r.
    - apply type_check_extends in H as (tail & -> & Hall).
      exists tail. split; [exact Hall|]. split; [discriminate|].
      destruct b; now rewrite <- ?app_assoc, ?app_nil_r. }
  destruct Hparts as (checks & Hall & Hnone & ->).
  eexists. split; [reflexivity|].
  exists value, checks. repeat split; try assumption.
  - intros Hyes. apply Hb in Hyes. now rewrite Hyes.
  - intros Hno. destruct b; [|reflexivity]. exfalso. apply Hno, Hb. reflexivity.
Qed.

Section FoldParts.

Context {A : Type} (f : list string -> A -> result (list string)).
Variable part_of : A -> list string -> Prop.
Hypothesis f_part :
  forall s x s', f s x = Ok s' -> exists t, s' = (s ++ t)%list /\ part_of x t.

(** A fold of steps that each add a part adds the parts, one per step and
    in the order of the steps. *)
Lemma foldM_parts (xs : list A) (s s' : list string) :
  foldM f xs s = Ok s' ->
  exists parts,
    s' = (s ++ List.concat parts)%list /\ Forall2 part_of xs parts.
Proof.
  revert s. induction xs as [|x xs IH]; simpl; intros s H.
  - injection H as <-. exists []. simpl. rewrite app_nil_r. split; constructor.
  - apply bind_ok in H as (s1 & H1 & H).
    apply f_part in H1 as (t1 & -> & Hpart).
    apply IH in H as (parts & -> & Hparts).
    exists (t1 :: parts). split; [simpl; now rewrite app_assoc|].
    now constructor.
Qed.

End FoldParts.

(** The parts of the fields of the sections, section after section. *)
Lemma parts_of_sections {A B : Type} (Q : A -> list B -> Prop)
    (fields_of : jsval -> list A) (sections : list jsval)
    (ps : list (list B)) :
  Forall2 (fun section part =>
             exists parts,
               part = List.concat parts /\ Forall2 Q (fields_of section) parts)
    sections ps ->
  exists parts,
    List.concat ps = List.concat parts /\
    Forall2 Q (flat_map fields_of sections) parts.
Proof.
  induction 1 as [|section part sections ps (parts1 & -> & H1) _
                    (parts & Hc & IH)]; simpl.
  - exists []. split; constructor.
  - exists (parts1 ++ parts)%list. split.
    + now rewrite concat_app, Hc.
    + now apply Forall2_app.
Qed.

Lemma validate_section_part (data section : jsval) (errors errors' : list string) :
  validate_section data errors section = Ok errors' ->
  exists part,
    errors' = (errors ++ part)%list /\
    exists parts,
      part = List.concat parts /\
      Forall2 (field_part data)
        (match get_prop section "fields" with
         | VArr fields => fields
         | _ => []
         end) parts.
Proof.
  unfold validate_section. intros H.
  apply bind_ok in H as (fields & Hf & H).
  assert (Hfields : fields = get_prop section "fields").
  { unfold member in Hf. destruct (is_nullish section); [discriminate|].
    now injection Hf. }
  subst fields.
  destruct (is_nullish (get_prop section "fields")) eqn:Hn.
  - injection H as <-. exists []. rewrite app_nil_r. split; [reflexivity|].
    exists []. split; [reflexivity|].
    destruct (get_prop section "fields"); try discriminate; constructor.
  - apply bind_ok in H as (fs & Hfs & H).
    destruct (get_prop section "fields"); try discriminate.
    injection Hfs as <-.
    apply (@foldM_parts _ (validate_field data) (field_part data))
      in H as (parts & -> & Hparts).
    + eexists. split; [reflexivity|]. exists parts. auto.
    + intros. now apply validate_field_part.
Qed.

(** ** When validation returns *)

Lemma type_check_returns (field value : jsval) (errors : list string) :
  is_nullish value = false ->
  exists errors', type_check field value errors = Ok errors'.
Proof.
  intros Hv. unfold type_check, member. rewrite Hv. cbn [bind].
  repeat match goal with
         | |- context [if ?c then _ else _] => destruct c; cbn [bind]
         end; eauto.
Qed.

Lemma foldM_returns {A S : Type} (f : S -> A -> result S) (P : A -> Prop)
    (xs : list A) (s : S) :
  (forall s x, P x -> exists s', f s x = Ok s') ->
  Forall P xs -> exists s', foldM f xs s = Ok s'.
Proof.
  intros Hf H. revert s. induction H as [|x xs Hx _ IH]; intros s; simpl.
  - eauto.
  - destruct (Hf s x Hx) as (s1 & ->). cbn [bind]. apply IH.
Qed.

Lemma validate_field_returns (data field : jsval) (errors : list string) :
  field_ok data field ->
  exists errors', validate_field data errors field = Ok errors'.
Proof.
  intros (Hf & _ & (value & Hv & Hnull & _ & _) & _).
  unfold validate_field, member.
  rewrite Hf. cbn [bind]. rewrite Hv. cbn [bind].
  destruct value; cbn [is_undef negb]; eauto; try contradiction;
    apply type_check_returns; reflexivity.
Qed.

(** On a schema whose sections and fields are objects, with no [null]
    among the values the record reads under the ids of the fields,
    [validateUserData] returns a report. *)
Lemma validateUserData_returns (data schema : jsval) (sections : list jsval) :
  get_prop schema "sections" = VArr sections ->
  Forall (section_ok data) sections ->
  exists report, validateUserData data schema = Ok report.
Proof.
  intros Hs Hall. unfold validateUserData. rewrite Hs.
  destruct (negb (truthy schema) || negb (truthy (VArr sections)))%bool; [eauto|].
  cbn [as_array bind].
  destruct (@foldM_returns _ _ (validate_section data) (section_ok data)
              sections [] ) as (errs & ->); [|assumption|cbn [bind]; eauto].
  intros s section (Hn & Hfields). unfold validate_section, member.
  rewrite Hn. cbn [bind].
  destruct Hfields as [->|(fields & -> & Hf)]; [eauto|].
  cbn [is_nullish as_array bind].
  apply (@foldM_returns _ _ (validate_field data) (field_ok data)); [|assumption].
  intros. now apply validate_field_returns.
Qed.

(** C10, as the code has it.  In a report [validateUserData] returns, the
    messages are the contributions of the fields of the schema, field by
    field in the order of the schema: a field contributes the message of
    a missing field exactly when its [required] flag is truthy and what
    the record reads under its id is falsy ([undefined], [null], [false],
    [0] or the empty text), and after it only messages of the checks of
    its type; the report is valid exactly when there is no message.  A
    report is returned when the sections and the fields are objects, the
    record reads no [null], and the values read and the bounds of the
    fields have the built-in conversions.  The labels and the ids are
    taken to have the built-in conversion to text, and the reads of the
    record to be charted. *)
Theorem validateUserData_required_iff_falsy :
  forall (data schema : jsval) (sections : list jsval),
    get_prop schema "sections" = VArr sections ->
    Forall (field_plain data) (schema_fields sections) ->
    (forall report,
       validateUserData data schema = Ok report ->
       exists parts,
         Validation.errors report = List.concat parts /\
         Forall2 (field_part data) (schema_fields sections) parts /\
         Forall2
           (fun field part =>
              exists value,
                index data (to_string (get_prop field "id")) = Ok value /\
                (In (missing_message field) part <->
                 truthy (get_prop field "required") = true /\ falsy value))
           (schema_fields sections) parts /\
         (valid report = true <-> Validation.errors report = [])) /\
    (Forall (section_ok data) sections ->
     exists report, validateUserData data schema = Ok report).
Proof.
  intros data schema sections Hsec _. split.
  - intros report H. unfold validateUserData in H. rewrite Hsec in H.
    assert (Hschema : truthy schema = true).
    { destruct schema; simpl in Hsec; try discriminate; try reflexivity;
        repeat match type of Hsec with
               | (if ?c then _ else _) = _ => destruct c; try discriminate
               | match ?c with _ => _ end = _ => destruct c; try discriminate
               end. }
    rewrite Hschema in H. simpl in H.
    apply bind_ok in H as (errs & Hfold & H). injection H as <-.
    apply (@foldM_parts _ (validate_section data)
             (fun section part =>
                exists parts,
                  part = List.concat parts /\
                  Forall2 (field_part data)
                    (match get_prop section "fields" with
                     | VArr fields => fields
                     | _ => []
                     end) parts))
      in Hfold as (ps & -> & Hps);
      [|intros; now apply validate_section_part].
    apply parts_of_sections in Hps as (parts & Hc & Hparts).
    exists parts. cbn [Validation.errors app valid].
    split; [exact Hc|]. split; [exact Hparts|]. split.
    + eapply Forall2_impl; [|exact Hparts].
      intros field part (value & checks & Hv & Hchecks & _ & Hyes & Hno).
      exists value. split; [exact Hv|]. split.
      * intros Hin.
        destruct (truthy (get_prop field "required")) eqn:Hreq.
        -- destruct (truthy value) eqn:Ht;
             [|split; [reflexivity|now apply falsy_iff]].
           exfalso. rewrite Hno in Hin.
           ++ rewrite Forall_forall in Hchecks.
              exact (missing_not_type (Hchecks _ Hin)).
           ++ intros (_ & Hf). apply falsy_iff in Hf. congruence.
        -- exfalso. rewrite Hno in Hin by (intros (? & _); discriminate).
           rewrite Forall_forall in Hchecks.
           exact (missing_not_type (Hchecks _ Hin)).
      * intros Hboth. rewrite (Hyes Hboth). now left.
    + destruct (List.concat ps); simpl; split; congruence.
  - intros Hall. now apply validateUserData_returns with sections.
Qed.

Lemma validateUserData_required_iff_falsy_witness :
  (exists parts,
     Validation.errors
       {| valid := false;
          errors := ["Field " ++ dquote ++ "Count" ++ dquote ++ " is required"] |}
     = List.concat parts /\
     Forall2 (field_part order_data) [count_field; note_field] parts) /\
  (exists report, validateUserData order_data order_schema = Ok report).
Proof.
  pose proof (@validateUserData_required_iff_falsy
                order_data order_schema [order_section] eq_refl
                ltac:(repeat constructor)) as (Hreport & Hreturns).
  split.
  - destruct (Hreport
                {| valid := false;
                   errors := ["Field " ++ dquote ++ "Count" ++ dquote
                                ++ " is required"] |}
                eq_refl)
      as (parts & Hc & Hparts & _).
    exists parts. split; [exact Hc|exact Hparts].
  - apply Hreturns. constructor; [|constructor].
    split; [reflexivity|]. right. exists [count_field; note_field].
    split; [reflexivity|].
    constructor; [|constructor; [|constructor]].
    + split; [reflexivity|]. split; [repeat split; reflexivity|].
      split; [|repeat constructor].
      exists (VNum 0). repeat split; try reflexivity. discriminate.
    + split; [reflexivity|]. split; [repeat split; reflexivity|].
      split; [|repeat constructor].
      exists (VStr "two crates"). repeat split; try reflexivity. discriminate.
Defined.

(** C10 as stated fails.  A record that holds [null] for a required text
    field with a length bound gets no report: the validation raises.  And
    a required field whose id names an inherited member is never reported
    as missing: the record reads the inherited function under that id,
    whatever was submitted. *)
Lemma validateUserData_raises_or_reads_inherited :
  (exists e,
     validateUserData (VObj [("note", VNull)])
       (VObj [("sections",
               VArr [VObj [("fields",
                            VArr [VObj [("id", VStr "note");
                                        ("label", VStr "Note");
                                        ("type", VStr "text");
                                        ("required", VBool true);
                                        ("validation",
                                         VObj [("minLength", VNum 1)])]])]])])
     = Throw e) /\
  validateUserData (VObj [])
    (VObj [("sections",
            VArr [VObj [("fields",
                         VArr [VObj [("id", VStr "constructor");
                                     ("label", VStr "Builder");
                                     ("required", VBool true)]])]])])
  = Ok {| valid := true; errors := [] |}.
Proof. split; [eexists|]; reflexivity. Qed.

(** ** Table expansion *)

(** The cells of a loop row, one per configured template, each rendered
    against the element. *)
Lemma loop_row_cells (item contentJson rowData : jsval) (row : table_row)
    (templates : list jsval) :
  loop_row item contentJson rowData = Ok row ->
  as_array (or_else (get_prop item "rows") (VArr [])) = Ok templates ->
  tableHeader row = false /\
  Forall2 (fun template cell =>
             exists text,
               renderTemplate template rowData (get_prop contentJson "blocks")
                 = Ok text /\
               cell = text_cell (to_string text))
    templates (cells row).
Proof.
  unfold loop_row. intros H Ht. rewrite Ht in H. cbn [bind] in H.
  apply bind_ok in H as (cs & Hcs & H). injection H as <-.
  split; [reflexivity|]. cbn [cells]. apply mapM_ok in Hcs. clear Ht.
  induction Hcs as [|t c ts cs' Hc _ IH]; constructor; auto.
  apply bind_ok in Hc as (blocks & Hb & Hc). apply member_ok in Hb as (_ & ->).
  apply bind_ok in Hc as (text & Htext & Hc). injection Hc as <-. eauto.
Qed.

Lemma loop_row_returns (item contentJson rowData : jsval) (templates : list jsval) :
  as_array (or_else (get_prop item "rows") (VArr [])) = Ok templates ->
  (templates <> [] -> is_nullish contentJson = false) ->
  (forall template,
     In template templates ->
     exists text,
       renderTemplate template rowData (get_prop contentJson "blocks") = Ok text) ->
  exists row, loop_row item contentJson rowData = Ok row.
Proof.
  intros Ht Hc Hall. unfold loop_row. rewrite Ht. cbn [bind].
  set (f := fun template : jsval => _).
  destruct (mapM_total f templates) as (cs & ->); [|cbn [bind]; eauto].
  intros t Hin. unfold f, member.
  rewrite Hc by (intros ->; contradiction). cbn [bind].
  destruct (Hall t Hin) as (text & ->). cbn [bind]. eauto.
Qed.

Lemma mapM_body_rows {A : Type} (f : A -> result table_row) (xs : list A)
    (rows : list table_row) :
  (forall x r, f x = Ok r -> tableHeader r = false) ->
  mapM f xs = Ok rows -> Forall (fun r => tableHeader r = false) rows.
Proof.
  intros Hf H%mapM_ok. induction H; constructor; eauto.
Qed.

(** Whatever the directive, a body row is not a header row. *)
Lemma body_rows_not_header (item userData contentJson : jsval)
    (rows : list table_row) :
  body_rows item userData contentJson = Ok rows ->
  Forall (fun r => tableHeader r = false) rows.
Proof.
  unfold body_rows.
  destruct (truthy (get_prop item "loop")).
  { intros H. apply bind_ok in H as (loop & _ & H).
    apply bind_ok in H as (dataArray & _ & H).
    destruct dataArray as [| | | | |[|x xs]| |];
      try (injection H as <-; constructor).
    eapply mapM_body_rows; [|exact H].
    intros y r Hr. unfold loop_row in Hr.
    apply bind_ok in Hr as (? & _ & Hr). apply bind_ok in Hr as (? & _ & Hr).
    now injection Hr as <-. }
  destruct (truthy (get_prop item "source")).
  { intros H. apply bind_ok in H as (source & _ & H).
    apply bind_ok in H as (tableData & _ & H).
    destruct (_ && _)%bool; [|injection H as <-; constructor].
    apply bind_ok in H as (rs & _ & H).
    eapply mapM_body_rows; [|exact H].
    intros y r Hr. unfold source_row in Hr.
    apply bind_ok in Hr as (? & _ & Hr). now injection Hr as <-. }
  destruct (truthy (get_prop item "rows")).
  { intros H. apply bind_ok in H as (rs & _ & H).
    eapply mapM_body_rows; [|exact H].
    intros y r Hr. unfold static_row in Hr.
    apply bind_ok in Hr as (? & _ & Hr). apply bind_ok in Hr as (? & _ & Hr).
    now injection Hr as <-. }
  destruct (truthy (get_prop item "emptyRows")).
  { intros [= <-]. apply Forall_forall. intros r Hr.
    apply repeat_spec in Hr. now subst. }
  intros [= <-]. constructor.
Qed.

Lemma filter_body_rows (rows : list table_row) :
  Forall (fun r => tableHeader r = false) rows ->
  filter is_body_row rows = rows.
Proof.
  induction 1 as [|r rows Hr _ IH]; simpl; [reflexivity|].
  unfold is_body_row at 1. rewrite Hr. simpl. now f_equal.
Qed.

(** The table [createTable] returns holds the header row, when headers are
    configured, and then the body rows; without any row there is no
    table. *)
Lemma createTable_rows (item userData contentJson : jsval)
    (body : list table_row) :
  is_nullish item = false ->
  truthy (get_prop item "headers") = false \/ is_array (get_prop item "headers") = true ->
  body_rows item userData contentJson = Ok body ->
  exists result,
    createTable item userData contentJson = Ok result /\
    match result with
    | Some t => filter is_body_row (rows t) = body
    | None => body = []
    end.
Proof.
  intros Hitem Hheaders Hbody. unfold createTable, member.
  rewrite Hitem. cbn [bind].
  pose proof (body_rows_not_header _ _ _ Hbody) as Hnot.
  destruct Hheaders as [Hfalsy|Harr].
  - rewrite Hfalsy. cbn [bind]. rewrite Hbody. cbn [bind app].
    destruct body as [|r body]; simpl.
    + exists None. split; reflexivity.
    + eexists. split; [reflexivity|]. cbn [rows].
      now apply filter_body_rows.
  - destruct (get_prop item "headers") as [| | | | |hs| |]; try discriminate.
    cbn [truthy bind as_array]. rewrite Hbody. cbn [bind app List.length Nat.eqb].
    eexists. split; [reflexivity|]. cbn [rows filter is_body_row tableHeader negb].
    now apply filter_body_rows.
Qed.

(** C4, as the code has it.  For a table item whose [loop] directive is a
    non-empty text, whose loop path is looked up through charted reads and
    whose cell templates have the built-in conversion to text: when the
    loop path resolves in the data record to an array
    and the body rows are returned, there is one row per element, in
    order, and the cells of the row of an element are the configured cell
    templates rendered against that element; the rows are returned when
    every cell template renders against every element; when the loop path
    resolves to anything else, [undefined] included, the body has no row
    and nothing is raised; when the lookup of the loop path raises, so
    does the expansion, and so it does when a cell template raises
    against an element; and the table [createTable] returns, its headers
    being absent or an array of values with the built-in conversion to
    text, has exactly the body rows. *)
Theorem loop_table_rows :
  forall (item userData contentJson : jsval) (loop : string),
    get_prop item "loop" = VStr loop ->
    loop <> EmptyString ->
    plain_text (get_prop item "rows") = true ->
    let loopPath := trim (remove_chars loop_char loop) in
    charted_path userData (VStr loopPath) = true ->
    (forall elems body,
       getNestedValue userData (VStr loopPath) = Ok (VArr elems) ->
       body_rows item userData contentJson = Ok body ->
       List.length body = List.length elems /\
       forall templates,
         as_array (or_else (get_prop item "rows") (VArr [])) = Ok templates ->
         Forall2
           (fun rowData row =>
              tableHeader row = false /\
              Forall2
                (fun template cell =>
                   exists text,
                     renderTemplate template rowData (get_prop contentJson "blocks")
                       = Ok text /\
                     cell = text_cell (to_string text))
                templates (cells row))
           elems body) /\
    (forall elems templates,
       getNestedValue userData (VStr loopPath) = Ok (VArr elems) ->
       as_array (or_else (get_prop item "rows") (VArr [])) = Ok templates ->
       (templates <> [] -> is_nullish contentJson = false) ->
       (forall rowData template,
          In rowData elems -> In template templates ->
          exists text,
            renderTemplate template rowData (get_prop contentJson "blocks")
              = Ok text) ->
       exists body, body_rows item userData contentJson = Ok body) /\
    (forall v,
       getNestedValue userData (VStr loopPath) = Ok v ->
       is_array v = false ->
       body_rows item userData contentJson = Ok []) /\
    (forall e,
       getNestedValue userData (VStr loopPath) = Throw e ->
       body_rows item userData contentJson = Throw e) /\
    (forall elems templates rowData template e,
       getNestedValue userData (VStr loopPath) = Ok (VArr elems) ->
       as_array (or_else (get_prop item "rows") (VArr [])) = Ok templates ->
       In rowData elems -> In template templates ->
       renderTemplate template rowData (get_prop contentJson "blocks")
         = Throw e ->
       exists e', body_rows item userData contentJson = Throw e') /\
    (forall body,
       body_rows item userData contentJson = Ok body ->
       truthy (get_prop item "headers") = false
       \/ is_array (get_prop item "headers") = true ->
       plain_text (get_prop item "headers") = true ->
       exists result,
         createTable item userData contentJson = Ok result /\
         match result with
         | Some t => filter is_body_row (rows t) = body
         | None => body = []
         end).
Proof.
  intros item userData contentJson loop Hloop Hne _ loopPath _.
  assert (Htruthy : truthy (get_prop item "loop") = true).
  { rewrite Hloop. simpl. destruct loop; [contradiction|reflexivity]. }
  assert (Hitem : is_nullish item = false).
  { destruct item; simpl in Hloop; try discriminate; reflexivity. }
  assert (Hbody : body_rows item userData contentJson =
            (dataArray <- getNestedValue userData (VStr loopPath) ;;
             match dataArray with
             | VArr ((_ :: _) as elems) => mapM (loop_row item contentJson) elems
             | _ => Ok []
             end)).
  { unfold body_rows. rewrite Htruthy, Hloop. reflexivity. }
  rewrite Hbody. clear Hbody.
  split; [|split; [|split; [|split; [|split]]]].
  - intros elems body Harr H. rewrite Harr in H. cbn [bind] in H.
    destruct elems as [|x xs].
    { injection H as <-. split; [reflexivity|]. intros; constructor. }
    apply mapM_ok in H. split; [symmetry; eapply Forall2_length; eauto|].
    intros templates Ht. clear Harr. revert H.
    generalize (x :: xs). intros es H.
    induction H as [|y row ys rows' Hrow _ IH]; constructor; auto.
    eapply loop_row_cells; eauto.
  - intros elems templates Harr Ht Hc Hall. rewrite Harr. cbn [bind].
    destruct elems as [|x xs]; [eauto|].
    apply mapM_total. intros rowData Hin.
    apply loop_row_returns with templates; auto.
  - intros v Hv Hnot. rewrite Hv. cbn [bind].
    destruct v; try reflexivity; discriminate.
  - intros e He. now rewrite He.
  - intros elems templates rowData template e Harr Ht Hrow Hin He.
    rewrite Harr. cbn [bind].
    destruct elems as [|x xs]; [contradiction|].
    assert (Hcell : exists e1, loop_row item contentJson rowData = Throw e1).
    { unfold loop_row. rewrite Ht. cbn [bind].
      set (f := fun template : jsval => _).
      destruct (@mapM_raises _ _ f templates template
                  (match member contentJson "blocks" with
                   | Ok _ => e
                   | Throw e0 => e0
                   end) Hin) as (e' & ->); [|cbn [bind]; eauto].
      unfold f, member. destruct (is_nullish contentJson); [reflexivity|].
      cbn [bind]. now rewrite He. }
    destruct Hcell as (e1 & Hcell).
    exact (mapM_raises _ _ _ Hrow Hcell).
  - intros body Hb Hheaders _.
    assert (Hb' : body_rows item userData contentJson = Ok body).
    { unfold body_rows. rewrite Htruthy, Hloop. exact Hb. }
    now apply createTable_rows.
Qed.

Lemma loop_table_rows_witness :
  exists body,
    body_rows
      (VObj [("type", VStr "table"); ("loop", VStr "{{#items}}");
             ("rows", VArr [VStr "{{name}}"; VStr "{{qty}}"])])
      (VObj [("name", VStr "top"); ("items",
              VArr [VObj [("name", VStr "bolt"); ("qty", VNum 4)];
                    VObj [("name", VStr "nut"); ("qty", VNum 9)]])])
      (VObj [("blocks", VObj [])]) = Ok body /\
    List.length body = 2 /\
    map (fun r => map (fun c => text (cell_child c)) (cells r)) body
      = [[VStr "bolt"; VStr "4"]; [VStr "nut"; VStr "9"]].
Proof.
  eexists. split; [reflexivity|]. split; [|reflexivity].
  exact (proj1 (proj1 (@loop_table_rows
              (VObj [("type", VStr "table"); ("loop", VStr "{{#items}}");
                     ("rows", VArr [VStr "{{name}}"; VStr "{{qty}}"])])
              (VObj [("name", VStr "top"); ("items",
                      VArr [VObj [("name", VStr "bolt"); ("qty", VNum 4)];
                            VObj [("name", VStr "nut"); ("qty", VNum 9)]])])
              (VObj [("blocks", VObj [])]) "{{#items}}"
              eq_refl ltac:(discriminate) eq_refl eq_refl)
            [VObj [("name", VStr "bolt"); ("qty", VNum 4)];
             VObj [("name", VStr "nut"); ("qty", VNum 9)]]
            _ eq_refl eq_refl)).
Defined.

(** C4 as stated fails: over an array of one element no row is emitted
    and the expansion raises, when a cell template has a placeholder whose
    path leads through an inherited accessor; and a loop path of that kind
    raises where the claim has no row and no error. *)
Lemma loop_rows_can_raise :
  getNestedValue (VObj [("items", VArr [VObj []])]) (VStr "items")
    = Ok (VArr [VObj []]) /\
  (exists e,
     body_rows
       (VObj [("type", VStr "table"); ("loop", VStr "{{#items}}");
              ("rows", VArr [VStr "{{constructor.caller}}"])])
       (VObj [("items", VArr [VObj []])]) (VObj [("blocks", VObj [])])
     = Throw e) /\
  (exists e,
     body_rows
       (VObj [("type", VStr "table"); ("loop", VStr "{{#constructor.caller}}");
              ("rows", VArr [VStr "{{name}}"])])
       (VObj []) (VObj [("blocks", VObj [])])
     = Throw e).
Proof. split; [|split; eexists]; reflexivity. Qed.

(** ** Scenarios *)

(** C7, as the code has it.  The scenario yields one section of two
    paragraphs; the heading reads ["Report for Alpha"]; the paragraph reads
    ["[object Object]"], the text of the block object that
    [boilerplate.intro] names.  The block's default text is what the
    placeholder [boilerplate.intro.default] gives. *)
Theorem end_to_end_scenario :
  forall now : string,
    generateFromStructure now (report_structure "{{boilerplate.intro}}")
      report_data report_content
    = Ok {| sections :=
              [{| children :=
                    [EParagraph {| text := VStr "Report for Alpha";
                                   heading := Some (VStr "Heading1");
                                   alignment := None; bold := None;
                                   spacing := Some (400, 200)%Z |};
                     EParagraph {| text := VStr "[object Object]";
                                   heading := None;
                                   alignment := Some (VStr "left"); bold := None;
                                   spacing := Some (120, 120)%Z |}] |}] |} /\
    option_map texts
      (match generateFromStructure now
               (report_structure "{{boilerplate.intro.default}}")
               report_data report_content with
       | Ok doc => Some doc
       | Throw _ => None
       end)
    = Some [[VStr "Report for Alpha"; VStr "Standard intro text."]].
Proof. intros now. split; reflexivity. Qed.

(** C7 as stated fails: the sole paragraph does not read
    ["Standard intro text."]. *)
Lemma end_to_end_paragraph_is_not_the_default :
  exists doc,
    generateFromStructure a_morning (report_structure "{{boilerplate.intro}}")
      report_data report_content = Ok doc /\
    texts doc = [[VStr "Report for Alpha"; VStr "[object Object]"]] /\
    texts doc <> [[VStr "Report for Alpha"; VStr "Standard intro text."]].
Proof.
  eexists. split; [reflexivity|]. split; [reflexivity|]. discriminate.
Qed.




(** C9, as the code has it.  The document is a function of the structure,
    the data, the content and the date [getToday] reads off the clock: two
    runs on the same inputs whose clock readings fall on the same date give
    the same document. *)
Theorem assembly_depends_on_the_date_only :
  forall (now now' : string) (structureJson userData contentJson : jsval),
    getToday now = getToday now' ->
    generateFromStructure now structureJson userData contentJson
      = generateFromStructure now' structureJson userData contentJson /\
    forall template,
      generateDocument now template userData
        = generateDocument now' template userData.
Proof.
  intros now now' structureJson userData contentJson Hday.
  assert (He : enhance now userData = enhance now' userData).
  { unfold enhance. now rewrite Hday. }
  split.
  - unfold generateFromStructure. now rewrite He.
  - intros template. unfold generateDocument, generateFromStructure.
    now rewrite He.
Qed.

Lemma assembly_depends_on_the_date_only_witness :
  generateFromStructure a_morning dated_structure report_data report_content
  = generateFromStructure that_evening dated_structure report_data report_content.
Proof.
  apply (@assembly_depends_on_the_date_only a_morning that_evening
           dated_structure report_data report_content).
  reflexivity.
Defined.

(** C9 as stated fails: the same three inputs assembled on two days give
    two different documents. *)
Lemma assembly_differs_across_days :
  generateFromStructure a_morning dated_structure report_data report_content
  <> generateFromStructure next_morning dated_structure report_data report_content.
Proof. vm_compute. discriminate. Qed.

(** ** The two renderers side by side *)

Section Counting.

Context {A : Type} (p : A -> bool).

Lemma count_app (l1 l2 : list A) : count p (l1 ++ l2) = count p l1 + count p l2.
Proof. unfold count. now rewrite filter_app, length_app. Qed.

Lemma count_nil : count p [] = 0.
Proof. reflexivity. Qed.

Lemma count_cons (x : A) (l : list A) :
  count p (x :: l) = (if p x then 1 else 0) + count p l.
Proof. unfold count. simpl. now destruct (p x). Qed.

Lemma count_none (l : list A) :
  Forall (fun x => p x = false) l -> count p l = 0.
Proof.
  induction 1 as [|x l Hx _ IH]; [reflexivity|].
  now rewrite count_cons, Hx, IH.
Qed.

End Counting.

Lemma html_count_is_count (t : tag) (ps : list piece) :
  html_count t ps = count (opens t) ps.
Proof. reflexivity. Qed.

Lemma Forall_concat {A : Type} (P : A -> Prop) (ls : list (list A)) :
  Forall (Forall P) ls -> Forall P (List.concat ls).
Proof.
  induction 1; simpl; [constructor|]. apply Forall_app. auto.
Qed.

Lemma Forall_repeat {A : Type} (P : A -> Prop) (x : A) (n : nat) :
  P x -> Forall P (repeat x n).
Proof. intros H. induction n; simpl; constructor; auto. Qed.

Lemma cell_pieces_not_counted (t : tag) (ps : list piece) :
  counted t = true -> Forall (fun p => cell_piece p = true) ps ->
  html_count t ps = 0.
Proof.
  intros Ht H. rewrite html_count_is_count. apply count_none.
  eapply Forall_impl; [|exact H].
  intros [t' m|m] Hp; [|reflexivity].
  destruct t, t'; try discriminate; reflexivity.
Qed.

Lemma item_agree_nil : item_agree [] [] 0.
Proof. constructor; reflexivity. Qed.

Lemma item_agree_app (es1 es2 : list element) (ps1 ps2 : list piece)
    (r1 r2 : nat) :
  item_agree es1 ps1 r1 -> item_agree es2 ps2 r2 ->
  item_agree (es1 ++ es2) (ps1 ++ ps2) (r1 + r2).
Proof.
  intros [] []. constructor; rewrite ?html_count_is_count in *;
    rewrite !count_app; lia.
Qed.

(** Two traversals of one list whose results agree item by item agree on
    the whole. *)
Lemma mapM_agree {A : Type} (f : A -> result (list element))
    (g : A -> result (list piece)) (h : A -> nat) (xs : list A) :
  forall (ess : list (list element)) (pss : list (list piece)),
    (forall x es ps,
       In x xs -> f x = Ok es -> g x = Ok ps -> item_agree es ps (h x)) ->
    mapM f xs = Ok ess -> mapM g xs = Ok pss ->
    item_agree (List.concat ess) (List.concat pss) (list_sum (map h xs)).
Proof.
  induction xs as [|x xs IH]; simpl; intros ess pss Hall Hf Hg.
  - injection Hf as <-. injection Hg as <-. apply item_agree_nil.
  - apply bind_ok in Hf as (y & Hy & Hf). apply bind_ok in Hf as (ys & Hys & Hf).
    apply bind_ok in Hg as (z & Hz & Hg). apply bind_ok in Hg as (zs & Hzs & Hg).
    injection Hf as <-. injection Hg as <-. simpl.
    apply item_agree_app; [eapply Hall; eauto|].
    apply IH; [intros; eapply Hall; eauto|assumption|assumption].
Qed.

(** Two traversals of one list, related result by result. *)
Lemma mapM_both {A B C : Type} (f : A -> result B) (g : A -> result C)
    (R : B -> C -> Prop) (xs : list A) (ys : list B) (zs : list C) :
  (forall x y z, In x xs -> f x = Ok y -> g x = Ok z -> R y z) ->
  mapM f xs = Ok ys -> mapM g xs = Ok zs -> Forall2 R ys zs.
Proof.
  revert ys zs. induction xs as [|x xs IH]; simpl; intros ys zs HR Hf Hg.
  - injection Hf as <-. injection Hg as <-. constructor.
  - apply bind_ok in Hf as (y & Hy & Hf). apply bind_ok in Hf as (ys' & Hys & Hf).
    apply bind_ok in Hg as (z & Hz & Hg). apply bind_ok in Hg as (zs' & Hzs & Hg).
    injection Hf as <-. injection Hg as <-.
    constructor; [eapply HR; eauto|]. apply IH; auto.
    intros; eapply HR; eauto.
Qed.

(** *** Tables *)

Lemma html_loop_row_cells (item contentJson rowData : jsval) (ps : list piece) :
  html_loop_row item contentJson rowData = Ok ps ->
  Forall (fun p => cell_piece p = true) ps.
Proof.
  unfold html_loop_row. intros H.
  apply bind_ok in H as (templates & _ & H).
  apply bind_ok in H as (cs & Hcs & H). injection H as <-.
  constructor; [reflexivity|]. apply Forall_app. split.
  - apply Forall_concat. apply mapM_ok in Hcs.
    induction Hcs as [|t c ts cs' Hc _ IH]; constructor; auto.
    apply bind_ok in Hc as (? & _ & Hc). apply bind_ok in Hc as (? & _ & Hc).
    injection Hc as <-. repeat constructor.
  - repeat constructor.
Qed.

Lemma html_body_rows_cells (item userData contentJson : jsval) (ps : list piece) :
  html_body_rows item userData contentJson = Ok ps ->
  Forall (fun p => cell_piece p = true) ps.
Proof.
  unfold html_body_rows.
  destruct (truthy (get_prop item "loop")).
  { intros H. apply bind_ok in H as (loop & _ & H).
    apply bind_ok in H as (dataArray & _ & H).
    destruct dataArray; try (injection H as <-; constructor).
    apply bind_ok in H as (rs & Hrs & H). injection H as <-.
    apply Forall_concat. apply mapM_ok in Hrs.
    induction Hrs as [|x r xs' rs' Hr _ IH]; constructor; auto.
    eapply html_loop_row_cells; eauto. }
  destruct (truthy (get_prop item "emptyRows")).
  { intros [= <-]. apply Forall_concat, Forall_repeat.
    constructor; [reflexivity|]. apply Forall_app. split.
    - apply Forall_concat, Forall_repeat. repeat constructor.
    - repeat constructor. }
  intros [= <-]. constructor.
Qed.

(** The preview of a table item opens one table, and nothing else that is
    counted. *)
Lemma html_table_counts (item userData contentJson : jsval) (ps : list piece) :
  html_table item userData contentJson = Ok ps ->
  html_count Table ps = 1 /\ html_count P ps = 0 /\
  html_count Heading ps = 0 /\ html_count Section ps = 0.
Proof.
  unfold html_table. intros H.
  apply bind_ok in H as (head & Hhead & H).
  apply bind_ok in H as (body & Hbody & H). injection H as <-.
  assert (Hcells : Forall (fun p => cell_piece p = true)
                     (head ++ [Open Tbody "<tbody>"] ++ body
                        ++ [Raw "</tbody></table>"])).
  { apply Forall_app. split.
    - destruct (truthy (get_prop item "headers")).
      + apply bind_ok in Hhead as (hs & _ & Hhead). injection Hhead as <-.
        constructor; [reflexivity|]. constructor; [reflexivity|].
        apply Forall_app. split; [|repeat constructor].
        apply Forall_concat. apply Forall_forall. intros l Hl.
        apply in_map_iff in Hl as (h & <- & _). repeat constructor.
      + injection Hhead as <-. constructor.
    - constructor; [reflexivity|]. apply Forall_app. split.
      + eapply html_body_rows_cells; eauto.
      + repeat constructor. }
  cbn [app]. rewrite !html_count_is_count, !count_cons.
  rewrite <- !html_count_is_count.
  pose proof (fun t H => @cell_pieces_not_counted t _ H Hcells) as Hz.
  cbn [app] in Hz.
  rewrite (Hz Table), (Hz P), (Hz Heading), (Hz Section) by reflexivity.
  repeat split; reflexivity.
Qed.

(** *** Content items *)

(** A list the binary path iterates and the preview reads as an array is
    the same list on both sides. *)
Lemma iterate_as_array (v : jsval) (xs ys : list jsval) :
  iterate v = Ok xs -> as_array v = Ok ys -> xs = ys.
Proof.
  destruct v; simpl; try discriminate. intros [= <-] [= <-]. reflexivity.
Qed.

Lemma mapM_nil {A B : Type} (f : A -> result B) (xs : list A) (ys : list B) :
  mapM f xs = Ok ys ->
  match ys with [] => true | _ :: _ => false end
  = match xs with [] => true | _ :: _ => false end.
Proof.
  intros H%mapM_ok. now destruct H.
Qed.

(** The body rows [createTable] builds are none exactly for an item
    without a body row. *)
Lemma body_rows_none (item data contentJson : jsval) (body : list table_row) :
  body_rows item data contentJson = Ok body ->
  no_body_row data contentJson item
  = match body with [] => true | _ :: _ => false end.
Proof.
  unfold body_rows, no_body_row.
  destruct (truthy (get_prop item "loop")).
  { intros H. apply bind_ok in H as (loop & Hloop & H).
    destruct (get_prop item "loop"); try discriminate.
    injection Hloop as <-.
    apply bind_ok in H as (dataArray & -> & H).
    destruct dataArray as [| | | | |[|x xs]| |];
      try (injection H as <-; reflexivity).
    apply mapM_nil in H. now rewrite H. }
  destruct (truthy (get_prop item "source")).
  { intros H. apply bind_ok in H as (source & Hsource & H).
    destruct (get_prop item "source"); try discriminate.
    injection Hsource as <-.
    apply bind_ok in H as (tableData & -> & H).
    destruct (_ && _)%bool; [|injection H as <-; reflexivity].
    apply bind_ok in H as (rs & Hrs & H). cbn [negb orb].
    unfold iterates_empty. rewrite Hrs.
    apply mapM_nil in H. rewrite H. now destruct rs. }
  destruct (truthy (get_prop item "rows")).
  { intros H. apply bind_ok in H as (rs & Hrs & H).
    unfold iterates_empty. rewrite Hrs.
    apply mapM_nil in H. rewrite H. now destruct rs. }
  destruct (truthy (get_prop item "emptyRows")).
  { intros [= <-]. now destruct (loop_count (get_prop item "emptyRows")). }
  now intros [= <-].
Qed.

(** [createTable] returns no table exactly for an item without a row. *)
Lemma createTable_no_row (item data contentJson : jsval) (t : option table) :
  createTable item data contentJson = Ok t ->
  no_row data contentJson item
  = match t with None => true | Some _ => false end.
Proof.
  unfold createTable, no_row. intros H.
  apply bind_ok in H as (headers & Hm & H). apply member_ok in Hm as (_ & ->).
  apply bind_ok in H as (head & Hhead & H).
  apply bind_ok in H as (body & Hbody & H).
  rewrite (body_rows_none _ _ _ Hbody).
  destruct (truthy (get_prop item "headers")).
  - apply bind_ok in Hhead as (hs & _ & Hhead). injection Hhead as <-.
    simpl in H. now injection H as <-.
  - injection Hhead as <-. simpl in H. destruct body; simpl in H;
      now injection H as <-.
Qed.

(** The two renderings of a content item agree on paragraphs, and on
    tables but for the table items without a row. *)
Lemma content_item_agree (fuel : nat) :
  forall (item userData contentJson : jsval) (es : list element) (ps : list piece),
    processContentItem fuel item userData contentJson = Ok es ->
    renderHtmlContentItem fuel item userData contentJson = Ok ps ->
    item_agree es ps (rowless fuel userData contentJson item).
Proof.
  induction fuel as [|fuel IH]; intros item userData contentJson es ps Hb Hh;
    cbn [processContentItem renderHtmlContentItem rowless] in Hb, Hh |- *;
    apply bind_ok in Hb as (type & Htype & Hb);
    apply bind_ok in Hh as (type' & Htype' & Hh);
    rewrite Htype in Htype'; injection Htype' as <-;
    apply member_ok in Htype as (_ & ->);
    (destruct (is_case (get_prop item "type") "paragraph");
     [ apply bind_ok in Hb as (blocks & _ & Hb);
       apply bind_ok in Hb as (txt & _ & Hb);
       apply bind_ok in Hb as (align & _ & Hb); injection Hb as <-;
       apply bind_ok in Hh as (blocks' & _ & Hh);
       apply bind_ok in Hh as (txt' & _ & Hh); injection Hh as <-;
       constructor; reflexivity
     | ]);
    (destruct (is_case (get_prop item "type") "table");
     [ apply bind_ok in Hb as (t & Ht & Hb); injection Hb as <-;
       apply createTable_no_row in Ht; rewrite Ht;
       apply html_table_counts in Hh as (Hcount & Hp & Hhd & Hs);
       constructor; rewrite ?Hcount, ?Hp, ?Hhd, ?Hs;
       destruct t; reflexivity
     | ]);
    (destruct (is_case (get_prop item "type") "conditional");
     [ | injection Hb as <-; injection Hh as <-; apply item_agree_nil ]);
    apply bind_ok in Hb as (holds & Hholds & Hb);
    apply bind_ok in Hh as (holds' & Hholds' & Hh);
    rewrite Hholds in Hholds'; injection Hholds' as <-; rewrite Hholds;
    (destruct holds;
     [ | injection Hb as <-; injection Hh as <-; apply item_agree_nil ]);
    apply bind_ok in Hb as (subs & Hsubs & Hb);
    apply bind_ok in Hh as (subs' & Hsubs' & Hh);
    pose proof (iterate_as_array _ Hsubs Hsubs') as <-.
  - discriminate.
  - apply bind_ok in Hb as (ess & Hess & Hb). injection Hb as <-.
    apply bind_ok in Hh as (pss & Hpss & Hh). injection Hh as <-.
    rewrite Hsubs.
    eapply mapM_agree; [|exact Hess|exact Hpss].
    intros x y z _ Hy Hz. exact (IH _ _ _ _ _ Hy Hz).
Qed.

(** *** Sections *)

Lemma section_item_agree (fuel : nat) (data contentJson item : jsval)
    (es : list element) (ps : list piece) :
  section_item fuel data contentJson item = Ok es ->
  html_section_item fuel data contentJson item = Ok ps ->
  item_agree es ps (item_rowless fuel data contentJson item).
Proof.
  unfold section_item, html_section_item, item_rowless, shown. intros Hb Hh.
  apply bind_ok in Hb as (condition & Hc & Hb).
  apply bind_ok in Hh as (condition' & Hc' & Hh).
  rewrite Hc in Hc'. injection Hc' as <-.
  apply member_ok in Hc as (_ & ->).
  apply bind_ok in Hb as (skip & Hskip & Hb).
  apply bind_ok in Hh as (skip' & Hskip' & Hh).
  rewrite Hskip in Hskip'. injection Hskip' as <-.
  destruct (truthy (get_prop item "condition")); cbn [negb orb].
  - apply bind_ok in Hskip as (holds & Hholds & Hskip). injection Hskip as <-.
    rewrite Hholds. destruct holds; cbn [negb] in Hb, Hh.
    + eapply content_item_agree; eauto.
    + injection Hb as <-. injection Hh as <-. apply item_agree_nil.
  - injection Hskip as <-. eapply content_item_agree; eauto.
Qed.

Lemma item_agree_section (es : list element) (ps : list piece) (r : nat) :
  item_agree es ps r -> section_agree es ps 0 r.
Proof. intros []. constructor; lia. Qed.

Lemma section_agree_app (es1 es2 : list element) (ps1 ps2 : list piece)
    (u1 u2 r1 r2 : nat) :
  section_agree es1 ps1 u1 r1 -> section_agree es2 ps2 u2 r2 ->
  section_agree (es1 ++ es2) (ps1 ++ ps2) (u1 + u2) (r1 + r2).
Proof.
  intros [] []. constructor; rewrite ?html_count_is_count in *;
    rewrite !count_app; lia.
Qed.

(** The library has a style for the levels 1 to 6 and for no other. *)
Lemma heading_style (level : string) :
  is_undef (get_prop HeadingLevel ("HEADING_" ++ level))
  = negb (existsb (String.eqb level) ["1"; "2"; "3"; "4"; "5"; "6"]).
Proof.
  unfold HeadingLevel.
  cbn [get_prop assoc append String.eqb Ascii.eqb Bool.eqb existsb].
  repeat match goal with
         | |- context [String.eqb level ?l] => destruct (String.eqb level l)
         end; reflexivity.
Qed.

(** The heading of a section: one paragraph in the document, a heading
    when the library knows the level; one heading element in the
    preview. *)
Lemma heading_agree (heading data contentJson : jsval) (e : element)
    (ps : list piece) :
  heading_paragraph heading data contentJson = Ok e ->
  html_heading heading data contentJson = Ok ps ->
  section_agree [e] ps (if known_level heading then 0 else 1) 0
  /\ html_count Section ps = 0.
Proof.
  unfold heading_paragraph, html_heading, known_level. intros Hb Hh.
  apply bind_ok in Hb as (blocks & _ & Hb).
  apply bind_ok in Hb as (txt & _ & Hb).
  pose proof (heading_style
                (to_string (or_else (get_prop heading "level") (VNum 1))))
    as Hstyle.
  set (style := get_prop HeadingLevel _) in Hb, Hstyle. clearbody style.
  injection Hb as <-.
  apply bind_ok in Hh as (blocks' & _ & Hh).
  apply bind_ok in Hh as (txt' & _ & Hh). injection Hh as <-.
  split; [|reflexivity].
  constructor; rewrite !html_count_is_count, !count_cons;
    cbn [is_heading is_body_paragraph DocumentGenerator.heading opens tag_eqb
         count filter List.length];
    rewrite ?Hstyle;
    destruct (existsb _ _); reflexivity.
Qed.

(** One section on both paths: skipped on both, or built on both with the
    same blocks. *)
Lemma section_agree_built (data contentJson section : jsval)
    (built : option doc_section) (ps : list piece) :
  build_section data contentJson section = Ok built ->
  html_section data contentJson section = Ok ps ->
  match built with
  | None =>
      ps = [] /\ section_unstyled section = 0
      /\ section_rowless data contentJson section = 0
  | Some s =>
      html_count Section ps = 1 /\
      section_agree (children s) ps (section_unstyled section)
        (section_rowless data contentJson section)
  end.
Proof.
  unfold build_section, html_section, section_unstyled, section_rowless.
  intros Hb Hh.
  apply bind_ok in Hb as (type & Htype & Hb).
  apply bind_ok in Hh as (type' & Htype' & Hh).
  rewrite Htype in Htype'. injection Htype' as <-.
  apply member_ok in Htype as (_ & ->).
  destruct (is_case (get_prop section "type") "header"
            || is_case (get_prop section "type") "footer")%bool.
  { injection Hb as <-. now injection Hh as <-. }
  apply bind_ok in Hb as (head & Hhead & Hb).
  apply bind_ok in Hb as (body & Hbody & Hb). injection Hb as <-.
  apply bind_ok in Hh as (hhead & Hhhead & Hh).
  apply bind_ok in Hh as (hbody & Hhbody & Hh). injection Hh as <-.
  assert (Hheads :
            section_agree head hhead
              (if (truthy (get_prop section "heading")
                   && negb (known_level (get_prop section "heading")))%bool
               then 1 else 0) 0
            /\ html_count Section hhead = 0).
  { destruct (truthy (get_prop section "heading")); cbn [andb].
    - apply bind_ok in Hhead as (h & Hh1 & Hhead). injection Hhead as <-.
      destruct (heading_agree _ _ _ Hh1 Hhhead) as (Ha & Hs).
      split; [|exact Hs].
      destruct (known_level (get_prop section "heading")); exact Ha.
    - injection Hhead as <-. injection Hhhead as <-.
      split; [constructor|]; reflexivity. }
  assert (Hbodies :
            item_agree body hbody
              (if truthy (get_prop section "content")
               then match iterate (get_prop section "content") with
                    | Ok items =>
                        list_sum (map (item_rowless (depth section) data
                                         contentJson) items)
                    | Throw _ => 0
                    end
               else 0)).
  { destruct (truthy (get_prop section "content")).
    - apply bind_ok in Hbody as (items & Hitems & Hbody).
      apply bind_ok in Hbody as (ess & Hess & Hbody). injection Hbody as <-.
      apply bind_ok in Hhbody as (items' & Hitems' & Hhbody).
      rewrite Hitems in Hitems'. injection Hitems' as <-.
      apply bind_ok in Hhbody as (pss & Hpss & Hhbody). injection Hhbody as <-.
      rewrite Hitems.
      eapply mapM_agree; [|exact Hess|exact Hpss].
      intros x y z _ Hy Hz. exact (section_item_agree _ _ _ _ Hy Hz).
    - injection Hbody as <-. injection Hhbody as <-. apply item_agree_nil. }
  destruct Hheads as (Hheads & Hnosec).
  pose proof (no_html_section Hbodies) as Hnosec'.
  pose proof (section_agree_app Hheads (item_agree_section Hbodies)) as Hall.
  rewrite Nat.add_0_r in Hall. cbn [Nat.add] in Hall.
  cbn [children]. split.
  - cbn [app]. rewrite !html_count_is_count, count_cons, !count_app.
    rewrite <- !html_count_is_count. rewrite Hnosec, Hnosec'. reflexivity.
  - destruct Hall as [H1 H2 H3].
    constructor; cbn [app]; rewrite !html_count_is_count in *;
      rewrite !count_cons, !(app_assoc hhead hbody);
      rewrite !(count_app _ (hhead ++ hbody) [_]);
      cbn [opens tag_eqb count filter List.length]; lia.
Qed.

(** *** Documents *)

Lemma sections_agree (data contentJson : jsval) (secs : list jsval) :
  forall (built : list (option doc_section)) (htmls : list (list piece)),
    mapM (build_section data contentJson) secs = Ok built ->
    mapM (html_section data contentJson) secs = Ok htmls ->
    List.length (somes built) = html_count Section (List.concat htmls) /\
    section_agree (flat_map children (somes built)) (List.concat htmls)
      (list_sum (map section_unstyled secs))
      (list_sum (map (section_rowless data contentJson) secs)).
Proof.
  induction secs as [|sec secs IH]; simpl; intros built htmls Hb Hh.
  - injection Hb as <-. injection Hh as <-.
    split; [reflexivity|]. constructor; reflexivity.
  - apply bind_ok in Hb as (b & Hb1 & Hb). apply bind_ok in Hb as (bs & Hbs & Hb).
    apply bind_ok in Hh as (ps & Hh1 & Hh). apply bind_ok in Hh as (pss & Hps & Hh).
    injection Hb as <-. injection Hh as <-.
    destruct (IH _ _ Hbs Hps) as (IHn & IHa).
    pose proof (section_agree_built _ _ _ Hb1 Hh1) as Hsec.
    destruct b as [s|]; simpl.
    + destruct Hsec as (Hone & Hs). split.
      * rewrite html_count_is_count, count_app, <- !html_count_is_count.
        rewrite Hone, IHn. reflexivity.
      * now apply section_agree_app.
    + destruct Hsec as (-> & -> & ->). simpl. auto.
Qed.

(** C2, as the code has it.  When the document is generated and the preview
    of the same structure and content is built, without an exception,
    against the record the generator evaluates (the data record with the
    helper entries), either no section is rendered, and then the document
    is the one-paragraph empty document while the preview has no section;
    or both have the same number of sections, the preview has the headings
    of the document and one more for every heading whose level has no
    style in the library, which is a paragraph in the document, and the
    preview has the tables of the document and one more for every table
    item without a header row and without a body row, for which the
    document has no table.  So the four counts are the same when a section
    is rendered, every heading level is one of 1 to 6 and every table item
    has a row.  The heading levels are taken to be written with letters
    and digits: the preview puts the level into the name of the tag as it
    is, and the count is of the tags the renderer appends. *)
Theorem renderers_agree_on_counts :
  forall (now : string) (structureJson userData contentJson : jsval)
         (doc : document) (ps : list piece),
    generateFromStructure now structureJson userData contentJson = Ok doc ->
    preview_body structureJson (enhance now userData) contentJson = Ok ps ->
    Forall (fun section => tag_level (get_prop section "heading") = true)
      (listed_sections structureJson) ->
    let unstyled := headings_without_style structureJson in
    let unrendered :=
      tables_without_rows structureJson (enhance now userData) contentJson in
    (html_count Section ps = 0 -> doc = empty_document) /\
    (0 < html_count Section ps ->
     doc_sections doc = html_count Section ps /\
     doc_headings doc + unstyled = html_count Heading ps /\
     doc_paragraphs doc = html_count P ps + unstyled /\
     doc_tables doc + unrendered = html_count Table ps) /\
    (0 < html_count Section ps -> unstyled = 0 -> unrendered = 0 ->
     doc_sections doc = html_count Section ps /\
     doc_headings doc = html_count Heading ps /\
     doc_paragraphs doc = html_count P ps /\
     doc_tables doc = html_count Table ps).
Proof.
  intros now structureJson userData contentJson doc ps Hb Hh _ unstyled
    unrendered.
  assert (Hmain :
            (html_count Section ps = 0 -> doc = empty_document) /\
            (0 < html_count Section ps ->
             doc_sections doc = html_count Section ps /\
             doc_headings doc + unstyled = html_count Heading ps /\
             doc_paragraphs doc = html_count P ps + unstyled /\
             doc_tables doc + unrendered = html_count Table ps)).
  2: { destruct Hmain as (H0 & Hpos). split; [exact H0|]. split; [exact Hpos|].
       intros Hs Hu Hr. destruct (Hpos Hs) as (H1 & H2 & H3 & H4).
       rewrite Hu in H2, H3. rewrite Hr in H4. repeat split; lia. }
  subst unstyled unrendered.
  unfold headings_without_style, tables_without_rows, listed_sections.
  unfold generateFromStructure in Hb.
  destruct (truthy structureJson) eqn:Hs; [|discriminate].
  destruct (truthy (get_prop structureJson "sections")) eqn:Hsec; [|discriminate].
  cbn [negb orb] in Hb.
  apply bind_ok in Hb as (secs & Hsecs & Hb).
  apply bind_ok in Hb as (built & Hbuilt & Hb). injection Hb as <-.
  unfold preview_body in Hh.
  apply bind_ok in Hh as (sections & Hm & Hh).
  apply member_ok in Hm as (_ & ->).
  unfold or_else in Hh. rewrite Hsec, Hsecs in Hh. cbn [bind] in Hh.
  apply bind_ok in Hh as (htmls & Hhtmls & Hh). injection Hh as <-.
  rewrite Hsecs.
  destruct (sections_agree _ _ _ Hbuilt Hhtmls) as (Hn & [H1 H2 H3]).
  assert (Hcount : forall t, counted t = true ->
            html_count t ([Open Div ("<div class=" ++ dquote ++ "document-preview"
                                       ++ dquote ++ ">")]
                            ++ List.concat htmls ++ [Raw "</div>"])
            = html_count t (List.concat htmls)).
  { intros t Ht. rewrite !html_count_is_count.
    cbn [app]. rewrite count_cons, count_app.
    destruct t; try discriminate; cbn; lia. }
  rewrite !Hcount by reflexivity. rewrite <- Hn.
  unfold doc_sections, doc_headings, doc_paragraphs, doc_tables, all_children.
  cbn [DocumentGenerator.sections]. fold (count is_heading).
  split.
  - intros H0. destruct (somes built); [reflexivity|discriminate].
  - intros Hpos.
    destruct (somes built) as [|s ss] eqn:E; [simpl in Hpos; lia|].
    cbn [List.length Nat.ltb Nat.leb]. rewrite !html_count_is_count in *.
    unfold count in *. repeat split; assumption.
Qed.

Lemma renderers_agree_on_counts_witness :
  exists doc,
    generateFromStructure a_morning crew_structure crew_data report_content
      = Ok doc /\
    doc_sections doc = 1 /\ doc_headings doc = 1 /\ doc_paragraphs doc = 1 /\
    doc_tables doc = 1.
Proof.
  eexists. split; [reflexivity|].
  pose proof (@renderers_agree_on_counts a_morning crew_structure crew_data
                report_content _ _ eq_refl eq_refl ltac:(repeat constructor))
    as (_ & _ & H).
  exact (H ltac:(vm_compute; lia) eq_refl eq_refl).
Defined.

(** C2 as stated fails.  A table item without headers or rows is dropped
    from the document and is an empty table in the preview; a structure
    whose section list is empty gives a document of one section and one
    paragraph and a preview without any; a heading of level 7 is a body
    paragraph in the document and a heading in the preview; and a paragraph
    whose condition reads the helper entry [today] is in the document and
    not in the preview of the same data record. *)
Lemma renderers_disagree :
  (exists doc,
     generateFromStructure a_morning table_without_rows report_data
       report_content = Ok doc /\
     doc_tables doc = 0 /\
     html_count Table (preview_pieces table_without_rows report_data
                         report_content) = 1) /\
  (exists doc,
     generateFromStructure a_morning no_section report_data report_content
       = Ok doc /\
     doc_sections doc = 1 /\ doc_paragraphs doc = 1 /\
     html_count Section (preview_pieces no_section report_data report_content) = 0 /\
     html_count P (preview_pieces no_section report_data report_content) = 0) /\
  (exists doc,
     generateFromStructure a_morning deep_heading report_data report_content
       = Ok doc /\
     doc_headings doc = 0 /\
     html_count Heading (preview_pieces deep_heading report_data report_content)
       = 1) /\
  (exists doc,
     generateFromStructure a_morning dated_paragraph report_data report_content
       = Ok doc /\
     doc_paragraphs doc = 1 /\
     html_count P (preview_pieces dated_paragraph report_data report_content)
       = 0).
Proof.
  repeat split; eexists; (split; [reflexivity|]); repeat split; reflexivity.
Qed.

(** ** The bound on nested content *)

Lemma depth_assoc (k : string) (props : list (string * jsval)) :
  props <> [] -> depth (assoc k props) < depth (VObj props).
Proof.
  intros _. cbn [depth]. apply Nat.lt_succ_r.
  induction props as [|[k' v] props IH]; simpl; [lia|].
  destruct (String.eqb k k'); lia.
Qed.

Lemma depth_elem (x : jsval) (xs : list jsval) :
  In x xs -> depth x < depth (VArr xs).
Proof.
  intros H. cbn [depth]. apply Nat.lt_succ_r.
  induction xs as [|y ys IH]; simpl in *; [contradiction|].
  destruct H as [->|H]; [lia|]. specialize (IH H). lia.
Qed.

Lemma depth_chars (x : jsval) (s : string) : In x (chars s) -> depth x = 0.
Proof.
  induction s as [|c s IH]; simpl; [contradiction|].
  intros [<-|H]; [reflexivity|auto].
Qed.

Lemma depth_get_prop (v : jsval) (k : string) :
  depth (get_prop v k) <= depth v.
Proof.
  destruct v as [| | | |s|xs|props|name arity src]; try (simpl; lia).
  - cbn [get_prop]. repeat destruct (String.eqb _ _); try (simpl; lia).
    destruct (array_index k) as [i|]; [|simpl; lia].
    unfold char_at. destruct (String.get i s); simpl; lia.
  - cbn [get_prop]. destruct (String.eqb k "length"); [simpl; lia|].
    destruct (array_index k) as [i|]; [|simpl; lia].
    destruct (nth_in_or_default i xs VUndef) as [Hin | ->]; [|simpl; lia].
    apply depth_elem in Hin. lia.
  - cbn [get_prop]. destruct props; [simpl; lia|].
    apply Nat.lt_le_incl. apply depth_assoc. discriminate.
  - cbn [get_prop]. repeat destruct (String.eqb _ _); simpl; lia.
Qed.

(** Whatever a value yields when iterated lies deeper inside it. *)
Lemma depth_iterate (v x : jsval) (xs : list jsval) :
  iterate v = Ok xs -> In x xs -> depth x <= depth v /\ (is_array v = true -> depth x < depth v).
Proof.
  destruct v; simpl; try discriminate; intros [= <-] Hin.
  - apply depth_chars in Hin. split; [lia|discriminate].
  - apply depth_elem in Hin. cbn [depth] in Hin. split; [lia|intros _; exact Hin].
Qed.

(** The sub-items of a conditional item are nested strictly inside it. *)
Lemma depth_sub_items (item x : jsval) (xs : list jsval) :
  iterate (or_else (get_prop item "content") (VArr [])) = Ok xs ->
  In x xs -> depth x < depth item.
Proof.
  intros Hit Hin.
  destruct item; try (simpl in Hit; injection Hit as <-; contradiction).
  unfold or_else in Hit. cbn [get_prop] in Hit.
  destruct props as [|p props]; [simpl in Hit; injection Hit as <-; contradiction|].
  pose proof (@depth_assoc "content" (p :: props) ltac:(discriminate)) as Hd.
  destruct (truthy (assoc "content" (p :: props))).
  - destruct (depth_iterate _ _ Hit Hin) as (Hle & _). lia.
  - simpl in Hit. injection Hit as <-. contradiction.
Qed.

Lemma as_array_iterate (v : jsval) (xs : list jsval) :
  as_array v = Ok xs -> iterate v = Ok xs.
Proof. destruct v; simpl; intros H; discriminate || exact H. Qed.

(** Beyond the nesting depth of an item, more fuel changes nothing: the
    stack bound of the model is never what decides a result. *)
Lemma processContentItem_fuel (fuel : nat) :
  forall (fuel' : nat) (item userData contentJson : jsval),
    depth item <= fuel -> depth item <= fuel' ->
    processContentItem fuel item userData contentJson
    = processContentItem fuel' item userData contentJson.
Proof.
  induction fuel as [|fuel IH]; intros [|fuel'] item userData contentJson Hf Hf';
    try reflexivity.
  - assert (Hd : depth item = 0) by lia.
    destruct item; try discriminate; reflexivity.
  - assert (Hd : depth item = 0) by lia.
    destruct item; try discriminate; reflexivity.
  - cbn [processContentItem].
    destruct (member item "type") as [type|e]; [|reflexivity]. cbn [bind].
    destruct (is_case type "paragraph"); [reflexivity|].
    destruct (is_case type "table"); [reflexivity|].
    destruct (is_case type "conditional"); [|reflexivity].
    destruct (evaluateCondition _ _) as [[|]|e]; try reflexivity. cbn [bind].
    destruct (iterate _) as [subs|e] eqn:Hsubs; [|reflexivity]. cbn [bind].
    f_equal. apply mapM_ext. intros x Hx.
    pose proof (depth_sub_items _ _ Hsubs Hx). apply IH; lia.
Qed.

Lemma renderHtmlContentItem_fuel (fuel : nat) :
  forall (fuel' : nat) (item userData contentJson : jsval),
    depth item <= fuel -> depth item <= fuel' ->
    renderHtmlContentItem fuel item userData contentJson
    = renderHtmlContentItem fuel' item userData contentJson.
Proof.
  induction fuel as [|fuel IH]; intros [|fuel'] item userData contentJson Hf Hf';
    try reflexivity.
  - assert (Hd : depth item = 0) by lia.
    destruct item; try discriminate; reflexivity.
  - assert (Hd : depth item = 0) by lia.
    destruct item; try discriminate; reflexivity.
  - cbn [renderHtmlContentItem].
    destruct (member item "type") as [type|e]; [|reflexivity]. cbn [bind].
    destruct (is_case type "paragraph"); [reflexivity|].
    destruct (is_case type "table"); [reflexivity|].
    destruct (is_case type "conditional"); [|reflexivity].
    destruct (evaluateCondition _ _) as [[|]|e]; try reflexivity. cbn [bind].
    destruct (as_array _) as [subs|e] eqn:Hsubs; [|reflexivity]. cbn [bind].
    f_equal. apply mapM_ext. intros x Hx.
    pose proof (depth_sub_items _ _ (as_array_iterate _ Hsubs) Hx).
    apply IH; lia.
Qed.

(** The fuel [build_section] gives covers every item of the section. *)
Lemma section_fuel_suffices (section item userData contentJson : jsval)
    (items : list jsval) (fuel : nat) :
  iterate (get_prop section "content") = Ok items -> In item items ->
  depth section <= fuel ->
  processContentItem (depth section) item userData contentJson
  = processContentItem fuel item userData contentJson /\
  renderHtmlContentItem (depth section) item userData contentJson
  = renderHtmlContentItem fuel item userData contentJson.
Proof.
  intros Hit Hin Hfuel.
  destruct (depth_iterate _ _ Hit Hin) as (Hle & _).
  pose proof (depth_get_prop section "content").
  split; [apply processContentItem_fuel|apply renderHtmlContentItem_fuel]; lia.
Qed.

(** The closed form of the empty-rows loop: [i < bound] holds for the
    first [loop_count bound] values of the counter and for no other. *)
Lemma loop_count_spec (bound : jsval) (i : nat) :
  lt (VNum (Z.of_nat i)) bound = true <-> i < loop_count bound.
Proof.
  assert (Hgen : forall o : option Z,
            match o with Some y => Z.ltb (Z.of_nat i) y | None => false end = true
            <-> i < match o with Some z => Z.to_nat z | None => O end).
  { intros [y|]; [rewrite Z.ltb_lt; lia | split; [discriminate|lia]]. }
  destruct bound as [| |b| | | | |]; unfold lt, loop_count, to_number;
    cbn [to_primitive];
    first [ exact (Hgen None) | exact (Hgen (Some _))
          | destruct b; exact (Hgen (Some _)) | apply Hgen ].
Qed.

(** * Further properties of the code *)

(** ** Splitting and paths *)

Lemma split_on_app (sep : ascii) (a b cur : string) :
  split_on sep cur (a ++ String sep b)
  = (split_on sep cur a ++ split_on sep EmptyString b)%list.
Proof.
  revert cur. induction a as [|c a IH]; intros cur; simpl.
  - now rewrite Ascii.eqb_refl.
  - destruct (Ascii.eqb c sep); simpl; now rewrite IH.
Qed.

Lemma split_on_plain (sep : ascii) (a cur : string) :
  mentions sep a = false -> split_on sep cur a = [cur ++ a].
Proof.
  revert cur. induction a as [|c a IH]; intros cur; simpl.
  - now rewrite append_empty_r.
  - intros H. apply orb_false_iff in H as (Hc & Ha). rewrite Hc.
    rewrite IH by assumption. now rewrite append_assoc_s.
Qed.

Lemma split_app (sep : ascii) (a b : string) :
  split sep (a ++ String sep b) = (split sep a ++ split sep b)%list.
Proof. apply split_on_app. Qed.

Lemma split_plain (sep : ascii) (a : string) :
  mentions sep a = false -> split sep a = [a].
Proof. intros H. unfold split. now rewrite split_on_plain. Qed.

Lemma split_not_nil (sep : ascii) (s cur : string) : split_on sep cur s <> [].
Proof.
  revert cur. induction s as [|c s IH]; intros cur; simpl; [discriminate|].
  destruct (Ascii.eqb c sep); [discriminate|apply IH].
Qed.

Lemma foldM_app {A S : Type} (f : S -> A -> result S) (xs ys : list A) (s : S) :
  foldM f (xs ++ ys) s = (s' <- foldM f xs s ;; foldM f ys s').
Proof.
  revert s. induction xs as [|x xs IH]; intros s; simpl; [reflexivity|].
  destruct (f s x); simpl; [apply IH|reflexivity].
Qed.

Lemma walk_undefined (keys : list string) :
  foldM opt_index keys VUndef = Ok VUndef.
Proof. induction keys; simpl; auto. Qed.

Lemma walk_nullish (keys : list string) (obj : jsval) :
  is_nullish obj = true -> keys <> [] -> foldM opt_index keys obj = Ok VUndef.
Proof.
  intros Hn Hk. destruct keys as [|k keys]; [contradiction|].
  simpl. unfold opt_index at 1. rewrite Hn. apply walk_undefined.
Qed.

Lemma getNestedValue_walk (obj : jsval) (p : string) :
  p <> EmptyString ->
  getNestedValue obj (VStr p) = foldM opt_index (split "." p) obj.
Proof.
  intros Hp. unfold getNestedValue.
  destruct p; [contradiction|reflexivity].
Qed.

Lemma append_not_empty (a b : string) (c : ascii) :
  a ++ String c b <> EmptyString.
Proof. destruct a; discriminate. Qed.

(** X1.  Resolving a dotted path is resolving its first part and then the
    rest in what the first part gave: for non-empty [p] and [q],
    [getNestedValue(obj, p + "." + q)] is
    [getNestedValue(getNestedValue(obj, p), q)]. *)
Theorem getNestedValue_composes :
  forall (obj : jsval) (p q : string),
    p <> EmptyString -> q <> EmptyString ->
    getNestedValue obj (VStr (p ++ "." ++ q))
    = (v <- getNestedValue obj (VStr p) ;; getNestedValue v (VStr q)).
Proof.
  intros obj p q Hp Hq.
  rewrite !getNestedValue_walk by (assumption || apply append_not_empty).
  change (p ++ "." ++ q) with (p ++ String "." q).
  rewrite split_app, foldM_app.
  destruct (foldM opt_index (split "." p) obj) as [v|e]; [|reflexivity].
  cbn [bind]. now rewrite getNestedValue_walk by assumption.
Qed.

Lemma getNestedValue_composes_witness :
  getNestedValue (VObj [("site", VObj [("crew", VArr [VStr "Ann"; VStr "Bo"])])])
    (VStr "site.crew.1")
  = Ok (VStr "Bo").
Proof.
  refine (eq_trans
            (@getNestedValue_composes
               (VObj [("site", VObj [("crew", VArr [VStr "Ann"; VStr "Bo"])])])
               "site" "crew.1" _ _) _);
    [discriminate | discriminate | reflexivity].
Defined.

(** X2.  A path never raises on a missing link: resolved in [null] or
    [undefined] every text path gives [undefined], and so does every
    extension of a path that gives [null] or [undefined]. *)
Theorem getNestedValue_missing_link :
  forall (obj : jsval) (p q : string),
    (is_nullish obj = true -> getNestedValue obj (VStr p) = Ok VUndef) /\
    (forall v,
       p <> EmptyString -> q <> EmptyString ->
       getNestedValue obj (VStr p) = Ok v -> is_nullish v = true ->
       getNestedValue obj (VStr (p ++ "." ++ q)) = Ok VUndef).
Proof.
  intros obj p q. split.
  - intros Hn. destruct p as [|c p]; [reflexivity|].
    rewrite getNestedValue_walk by discriminate.
    apply walk_nullish; [assumption|apply split_not_nil].
  - intros v Hp Hq Hv Hn.
    rewrite getNestedValue_walk by apply append_not_empty.
    rewrite getNestedValue_walk in Hv by assumption.
    change (p ++ "." ++ q) with (p ++ String "." q).
    rewrite split_app, foldM_app, Hv. cbn [bind].
    apply walk_nullish; [assumption|apply split_not_nil].
Qed.

Lemma getNestedValue_missing_link_witness :
  getNestedValue (VObj [("site", VNull)]) (VStr "site.crew.1") = Ok VUndef.
Proof.
  apply (proj2 (@getNestedValue_missing_link (VObj [("site", VNull)])
                  "site" "crew.1") VNull);
    [discriminate | discriminate | reflexivity | reflexivity].
Defined.

Lemma hd_split_on (sep : ascii) (s cur : string) :
  exists a rest,
    s = a ++ rest /\ hd EmptyString (split_on sep cur s) = cur ++ a /\
    mentions sep a = false /\
    (rest = EmptyString \/ exists r, rest = String sep r).
Proof.
  revert cur. induction s as [|c s IH]; intros cur.
  - exists EmptyString, EmptyString. simpl. rewrite append_empty_r. auto.
  - simpl. destruct (Ascii.eqb_spec c sep) as [->|Hc].
    + exists EmptyString, (String sep s). simpl. rewrite append_empty_r.
      repeat split; eauto.
    + destruct (IH (cur ++ String c EmptyString)) as (a & rest & -> & Hhd & Ha & Hr).
      exists (String c a), rest. simpl. rewrite Hhd, append_assoc_s. simpl.
      repeat split; auto.
      apply Ascii.eqb_neq in Hc. now rewrite Hc.
Qed.

(** X3.  [getToday] returns what the clock text reads up to its first
    [T], and nothing of what follows: the date of an ISO instant. *)
Theorem getToday_is_the_date_part :
  forall now : string,
    (exists rest,
       now = getToday now ++ rest /\ mentions "T" (getToday now) = false /\
       (rest = EmptyString \/ exists r, rest = String "T" r)) /\
    (forall date time,
       now = date ++ "T" ++ time -> mentions "T" date = false ->
       getToday now = date).
Proof.
  intros now. split.
  - unfold getToday, split.
    destruct (hd_split_on "T" now EmptyString) as (a & rest & Hs & Hhd & Ha & Hr).
    exists rest. rewrite Hhd. simpl. auto.
  - intros date time -> Hd. unfold getToday.
    change (date ++ "T" ++ time) with (date ++ String "T" time).
    rewrite split_app, split_plain by assumption. reflexivity.
Qed.

Lemma getToday_is_the_date_part_witness :
  getToday "2024-01-15T10:30:00.000Z" = "2024-01-15".
Proof.
  apply (proj2 (getToday_is_the_date_part "2024-01-15T10:30:00.000Z")
           "2024-01-15" "10:30:00.000Z"); reflexivity.
Defined.

(** ** Templates, piece by piece *)

Lemma mapM_app {A B : Type} (f : A -> result B) (xs ys : list A) :
  mapM f (xs ++ ys)
  = (xs' <- mapM f xs ;; ys' <- mapM f ys ;; Ok (xs' ++ ys')%list).
Proof.
  induction xs as [|x xs IH]; simpl.
  - destruct (mapM f ys); reflexivity.
  - destruct (f x) as [y|e]; [|reflexivity]. cbn [bind]. rewrite IH.
    destruct (mapM f xs) as [xs'|e]; [|reflexivity]. cbn [bind].
    destruct (mapM f ys) as [ys'|e]; reflexivity.
Qed.

Lemma render_literals (data boilerplate : jsval) (l : list ascii) :
  mapM (render_segment data boilerplate) (map Lit l)
  = Ok (map (fun c => String c EmptyString) l).
Proof.
  induction l as [|c l IH]; simpl; [reflexivity|]. now rewrite IH.
Qed.

Lemma concat_singles (l : string) (parts : list string) :
  String.concat EmptyString
    (map (fun c => String c EmptyString) (list_ascii_of_string l) ++ parts)
  = l ++ String.concat EmptyString parts.
Proof.
  induction l as [|c l IH]; [reflexivity|].
  cbn [list_ascii_of_string map app]. rewrite concat_empty_cons, IH.
  reflexivity.
Qed.

(** X4.  Text that has no opening brace is copied: a template [a ++ b]
    whose part [a] has none renders as [b] does, with [a] put before the
    text when [b] renders and with the exception of [b] when it raises; so
    a template without any opening brace is returned as it is. *)
Theorem renderTemplate_copies_literal_text :
  forall (a b : string) (data boilerplate : jsval),
    mentions "{" a = false ->
    renderTemplate (VStr (a ++ b)) data boilerplate
      = prefixed a (renderTemplate (VStr b) data boilerplate) /\
    renderTemplate (VStr a) data boilerplate = Ok (VStr a).
Proof.
  intros a b data boilerplate Ha.
  assert (Hgen : forall b',
            renderTemplate (VStr (a ++ b')) data boilerplate
            = prefixed a (renderTemplate (VStr b') data boilerplate)).
  { intros b'. rewrite !renderTemplate_text. unfold segments.
    rewrite scan_plain, mapM_app, render_literals by assumption.
    cbn [bind].
    destruct (mapM (render_segment data (or_empty boilerplate)) (scan 0 b'))
      as [parts|e]; [|reflexivity].
    cbn [bind prefixed]. now rewrite concat_singles. }
  split; [apply Hgen|].
  specialize (Hgen EmptyString). rewrite append_empty_r in Hgen.
  rewrite Hgen. cbn. now rewrite append_empty_r.
Qed.

Lemma renderTemplate_copies_literal_text_witness :
  renderTemplate (VStr "Prepared by the site office.")
    (VObj [("name", VStr "Ann")]) (VObj [])
  = Ok (VStr "Prepared by the site office.").
Proof.
  apply (proj2 (@renderTemplate_copies_literal_text
                  "Prepared by the site office." EmptyString
                  (VObj [("name", VStr "Ann")]) (VObj []) eq_refl)).
Defined.

(** X5.  A placeholder at the head of a template is replaced by the text
    of its value, or kept when the value is [undefined], and the scan
    resumes behind the placeholder: what was put in is not scanned again,
    also when it has braces of its own.  The rest of the template renders
    as it does on its own, and an exception of the lookup of the
    placeholder is the exception of the rendering.  The value is taken to
    have the built-in conversion to text, and the lookup to go through
    charted reads. *)
Theorem renderTemplate_substitutes_once :
  forall (raw b : string) (data boilerplate : jsval),
    raw <> EmptyString -> mentions "}" raw = false ->
    charted_hole data (or_empty boilerplate) raw = true ->
    (forall v,
       placeholder_value data (or_empty boilerplate) raw = Ok v ->
       plain_text v = true ->
       renderTemplate (VStr (matched raw ++ b)) data boilerplate
       = prefixed (replacement raw v) (renderTemplate (VStr b) data boilerplate)) /\
    (forall e,
       placeholder_value data (or_empty boilerplate) raw = Throw e ->
       renderTemplate (VStr (matched raw ++ b)) data boilerplate = Throw e).
Proof.
  intros raw b data boilerplate Hne Hraw _. split.
  - intros v Hv _. rewrite !renderTemplate_text. unfold segments.
    rewrite scan_placeholder by assumption.
    cbn [mapM render_segment]. rewrite substitute_replacement, Hv. cbn [bind].
    destruct (mapM (render_segment data (or_empty boilerplate)) (scan 0 b))
      as [parts|e]; [|reflexivity].
    cbn [bind prefixed]. now rewrite concat_empty_cons.
  - intros e He. rewrite renderTemplate_text. unfold segments.
    rewrite scan_placeholder by assumption.
    cbn [mapM render_segment]. now rewrite substitute_replacement, He.
Qed.

Lemma renderTemplate_substitutes_once_witness :
  renderTemplate (VStr ("{{ n }}" ++ " items"))
    (VObj [("n", VStr "{{m}}"); ("m", VNum 3)]) VUndef
  = Ok (VStr "{{m}} items").
Proof.
  refine (eq_trans
            (proj1 (@renderTemplate_substitutes_once " n " " items"
                      (VObj [("n", VStr "{{m}}"); ("m", VNum 3)]) VUndef
                      ltac:(discriminate) eq_refl eq_refl)
               (VStr "{{m}}") eq_refl eq_refl) _).
  reflexivity.
Defined.

(** ** Clauses *)

Lemma is_case_eq (v : jsval) (label : string) :
  is_case v label = true -> v = VStr label.
Proof.
  unfold is_case. destruct v; simpl; try discriminate.
  intros H. apply String.eqb_eq in H. now subst.
Qed.

Lemma ltb_asym (x y : string) : String.ltb x y = true -> String.ltb y x = false.
Proof.
  unfold String.ltb. rewrite (String.compare_antisym x y).
  destruct (String.compare y x); simpl; congruence.
Qed.

Lemma ltb_irrefl (x : string) : String.ltb x x = false.
Proof.
  unfold String.ltb.
  pose proof (String.compare_antisym x x) as H.
  destruct (String.compare x x); simpl in H; congruence.
Qed.

(** [<] never holds both ways. *)
Lemma lt_asym (a b : jsval) : lt a b = true -> lt b a = false.
Proof.
  unfold lt.
  destruct (to_primitive a) eqn:Ea, (to_primitive b) eqn:Eb;
    try discriminate;
    try (intros H; apply ltb_asym; exact H);
    unfold to_number; cbn [to_primitive];
    repeat match goal with
           | |- context [number_of_string ?s] => destruct (number_of_string s)
           | b : bool |- _ => destruct b
           end;
    try discriminate; try reflexivity;
    intros H; apply Z.ltb_lt in H; apply Z.ltb_ge; lia.
Qed.

(** Values identical under [===] are not ordered by [<]. *)
Lemma strict_eq_not_lt (a b : jsval) : strict_eq a b = true -> lt a b = false.
Proof.
  destruct a, b; simpl; try discriminate; intros H; try reflexivity.
  - apply Bool.eqb_prop in H. subst. unfold lt, to_number. simpl.
    match goal with x : bool |- _ => destruct x end; reflexivity.
  - apply Z.eqb_eq in H. subst. unfold lt, to_number. simpl. apply Z.ltb_irrefl.
  - apply String.eqb_eq in H. subst. unfold lt. simpl. apply ltb_irrefl.
Qed.

Lemma strict_eq_sym (a b : jsval) : strict_eq a b = strict_eq b a.
Proof.
  destruct a, b; simpl; try reflexivity.
  - repeat match goal with x : bool |- _ => destruct x end; reflexivity.
  - apply Z.eqb_sym.
  - apply String.eqb_sym.
Qed.

(** X6.  On a clause that names a field, [not_equals] is the negation of
    [equals] and [not_contains] the negation of [contains], exception for
    exception. *)
Theorem negated_operators :
  forall (rest : list (string * jsval)) (data : jsval),
    truthy (assoc "field" rest) = true ->
    evaluateCondition (with_operator "not_equals" rest) data
      = negated (evaluateCondition (with_operator "equals" rest) data) /\
    evaluateCondition (with_operator "not_contains" rest) data
      = negated (evaluateCondition (with_operator "contains" rest) data).
Proof.
  intros rest data Hfield. unfold evaluateCondition, with_operator.
  cbn [get_prop assoc String.eqb Ascii.eqb Bool.eqb truthy negb orb].
  rewrite Hfield. cbn [negb].
  destruct (getNestedValue data (assoc "field" rest)) as [fieldValue|e];
    [|split; reflexivity].
  split; cbn; destruct fieldValue; reflexivity.
Qed.

Lemma negated_operators_witness :
  evaluateCondition
    (with_operator "not_contains"
       [("field", VStr "tags"); ("value", VStr "wet")])
    (VObj [("tags", VArr [VStr "dry"; VStr "hot"])])
  = Ok true.
Proof.
  refine (eq_trans
            (proj2 (@negated_operators
                      [("field", VStr "tags"); ("value", VStr "wet")]
                      (VObj [("tags", VArr [VStr "dry"; VStr "hot"])]) _)) _);
    reflexivity.
Defined.

(** X7.  [evaluateCondition] raises exactly when the clause is truthy,
    names a field and the lookup of the field raises, and then with the
    exception of the lookup; the values compared are taken to have the
    built-in conversions to text and to a number, and the lookup to go
    through charted reads. *)
Theorem evaluateCondition_raises_iff :
  forall condition data : jsval,
    plain_text (get_prop condition "value") = true ->
    charted_path data (get_prop condition "field") = true ->
    (forall fieldValue,
       getNestedValue data (get_prop condition "field") = Ok fieldValue ->
       plain_text fieldValue = true) ->
    forall e,
      evaluateCondition condition data = Throw e <->
      truthy condition = true /\
      truthy (get_prop condition "field") = true /\
      getNestedValue data (get_prop condition "field") = Throw e.
Proof.
  intros condition data _ _ _ e. unfold evaluateCondition.
  destruct (truthy condition); cbn [negb orb].
  2: { split; [discriminate|intros (H & _); discriminate]. }
  destruct (truthy (get_prop condition "field")) eqn:Hf; cbn [negb].
  2: { split; [discriminate|intros (_ & H & _); discriminate]. }
  destruct (getNestedValue data (get_prop condition "field")) as [v|e'];
    cbn [bind].
  - split; [|intros (_ & _ & H); discriminate].
    intros He.
    repeat match type of He with
           | (if ?c then _ else _) = _ => destruct c
           end; discriminate.
  - split; [intros [= ->]; auto|intros (_ & _ & [= ->]); reflexivity].
Qed.

Lemma evaluateCondition_raises_iff_witness :
  exists e,
    evaluateCondition
      (VObj [("field", VStr "constructor.caller"); ("operator", VStr "equals");
             ("value", VNum 1)])
      (VObj [])
    = Throw e.
Proof.
  eexists.
  apply (proj2 (@evaluateCondition_raises_iff
                  (VObj [("field", VStr "constructor.caller");
                         ("operator", VStr "equals"); ("value", VNum 1)])
                  (VObj []) eq_refl eq_refl ltac:(discriminate) _)).
  repeat split; reflexivity.
Defined.

(** X8.  On a clause that names a field, at most one of [equals],
    [greater_than] and [less_than] is satisfied. *)
Theorem comparison_operators_exclude :
  forall (rest : list (string * jsval)) (data : jsval),
    truthy (assoc "field" rest) = true ->
    let holds op := evaluateCondition (with_operator op rest) data = Ok true in
    let fails op := evaluateCondition (with_operator op rest) data = Ok false in
    (holds "equals" -> fails "greater_than" /\ fails "less_than") /\
    (holds "greater_than" -> fails "less_than" /\ fails "equals") /\
    (holds "less_than" -> fails "greater_than" /\ fails "equals").
Proof.
  intros rest data Hfield holds fails. subst holds fails.
  unfold evaluateCondition, with_operator.
  cbn [get_prop assoc String.eqb Ascii.eqb Bool.eqb truthy negb orb].
  rewrite Hfield. cbn [negb].
  destruct (getNestedValue data (assoc "field" rest)) as [fieldValue|e];
    [|repeat split; discriminate].
  cbn. unfold gt.
  set (value := assoc "value" rest).
  split; [|split]; intros [= H]; split.
  - rewrite strict_eq_sym in H. now rewrite (strict_eq_not_lt _ _ H).
  - now rewrite (strict_eq_not_lt _ _ H).
  - now rewrite (lt_asym _ _ H).
  - destruct (strict_eq fieldValue value) eqn:E; [|reflexivity].
    rewrite strict_eq_sym in E. rewrite (strict_eq_not_lt _ _ E) in H.
    discriminate.
  - now rewrite (lt_asym _ _ H).
  - destruct (strict_eq fieldValue value) eqn:E; [|reflexivity].
    rewrite (strict_eq_not_lt _ _ E) in H. discriminate.
Qed.

Lemma comparison_operators_exclude_witness :
  evaluateCondition
    (with_operator "less_than" [("field", VStr "n"); ("value", VNum 5)])
    (VObj [("n", VNum 9)])
  = Ok false.
Proof.
  apply (proj1 (proj2 (@comparison_operators_exclude
                         [("field", VStr "n"); ("value", VNum 5)]
                         (VObj [("n", VNum 9)]) eq_refl)));
    reflexivity.
Defined.

(** X9.  The form's visibility test agrees with [isFieldVisible] where
    the two were written alike: for a clause whose field is a key without a
    dot, on form values that are an object, when the operator is [equals] or
    [not_equals], or is none of the six operators, or is [contains] and the
    value under the key is truthy. *)
Theorem form_visibility_agrees :
  forall (field data : jsval) (f : string),
    let conditional := get_prop field "conditional" in
    let show_when := get_prop conditional "show_when" in
    let operator := get_prop show_when "operator" in
    get_prop show_when "field" = VStr f ->
    f <> EmptyString -> mentions "." f = false ->
    is_nullish data = false ->
    is_case operator "equals" = true \/ is_case operator "not_equals" = true
    \/ known_operator operator = false
    \/ (is_case operator "contains" = true /\ truthy (get_prop data f) = true) ->
    isFieldVisible field data = FormRenderer.evaluateConditional data conditional.
Proof.
  intros field data f conditional show_when operator Hf Hne Hdot Hdata Hop.
  assert (Hsw : truthy show_when = true).
  { destruct show_when; simpl in Hf; try discriminate; reflexivity. }
  assert (Hc : truthy conditional = true).
  { fold show_when in Hsw. unfold show_when in Hsw.
    destruct conditional; simpl in Hsw; try discriminate; reflexivity. }
  assert (Hfield : is_nullish field = false).
  { unfold conditional in Hc. destruct field; simpl in Hc; try discriminate;
      reflexivity. }
  unfold isFieldVisible, FormRenderer.evaluateConditional, member.
  rewrite Hfield. cbn [bind]. fold conditional. fold show_when.
  rewrite Hc, Hsw. cbn [negb orb].
  unfold evaluateCondition. rewrite Hsw, Hf. fold operator.
  assert (Htruthy : truthy (VStr f) = true).
  { simpl. destruct f; [contradiction|reflexivity]. }
  rewrite Htruthy. cbn [negb orb to_string].
  rewrite getNestedValue_walk, split_plain by assumption.
  cbn [foldM]. unfold opt_index, index. rewrite Hdata.
  destruct Hop as [H|[H|[H|(H & Hv)]]].
  - apply is_case_eq in H. rewrite H.
    destruct (lookup data f); reflexivity.
  - apply is_case_eq in H. rewrite H.
    destruct (lookup data f); reflexivity.
  - unfold known_operator in H.
    repeat (apply orb_false_iff in H; destruct H as (H & ?)).
    repeat match goal with
           | E : is_case operator _ = false |- _ => rewrite E; clear E
           end.
    destruct (lookup data f); reflexivity.
  - apply is_case_eq in H. rewrite H.
    rewrite lookup_own by now apply truthy_defined.
    cbn. unfold or_else. rewrite Hv. reflexivity.
Qed.

Lemma form_visibility_agrees_witness :
  isFieldVisible
    (VObj [("id", VStr "depth");
           ("conditional",
            VObj [("show_when",
                   VObj [("field", VStr "kind"); ("operator", VStr "equals");
                         ("value", VStr "dive")])])])
    (VObj [("kind", VStr "dive")])
  = FormRenderer.evaluateConditional (VObj [("kind", VStr "dive")])
      (VObj [("show_when",
              VObj [("field", VStr "kind"); ("operator", VStr "equals");
                    ("value", VStr "dive")])]).
Proof.
  apply (@form_visibility_agrees
           (VObj [("id", VStr "depth");
                  ("conditional",
                   VObj [("show_when",
                          VObj [("field", VStr "kind");
                                ("operator", VStr "equals");
                                ("value", VStr "dive")])])])
           (VObj [("kind", VStr "dive")]) "kind");
    [reflexivity | discriminate | reflexivity | reflexivity
    | left; reflexivity].
Defined.

(** ** Uploads, templates and submitted records *)

Lemma strict_eq_text (v : jsval) (s : string) :
  strict_eq (VStr s) v = true <-> v = VStr s.
Proof.
  destruct v; simpl; split; try discriminate.
  - intros H. apply String.eqb_eq in H. now subst.
  - intros [= ->]. apply String.eqb_refl.
Qed.

(** X10.  An upload is accepted exactly when its type is the one of a
    word-processing document and its size is at most ten megabytes; a size
    of exactly ten megabytes passes. *)
Theorem validateDocxFile_accepts_iff :
  forall (file : jsval) (n : Z),
    truthy file = true ->
    get_prop file "size" = VNum n ->
    (valid (validateDocxFile file) = true <->
     In (get_prop file "mimetype") ALLOWED_FILE_TYPES /\ (n <= MAX_FILE_SIZE)%Z).
Proof.
  intros file n Hfile Hsize. unfold validateDocxFile.
  change MAX_FILE_SIZE with 10485760%Z.
  rewrite Hfile, Hsize. cbn [negb]. unfold gt, lt, to_number.
  cbn [to_primitive array_includes ALLOWED_FILE_TYPES existsb].
  rewrite orb_false_r.
  destruct (strict_eq _ (get_prop file "mimetype")) eqn:Hm; cbn [negb].
  - apply strict_eq_text in Hm.
    destruct (Z.ltb_spec 10485760 n); cbn.
    + split; [discriminate|]. intros (_ & H1). lia.
    + split; [|reflexivity]. intros _. split; [|assumption].
      left. now rewrite Hm.
  - assert (Hnot : ~ In (get_prop file "mimetype") ALLOWED_FILE_TYPES).
    { intros [H1|[]]. symmetry in H1. apply strict_eq_text in H1. congruence. }
    destruct (Z.ltb_spec 10485760 n); cbn;
      (split; [discriminate|intros (H1 & _); contradiction]).
Qed.

Lemma validateDocxFile_accepts_iff_witness :
  valid (validateDocxFile
           (VObj [("mimetype",
                   VStr "application/vnd.openxmlformats-officedocument.wordprocessingml.document");
                  ("size", VNum 10485760)]))
  = true.
Proof.
  apply (proj2 (@validateDocxFile_accepts_iff
                  (VObj [("mimetype",
                          VStr "application/vnd.openxmlformats-officedocument.wordprocessingml.document");
                         ("size", VNum 10485760)])
                  10485760 eq_refl eq_refl)).
  split; [left; reflexivity|]. vm_compute. discriminate.
Defined.

Lemma trim_start_length (s : string) :
  String.length (trim_start s) <= String.length s.
Proof.
  induction s as [|c s IH]; simpl; [lia|]. destruct (is_space c); simpl; lia.
Qed.

Lemma trim_end_length (s : string) :
  String.length (trim_end s) <= String.length s.
Proof.
  induction s as [|c s IH]; simpl; [lia|].
  destruct (trim_end s); [destruct (is_space c)|]; simpl in *; lia.
Qed.

Lemma trim_length (s : string) : String.length (trim s) <= String.length s.
Proof.
  unfold trim. pose proof (trim_end_length (trim_start s)).
  pose proof (trim_start_length s). lia.
Qed.

(** X11.  Template data whose name is a text of ASCII characters, or is
    no text and has no length other than a number, is accepted exactly
    when the name is a text of at least three characters once trimmed and
    of at most 255 characters, and the schema, the content and the
    structure are each an object or an array; a name of exactly 255
    characters passes. *)
Theorem validateTemplateData_accepts_iff :
  forall data : jsval,
    is_nullish data = false ->
    name_exact (get_prop data "name") ->
    exists report,
      validateTemplateData data = Ok report /\
      (valid report = true <->
       name_ok (get_prop data "name") /\
       not_an_object (get_prop data "schemaJson") = false /\
       not_an_object (get_prop data "contentJson") = false /\
       not_an_object (get_prop data "structureJson") = false).
Proof.
  intros data Hdata _. unfold validateTemplateData, member.
  rewrite Hdata. cbn [bind]. eexists. split; [reflexivity|].
  cbn [valid].
  set (c1 := match get_prop data "name" with
             | VStr s => (negb (truthy (get_prop data "name"))
                          || Nat.ltb (String.length (trim s)) 3)%bool
             | _ => true
             end).
  set (c2 := (truthy (get_prop data "name")
              && gt (get_prop (get_prop data "name") "length") (VNum 255))%bool).
  assert (Hname : (c1 || c2)%bool = false <-> name_ok (get_prop data "name")).
  { subst c1 c2. unfold name_ok.
    destruct (get_prop data "name") as [| | | |s| | |];
      try (split; [discriminate|intros (s' & H & _); discriminate]).
    cbn [get_prop String.eqb Ascii.eqb Bool.eqb]. unfold gt, lt, to_number.
    cbn [to_primitive].
    pose proof (trim_length s) as Hlen.
    split.
    - intros H. apply orb_false_iff in H as (H1 & H2).
      apply orb_false_iff in H1 as (H0 & H1).
      apply negb_false_iff in H0. rewrite H0 in H2. cbn [andb] in H2.
      apply Nat.ltb_ge in H1. apply Z.ltb_ge in H2.
      exists s. repeat split; [assumption|lia].
    - intros (s' & [= <-] & H3 & H255).
      assert (Ht : truthy (VStr s) = true).
      { simpl. destruct s; [simpl in H3; lia|reflexivity]. }
      rewrite Ht. cbn [negb orb andb].
      apply orb_false_iff. split; [apply Nat.ltb_ge; assumption|].
      apply Z.ltb_ge. lia. }
  rewrite <- Hname. clearbody c1 c2.
  destruct c1, c2, (not_an_object (get_prop data "schemaJson")),
    (not_an_object (get_prop data "contentJson")),
    (not_an_object (get_prop data "structureJson")); cbn;
    intuition congruence.
Qed.

Lemma foldM_raises {A S : Type} (f : S -> A -> result S) (x : A) (xs : list A) :
  In x xs -> (forall s, exists e, f s x = Throw e) ->
  forall s, exists e, foldM f xs s = Throw e.
Proof.
  intros Hin Hx. induction xs as [|y ys IH]; [contradiction|].
  intros s. simpl. destruct Hin as [->|Hin].
  - destruct (Hx s) as (e & ->). simpl. eauto.
  - destruct (f s y) as [s'|e]; simpl; [apply IH; assumption|eauto].
Qed.

(** X12.  A record that holds [null] for a text field with a length
    bound makes [validateUserData] raise instead of returning a report:
    the length of [null] cannot be read. *)
Theorem validateUserData_raises_on_null_text :
  forall (data schema section field : jsval) (sections fields : list jsval),
    is_nullish data = false ->
    get_prop schema "sections" = VArr sections -> In section sections ->
    get_prop section "fields" = VArr fields -> In field fields ->
    is_case (get_prop field "type") "text" = true
    \/ is_case (get_prop field "type") "textarea" = true ->
    truthy (opt_member (get_prop field "validation") "minLength") = true
    \/ truthy (opt_member (get_prop field "validation") "maxLength") = true ->
    get_prop data (to_string (get_prop field "id")) = VNull ->
    exists e, validateUserData data schema = Throw e.
Proof.
  intros data schema section field sections fields Hdata Hsecs Hsec Hfields
    Hfield Htype Hbound Hnull.
  assert (Hf : forall errs, exists e, validate_field data errs field = Throw e).
  { intros errs. unfold validate_field, member.
    assert (Hnn : is_nullish field = false).
    { destruct field; try reflexivity; destruct Htype as [H|H]; discriminate. }
    rewrite Hnn. cbn [bind]. unfold index. rewrite Hdata.
    rewrite lookup_own by (rewrite Hnull; discriminate).
    rewrite Hnull. cbn [bind is_undef negb].
    unfold type_check, member. cbn [is_nullish bind].
    assert (Hnum : is_case (get_prop field "type") "number" = false).
    { destruct Htype as [H|H]; apply is_case_eq in H; now rewrite H. }
    rewrite Hnum.
    assert (Htext : (is_case (get_prop field "type") "text"
                     || is_case (get_prop field "type") "textarea")%bool = true).
    { destruct Htype as [-> | ->]; [reflexivity|apply orb_true_r]. }
    rewrite Htext.
    destruct (truthy (opt_member (get_prop field "validation") "minLength"));
      cbn [bind]; [eauto|].
    destruct Hbound as [H|H]; [discriminate|]. rewrite H. cbn [bind]. eauto. }
  assert (Hs : forall errs, exists e, validate_section data errs section = Throw e).
  { intros errs. unfold validate_section, member.
    assert (Hnn : is_nullish section = false).
    { destruct section; try reflexivity; discriminate. }
    rewrite Hnn. cbn [bind]. rewrite Hfields. cbn [is_nullish as_array bind].
    now apply (foldM_raises (validate_field data) field fields). }
  unfold validateUserData. rewrite Hsecs.
  assert (Hschema : truthy schema = true).
  { destruct schema; try reflexivity; discriminate. }
  rewrite Hschema. cbn [truthy negb orb as_array bind].
  destruct (foldM_raises (validate_section data) section sections Hsec Hs [])
    as (e & ->).
  simpl. eauto.
Qed.

Lemma validateUserData_raises_on_null_text_witness :
  exists e,
    validateUserData (VObj [("note", VNull)])
      (VObj [("sections",
              VArr [VObj [("fields",
                           VArr [VObj [("id", VStr "note"); ("type", VStr "text");
                                       ("validation",
                                        VObj [("minLength", VNum 3)])]])]])])
    = Throw e.
Proof.
  apply (@validateUserData_raises_on_null_text
           (VObj [("note", VNull)])
           (VObj [("sections",
                   VArr [VObj [("fields",
                                VArr [VObj [("id", VStr "note");
                                            ("type", VStr "text");
                                            ("validation",
                                             VObj [("minLength", VNum 3)])]])]])])
           (VObj [("fields",
                   VArr [VObj [("id", VStr "note"); ("type", VStr "text");
                               ("validation", VObj [("minLength", VNum 3)])]])])
           (VObj [("id", VStr "note"); ("type", VStr "text");
                  ("validation", VObj [("minLength", VNum 3)])])
           [VObj [("fields",
                   VArr [VObj [("id", VStr "note"); ("type", VStr "text");
                               ("validation", VObj [("minLength", VNum 3)])]])]]
           [VObj [("id", VStr "note"); ("type", VStr "text");
                  ("validation", VObj [("minLength", VNum 3)])]]
           eq_refl eq_refl);
    [left; reflexivity | reflexivity | left; reflexivity | left; reflexivity
    | left; reflexivity | reflexivity].
Defined.

Lemma foldM_fixed {A S : Type} (f : S -> A -> result S) (P : A -> Prop)
    (xs : list A) (s : S) :
  (forall x, P x -> f s x = Ok s) -> Forall P xs -> foldM f xs s = Ok s.
Proof.
  intros Hf H. induction H as [|x xs Hx _ IH]; simpl; [reflexivity|].
  rewrite (Hf x Hx). exact IH.
Qed.

(** X13.  Validation never objects to a field that is not required and
    under whose id the record reads [undefined], the member the record
    inherits under that id included: a record against a schema whose
    fields are all of this kind is valid, with no message.  The ids are
    taken to have the built-in conversion to text, and the reads of the
    record to be charted. *)
Theorem validateUserData_accepts_absent_optional :
  forall (data schema : jsval) (sections : list jsval),
    get_prop schema "sections" = VArr sections ->
    Forall (optional_section data) sections ->
    validateUserData data schema = Ok {| valid := true; errors := [] |}.
Proof.
  intros data schema sections Hsecs Hall.
  unfold validateUserData. rewrite Hsecs.
  destruct (negb (truthy schema) || negb (truthy (VArr sections)))%bool;
    [reflexivity|].
  cbn [as_array bind].
  rewrite (@foldM_fixed _ _ (validate_section data) (optional_section data));
    [reflexivity| |assumption].
  intros section (Hnn & Hfields). unfold validate_section, member.
  rewrite Hnn. cbn [bind].
  destruct Hfields as [->|(fields & -> & Hf)]; [reflexivity|].
  cbn [is_nullish as_array bind].
  apply (@foldM_fixed _ _ (validate_field data) (optional_absent data));
    [|assumption].
  intros field (Hfn & _ & _ & Hreq & Habs). unfold validate_field, member.
  rewrite Hfn. cbn [bind]. rewrite Habs. cbn [bind is_undef negb].
  unfold required_check. now rewrite Hreq.
Qed.

Lemma validateUserData_accepts_absent_optional_witness :
  validateUserData (VObj [("count", VNum 2)])
    (VObj [("sections", VArr [VObj [("fields", VArr [note_field])]])])
  = Ok {| valid := true; errors := [] |}.
Proof.
  apply (@validateUserData_accepts_absent_optional
           (VObj [("count", VNum 2)])
           (VObj [("sections", VArr [VObj [("fields", VArr [note_field])]])])
           [VObj [("fields", VArr [note_field])]] eq_refl).
  constructor; [|constructor]. split; [reflexivity|].
  right. exists [note_field]. split; [reflexivity|].
  constructor; [|constructor]. repeat split; reflexivity.
Defined.

Lemma validateTemplateData_accepts_iff_witness :
  exists report,
    validateTemplateData
      (VObj [("name", VStr " Dive plan "); ("schemaJson", VObj []);
             ("contentJson", VObj []); ("structureJson", VArr [])])
    = Ok report /\ valid report = true.
Proof.
  destruct (@validateTemplateData_accepts_iff
              (VObj [("name", VStr " Dive plan "); ("schemaJson", VObj []);
                     ("contentJson", VObj []); ("structureJson", VArr [])])
              eq_refl eq_refl) as (report & Hr & Hiff).
  exists report. split; [exact Hr|]. apply Hiff.
  split; [|repeat split; reflexivity].
  exists " Dive plan ". split; [reflexivity|]. split; vm_compute; lia.
Defined.

(** ** Markup and tables *)

Lemma all_chars_app (ok : ascii -> bool) (a b : string) :
  all_chars ok (a ++ b) = (all_chars ok a && all_chars ok b)%bool.
Proof.
  induction a as [|c a IH]; simpl; [reflexivity|].
  now rewrite IH, andb_assoc.
Qed.

Lemma escape_char_safe (c : ascii) :
  all_chars (fun c => negb (html_delimiter c)) (escape_char c) = true.
Proof.
  unfold escape_char.
  destruct (Ascii.eqb c "&") eqn:E1; [reflexivity|].
  destruct (Ascii.eqb c "<") eqn:E2; [reflexivity|].
  destruct (Ascii.eqb c ">") eqn:E3; [reflexivity|].
  destruct (Ascii.eqb c "034") eqn:E4; [reflexivity|].
  destruct (Ascii.eqb c "'") eqn:E5; [reflexivity|].
  simpl. unfold html_delimiter. now rewrite E2, E3, E4, E5.
Qed.

Lemma escape_char_plain (c : ascii) :
  html_special c = false -> escape_char c = String c EmptyString.
Proof.
  unfold html_special, escape_char. intros H.
  repeat (apply orb_false_iff in H; destruct H as (H & ?)).
  repeat match goal with E : Ascii.eqb _ _ = false |- _ => rewrite E; clear E end.
  reflexivity.
Qed.

(** X14.  Escaped text has no angle bracket and no quote, whatever was
    escaped; text without any of the five special characters is escaped to
    itself. *)
Theorem escapeHtml_is_safe :
  forall v : jsval,
    all_chars (fun c => negb (html_delimiter c)) (escapeHtml v) = true /\
    (all_chars (fun c => negb (html_special c)) (to_string v) = true ->
     escapeHtml v = to_string v).
Proof.
  intros v. unfold escapeHtml. generalize (to_string v). intros s. split.
  - induction s as [|c s IH]; [reflexivity|].
    cbn [escape_text]. now rewrite all_chars_app, escape_char_safe, IH.
  - induction s as [|c s IH]; [reflexivity|].
    cbn [all_chars escape_text]. intros H.
    apply andb_true_iff in H as (Hc & Hs). apply negb_true_iff in Hc.
    now rewrite escape_char_plain, IH.
Qed.

Lemma escapeHtml_is_safe_witness :
  escapeHtml (VArr [VStr "Dock 4"; VNum 12]) = "Dock 4,12".
Proof.
  apply (proj2 (escapeHtml_is_safe (VArr [VStr "Dock 4"; VNum 12]))).
  reflexivity.
Defined.

Lemma to_lower_no_capital (s : string) :
  all_chars (fun c => negb (capital c)) (to_lower s) = true.
Proof.
  induction s as [|c s IH]; [reflexivity|].
  cbn [to_lower all_chars]. rewrite IH, andb_true_r.
  unfold lower_char, upper_char, capital.
  destruct (Nat.leb 65 (nat_of_ascii c) && Nat.leb (nat_of_ascii c) 90)%bool
    eqn:E; cbn [orb].
  - apply andb_true_iff in E as (E1 & E2).
    apply Nat.leb_le in E1. apply Nat.leb_le in E2.
    rewrite nat_ascii_embedding by lia.
    apply negb_true_iff, andb_false_iff. right. apply Nat.leb_gt. lia.
  - destruct (Nat.leb 192 (nat_of_ascii c) && Nat.leb (nat_of_ascii c) 222
              && negb (Nat.eqb (nat_of_ascii c) 215))%bool eqn:E'.
    + apply andb_true_iff in E' as (E' & _).
      apply andb_true_iff in E' as (E1 & E2).
      apply Nat.leb_le in E1. apply Nat.leb_le in E2.
      rewrite nat_ascii_embedding by lia.
      apply negb_true_iff, andb_false_iff. right. apply Nat.leb_gt. lia.
    + now rewrite E.
Qed.

(** A lowercased text is none of the names that have a capital. *)
Lemma to_lower_differs (s name : string) :
  all_chars (fun c => negb (capital c)) name = false ->
  String.eqb (to_lower s) name = false.
Proof.
  intros H. destruct (String.eqb (to_lower s) name) eqn:E; [|reflexivity].
  apply String.eqb_eq in E. rewrite <- E, to_lower_no_capital in H.
  discriminate.
Qed.

(** X15.  [getAlignment] returns [left] for [null] and [undefined]; for a
    text it returns what the lowercased text names in the map of the four
    alignments, or else the member the map inherits under that name, of
    which there are two, [constructor] and [__proto__], or else [left];
    and it raises on any other value. *)
Theorem getAlignment_range :
  forall alignment : jsval,
    (is_nullish alignment = true -> getAlignment alignment = Ok (VStr "left")) /\
    (forall s,
       alignment = VStr s ->
       getAlignment alignment =
       Ok (if String.eqb (to_lower s) "left" then VStr "left"
           else if String.eqb (to_lower s) "center" then VStr "center"
           else if String.eqb (to_lower s) "right" then VStr "right"
           else if String.eqb (to_lower s) "justified" then VStr "both"
           else if String.eqb (to_lower s) "constructor" then native "Object" 1
           else if String.eqb (to_lower s) "__proto__" then object_prototype
           else VStr "left")) /\
    (is_nullish alignment = false -> is_string alignment = false ->
     exists e, getAlignment alignment = Throw e).
Proof.
  intros alignment. split; [|split].
  - destruct alignment; try discriminate; reflexivity.
  - intros s ->. unfold getAlignment. cbn [bind to_string].
    unfold index, lookup, alignmentMap.
    cbn [is_nullish has_own existsb fst get_prop assoc].
    set (k := to_lower s).
    destruct (String.eqb k "left") eqn:E1; [reflexivity|].
    destruct (String.eqb k "center") eqn:E2; [reflexivity|].
    destruct (String.eqb k "right") eqn:E3; [reflexivity|].
    destruct (String.eqb k "justified") eqn:E4; [reflexivity|].
    cbn [orb]. unfold inherited.
    cbn [restricted own_methods find_method constructor_name prototype_of].
    destruct (String.eqb k "constructor") eqn:E5; [reflexivity|].
    destruct (String.eqb k "__proto__") eqn:E6; [reflexivity|].
    unfold object_methods, method. cbn [find_method]. subst k.
    rewrite !to_lower_differs by reflexivity. reflexivity.
  - destruct alignment; try discriminate; intros _ _; eexists; reflexivity.
Qed.

Lemma getAlignment_range_witness :
  getAlignment (VStr "Constructor") = Ok (native "Object" 1).
Proof.
  exact (proj1 (proj2 (getAlignment_range (VStr "Constructor")))
           "Constructor" eq_refl).
Defined.

(** X16.  A table [createTable] returns has a row; when headers are
    configured its first row is the header row, one shaded bold cell per
    header, and no other row is a header row; without headers no row is;
    and no table is returned only when there is neither a header row nor a
    body row. *)
Theorem createTable_header_first :
  forall (item userData contentJson : jsval) (result : option table),
    createTable item userData contentJson = Ok result ->
    match result with
    | Some t =>
        rows t <> [] /\
        ((exists hs body,
            get_prop item "headers" = VArr hs /\
            rows t = {| cells := map header_cell hs; tableHeader := true |} :: body /\
            Forall (fun r => tableHeader r = false) body)
         \/ (truthy (get_prop item "headers") = false /\
             Forall (fun r => tableHeader r = false) (rows t)))
    | None =>
        truthy (get_prop item "headers") = false /\
        body_rows item userData contentJson = Ok []
    end.
Proof.
  intros item userData contentJson result H. unfold createTable in H.
  apply bind_ok in H as (headers & Hm & H). apply member_ok in Hm as (_ & ->).
  apply bind_ok in H as (head & Hhead & H).
  apply bind_ok in H as (body & Hbody & H).
  pose proof (body_rows_not_header _ _ _ Hbody) as Hnot.
  destruct (truthy (get_prop item "headers")) eqn:Hh.
  - apply bind_ok in Hhead as (hs & Hhs & Hhead). injection Hhead as <-.
    cbn [app List.length Nat.eqb] in H. injection H as <-.
    cbn [rows]. split; [discriminate|]. left. exists hs, body.
    destruct (get_prop item "headers"); try discriminate.
    simpl in Hhs. injection Hhs as ->. auto.
  - injection Hhead as <-. cbn [app] in H.
    destruct body as [|r body]; cbn in H; injection H as <-.
    + auto.
    + cbn [rows]. split; [discriminate|]. right. auto.
Qed.

Lemma createTable_header_first_witness :
  exists t,
    createTable (VObj [("headers", VArr [VStr "Item"; VStr "Qty"])])
      report_data report_content = Ok (Some t) /\
    List.length (rows t) = 1.
Proof.
  eexists. split; [reflexivity|].
  pose proof (@createTable_header_first
                (VObj [("headers", VArr [VStr "Item"; VStr "Qty"])])
                report_data report_content _ eq_refl) as (_ & H).
  reflexivity.
Defined.

Lemma column_count_headers (hs : list jsval) :
  column_count (VArr hs) = match hs with [] => 3 | _ => List.length hs end.
Proof.
  unfold column_count, opt_member, or_else. cbn [is_nullish].
  change (get_prop (VArr hs) "length") with (VNum (Z.of_nat (List.length hs))).
  destruct hs as [|h hs]; [reflexivity|].
  cbn [truthy].
  destruct (Z.eqb_spec (Z.of_nat (List.length (h :: hs))) 0) as [E|E];
    [simpl in E; lia|].
  cbn [negb]. apply Nat2Z.id.
Qed.

Lemma column_count_default (headers : jsval) :
  truthy headers = false -> column_count headers = 3.
Proof.
  intros H. destruct headers as [| |b|n|s| | |]; try discriminate;
    try reflexivity.
  destruct s; [reflexivity|discriminate].
Qed.

(** X17.  A table item that asks only for empty rows gets that many
    rows of empty cells, as many cells as there are headers, and three
    cells when there is no header. *)
Theorem empty_rows_table :
  forall (item userData contentJson : jsval) (n : Z),
    truthy (get_prop item "loop") = false ->
    truthy (get_prop item "source") = false ->
    truthy (get_prop item "rows") = false ->
    get_prop item "emptyRows" = VNum n ->
    let cols := match get_prop item "headers" with
                | VArr (h :: hs) => List.length (h :: hs)
                | _ => 3
                end in
    truthy (get_prop item "headers") = false
    \/ is_array (get_prop item "headers") = true ->
    body_rows item userData contentJson
    = Ok (repeat (body_row (repeat (text_cell EmptyString) cols)) (Z.to_nat n)).
Proof.
  intros item userData contentJson n Hloop Hsource Hrows Hn cols Hheaders.
  unfold body_rows. rewrite Hloop, Hsource, Hrows, Hn.
  assert (Hcols : column_count (get_prop item "headers") = cols).
  { subst cols. destruct Hheaders as [H|H].
    - rewrite column_count_default by assumption.
      destruct (get_prop item "headers") as [| | | | |[|h hs]| |];
        try reflexivity; discriminate.
    - destruct (get_prop item "headers") as [| | | | |hs| |]; try discriminate.
      rewrite column_count_headers. destruct hs; reflexivity. }
  rewrite Hcols. unfold loop_count, to_number. cbn [to_primitive truthy].
  destruct (Z.eqb_spec n 0) as [->|Hne]; reflexivity.
Qed.

Lemma empty_rows_table_witness :
  body_rows (VObj [("emptyRows", VNum 2);
                   ("headers", VArr [VStr "Name"; VStr "Signature"])])
    report_data report_content
  = Ok (repeat (body_row (repeat (text_cell EmptyString) 2)) 2).
Proof.
  apply (@empty_rows_table
           (VObj [("emptyRows", VNum 2);
                  ("headers", VArr [VStr "Name"; VStr "Signature"])])
           report_data report_content 2);
    [reflexivity | reflexivity | reflexivity | reflexivity | right; reflexivity].
Defined.




(** ** The document and its preview, row by row *)

Lemma html_count_app (t : tag) (a b : list piece) :
  html_count t (a ++ b) = html_count t a + html_count t b.
Proof. rewrite !html_count_is_count. apply count_app. Qed.

Lemma html_count_concat_each (t : tag) (n : nat) (pss : list (list piece)) :
  Forall (fun ps => html_count t ps = n) pss ->
  html_count t (List.concat pss) = List.length pss * n.
Proof.
  induction 1 as [|ps pss Hps _ IH]; [reflexivity|].
  simpl. now rewrite html_count_app, Hps, IH.
Qed.

(** One row of a loop table on both sides: a row element in the preview,
    with a cell element for each cell of the document's row. *)
Lemma loop_row_agrees (item contentJson rowData : jsval) (r : table_row)
    (ps : list piece) :
  loop_row item contentJson rowData = Ok r ->
  html_loop_row item contentJson rowData = Ok ps ->
  html_count Tr ps = 1 /\ html_count Td ps = List.length (cells r).
Proof.
  unfold loop_row, html_loop_row. intros Hb Hh.
  apply bind_ok in Hb as (templates & Ht & Hb).
  apply bind_ok in Hb as (cs & Hcs & Hb). injection Hb as <-.
  apply bind_ok in Hh as (templates' & Ht' & Hh).
  rewrite Ht in Ht'. injection Ht' as <-.
  apply bind_ok in Hh as (hcs & Hhcs & Hh). injection Hh as <-.
  assert (Hlen : List.length hcs = List.length cs).
  { apply mapM_ok, Forall2_length in Hcs.
    apply mapM_ok, Forall2_length in Hhcs. congruence. }
  assert (Heach : Forall (fun p => html_count Tr p = 0 /\ html_count Td p = 1) hcs).
  { apply mapM_ok in Hhcs. clear Hlen Ht Hcs.
    induction Hhcs as [|x p xs ps' Hp _ IH]; [constructor|].
    constructor; [|exact IH].
    apply bind_ok in Hp as (? & _ & Hp). apply bind_ok in Hp as (? & _ & Hp).
    injection Hp as <-. split; reflexivity. }
  cbn [cells body_row].
  change (Open Tr "<tr>" :: List.concat hcs ++ [Raw "</tr>"])%list
    with ([Open Tr "<tr>"] ++ List.concat hcs ++ [Raw "</tr>"])%list.
  rewrite !html_count_app.
  rewrite (@html_count_concat_each Tr 0), (@html_count_concat_each Td 1).
  - cbn. split; lia.
  - eapply Forall_impl; [|exact Heach]. now intros p (_ & H).
  - eapply Forall_impl; [|exact Heach]. now intros p (H & _).
Qed.

(** X19.  In loop mode the preview shows the rows of the document: as
    many row elements as the document's table has body rows, and as many
    cell elements as these rows have cells. *)
Theorem loop_rows_agree_with_preview :
  forall (item userData contentJson : jsval) (rows : list table_row)
         (ps : list piece),
    truthy (get_prop item "loop") = true ->
    body_rows item userData contentJson = Ok rows ->
    html_body_rows item userData contentJson = Ok ps ->
    html_count Tr ps = List.length rows /\ html_count Td ps = cell_total rows.
Proof.
  intros item userData contentJson rows ps Hloop Hb Hh.
  unfold body_rows in Hb. unfold html_body_rows in Hh. rewrite Hloop in Hb, Hh.
  apply bind_ok in Hb as (loop & Hl & Hb).
  apply bind_ok in Hh as (loop' & Hl' & Hh).
  rewrite Hl in Hl'. injection Hl' as <-.
  apply bind_ok in Hb as (dataArray & Hd & Hb).
  apply bind_ok in Hh as (dataArray' & Hd' & Hh).
  rewrite Hd in Hd'. injection Hd' as <-.
  assert (Hgen : forall elems rows' pss,
            mapM (loop_row item contentJson) elems = Ok rows' ->
            mapM (html_loop_row item contentJson) elems = Ok pss ->
            html_count Tr (List.concat pss) = List.length rows' /\
            html_count Td (List.concat pss) = cell_total rows').
  { intros elems rows' pss H1 H2.
    pose proof (@mapM_both _ _ _ (loop_row item contentJson)
                  (html_loop_row item contentJson)
                  (fun r p => html_count Tr p = 1
                              /\ html_count Td p = List.length (cells r))
                  elems rows' pss) as Hall.
    specialize (Hall (fun x y z _ Hy Hz => loop_row_agrees _ _ _ Hy Hz) H1 H2).
    clear H1 H2. induction Hall as [|r p rs' ps' (Hr & Hc) _ (IH1 & IH2)].
    - split; reflexivity.
    - cbn [List.concat List.length cell_total map list_sum].
      rewrite !html_count_app, Hr, Hc, IH1, IH2. split; reflexivity. }
  destruct dataArray as [| | | | |[|x xs]| |];
    try (injection Hb as <-; injection Hh as <-; split; reflexivity).
  apply bind_ok in Hh as (pss & Hpss & Hh). injection Hh as <-.
  eapply Hgen; eauto.
Qed.

Lemma loop_rows_agree_with_preview_witness :
  exists rows ps,
    body_rows
      (VObj [("loop", VStr "{{#items}}");
             ("rows", VArr [VStr "{{name}}"; VStr "{{qty}}"])])
      (VObj [("items", VArr [VObj [("name", VStr "bolt"); ("qty", VNum 4)]])])
      report_content = Ok rows /\
    html_body_rows
      (VObj [("loop", VStr "{{#items}}");
             ("rows", VArr [VStr "{{name}}"; VStr "{{qty}}"])])
      (VObj [("items", VArr [VObj [("name", VStr "bolt"); ("qty", VNum 4)]])])
      report_content = Ok ps /\
    html_count Tr ps = List.length rows /\ html_count Td ps = cell_total rows.
Proof.
  eexists. eexists. split; [reflexivity|]. split; [reflexivity|].
  apply (@loop_rows_agree_with_preview
           (VObj [("loop", VStr "{{#items}}");
                  ("rows", VArr [VStr "{{name}}"; VStr "{{qty}}"])])
           (VObj [("items", VArr [VObj [("name", VStr "bolt"); ("qty", VNum 4)]])])
           report_content); reflexivity.
Defined.

Lemma build_section_layout (data contentJson section : jsval)
    (built : option doc_section) :
  build_section data contentJson section = Ok built ->
  layout_section section = match built with None => true | Some _ => false end.
Proof.
  unfold build_section, layout_section. intros H.
  apply bind_ok in H as (type & Hm & H). apply member_ok in Hm as (_ & ->).
  destruct (is_case (get_prop section "type") "header"
            || is_case (get_prop section "type") "footer")%bool.
  - now injection H as <-.
  - apply bind_ok in H as (? & _ & H). apply bind_ok in H as (? & _ & H).
    now injection H as <-.
Qed.

Lemma somes_length (data contentJson : jsval) (secs : list jsval)
    (built : list (option doc_section)) :
  mapM (build_section data contentJson) secs = Ok built ->
  List.length (somes built) = count (fun s => negb (layout_section s)) secs.
Proof.
  intros H%mapM_ok. induction H as [|s b secs' built' Hb _ IH]; [reflexivity|].
  rewrite count_cons. apply build_section_layout in Hb. rewrite Hb.
  destruct b; simpl; lia.
Qed.

(** X20.  The generated document is never without a section: it has one
    section for each section of the structure that is not a header or a
    footer, and it is the single-paragraph empty document when there is
    none. *)
Theorem document_sections_count :
  forall (now : string) (structureJson userData contentJson : jsval)
         (doc : document) (secs : list jsval),
    generateFromStructure now structureJson userData contentJson = Ok doc ->
    iterate (get_prop structureJson "sections") = Ok secs ->
    let n := count (fun s => negb (layout_section s)) secs in
    sections doc <> [] /\
    doc_sections doc = Nat.max 1 n /\
    (n = 0 -> doc = empty_document).
Proof.
  intros now structureJson userData contentJson doc secs H Hsecs n.
  unfold generateFromStructure in H.
  destruct (negb (truthy structureJson)
            || negb (truthy (get_prop structureJson "sections")))%bool;
    [discriminate|].
  rewrite Hsecs in H. cbn [bind] in H.
  apply bind_ok in H as (built & Hbuilt & H). injection H as <-.
  pose proof (somes_length _ _ _ Hbuilt) as Hlen. fold n in Hlen.
  unfold doc_sections. cbn [sections].
  destruct (somes built) as [|s ss]; simpl in Hlen |- *.
  - rewrite <- Hlen. split; [discriminate|]. split; reflexivity.
  - assert (Hn : n = S (List.length ss)) by (symmetry; exact Hlen).
    rewrite Hn. split; [discriminate|]. split; [reflexivity|discriminate].
Qed.

Lemma document_sections_count_witness :
  exists doc,
    generateFromStructure a_morning
      (VObj [("sections",
              VArr [VObj [("type", VStr "header")]; VObj [("type", VStr "section")];
                    VObj [("type", VStr "footer")]])])
      report_data report_content = Ok doc /\
    doc_sections doc = 1.
Proof.
  eexists. split; [reflexivity|].
  exact (proj1 (proj2
    (@document_sections_count a_morning
       (VObj [("sections",
               VArr [VObj [("type", VStr "header")];
                     VObj [("type", VStr "section")];
                     VObj [("type", VStr "footer")]])])
       report_data report_content _
       [VObj [("type", VStr "header")]; VObj [("type", VStr "section")];
        VObj [("type", VStr "footer")]] eq_refl eq_refl))).
Defined.

(** ** The record the generator renders against *)

Lemma assoc_remove_same (k : string) (props : list (string * jsval)) :
  assoc k (remove_key k props ++ [(k, VUndef)]) = VUndef.
Proof.
  induction props as [|[k' v] props IH]; simpl.
  - now rewrite String.eqb_refl.
  - destruct (String.eqb k k') eqn:E; [exact IH|]. simpl. now rewrite E.
Qed.

Lemma assoc_set_key_same (k : string) (v : jsval) (props : list (string * jsval)) :
  assoc k (set_key k v props) = v.
Proof.
  unfold set_key. induction props as [|[k' v'] props IH]; simpl.
  - now rewrite String.eqb_refl.
  - destruct (String.eqb k k') eqn:E; [exact IH|]. simpl. now rewrite E.
Qed.

Lemma assoc_set_key_other (k k' : string) (v : jsval)
    (props : list (string * jsval)) :
  k <> k' -> assoc k (set_key k' v props) = assoc k props.
Proof.
  intros Hne. apply String.eqb_neq in Hne.
  unfold set_key. induction props as [|[k0 v0] props IH]; simpl.
  - now rewrite Hne.
  - destruct (String.eqb k' k0) eqn:E.
    + apply String.eqb_eq in E. subst k0. now rewrite Hne.
    + simpl. destruct (String.eqb k k0); [reflexivity|exact IH].
Qed.

(** X21.  The record the generator renders against reads [today] as the
    date of the run, also when the submitted record has a [today] of its
    own, and reads every other key of a submitted object, but
    [formatDate], as the submitted record does. *)
Theorem enhance_keeps_the_record :
  forall (now : string) (userData : jsval),
    get_prop (enhance now userData) "today" = VStr (getToday now) /\
    get_prop (enhance now userData) "formatDate" = formatDate_helper /\
    (forall (props : list (string * jsval)) (k : string),
       userData = VObj props -> k <> "today" -> k <> "formatDate" ->
       get_prop (enhance now userData) k = get_prop userData k).
Proof.
  intros now userData. unfold enhance. cbn [get_prop]. split; [|split].
  - rewrite assoc_set_key_other by discriminate. apply assoc_set_key_same.
  - apply assoc_set_key_same.
  - intros props k -> Ht Hf. cbn [own_entries get_prop].
    now rewrite !assoc_set_key_other by assumption.
Qed.

Lemma enhance_keeps_the_record_witness :
  get_prop (enhance a_morning (VObj [("today", VStr "never"); ("project", VStr "Alpha")]))
    "project"
  = VStr "Alpha".
Proof.
  refine (eq_trans
            (proj2 (proj2 (enhance_keeps_the_record a_morning
                             (VObj [("today", VStr "never");
                                    ("project", VStr "Alpha")])))
               [("today", VStr "never"); ("project", VStr "Alpha")] "project"
               eq_refl _ _) _);
    [discriminate | discriminate | reflexivity].
Defined.

(** ** Items nested in a conditional block *)

(** X22.  The condition of a content item is read by the loop over a
    section's content only: an item whose condition fails is left out of
    the section, and the same item inside a conditional block is
    processed, its condition unread. *)
Theorem nested_condition_is_not_read :
  forall (fuel : nat) (data contentJson item : jsval) (els : list element),
    truthy (get_prop item "condition") = true ->
    evaluateCondition (get_prop item "condition") data = Ok false ->
    processContentItem fuel item data contentJson = Ok els ->
    section_item fuel data contentJson item = Ok [] /\
    section_item (S fuel) data contentJson (block [item]) = Ok els.
Proof.
  intros fuel data contentJson item els Ht Hc Hp. split.
  - unfold section_item.
    destruct fuel; simpl in Hp;
      apply bind_ok in Hp as (type & Hm & _);
      apply member_ok in Hm as (Hn & _);
      unfold member; rewrite Hn; cbn [bind]; rewrite Ht, Hc; reflexivity.
  - unfold section_item, block. cbn. rewrite Hp. cbn.
    now rewrite app_nil_r.
Qed.

Lemma nested_condition_is_not_read_witness :
  section_item 0 (VObj []) report_content
    (VObj [("type", VStr "paragraph"); ("text", VStr "Only for divers");
           ("condition",
            VObj [("field", VStr "diver"); ("operator", VStr "equals");
                  ("value", VBool true)])])
  = Ok [] /\
  exists els,
    List.length els = 1 /\
    section_item 1 (VObj []) report_content
      (block
         [VObj [("type", VStr "paragraph"); ("text", VStr "Only for divers");
                ("condition",
                 VObj [("field", VStr "diver"); ("operator", VStr "equals");
                       ("value", VBool true)])]])
    = Ok els.
Proof.
  destruct (@nested_condition_is_not_read 0 (VObj []) report_content
              (VObj [("type", VStr "paragraph"); ("text", VStr "Only for divers");
                     ("condition",
                      VObj [("field", VStr "diver"); ("operator", VStr "equals");
                            ("value", VBool true)])])
              _ eq_refl eq_refl eq_refl) as (Hout & Hin).
  split; [exact Hout|]. eexists. split; [|exact Hin]. reflexivity.
Defined.

(** ** Stored files *)

Import Storage.

Lemma mentions_app (c : ascii) (a b : string) :
  mentions c (a ++ b) = (mentions c a || mentions c b)%bool.
Proof.
  induction a as [|c' a IH]; simpl; [reflexivity|].
  now rewrite IH, orb_assoc.
Qed.

Lemma underscore_chars (s : string) : all_chars file_char (underscore s) = true.
Proof.
  induction s as [|c s IH]; simpl; [reflexivity|]. rewrite IH, andb_true_r.
  unfold file_char. destruct (is_alnum c) eqn:E; [now rewrite E|reflexivity].
Qed.

Lemma file_char_excludes (c : ascii) (s : string) :
  file_char c = false -> all_chars file_char s = true -> mentions c s = false.
Proof.
  intros Hc. induction s as [|c' s IH]; simpl; [reflexivity|].
  intros H. apply andb_true_iff in H as (Hc' & Hs). rewrite (IH Hs), orb_false_r.
  destruct (Ascii.eqb c' c) eqn:E; [|reflexivity].
  apply Ascii.eqb_eq in E. subst c'. congruence.
Qed.

Lemma slice_last_app {A : Type} (xs ys : list A) :
  slice_last (List.length ys) (xs ++ ys) = ys.
Proof.
  unfold slice_last. rewrite length_app.
  replace (List.length xs + List.length ys - List.length ys)
    with (List.length xs) by lia.
  induction xs as [|x xs IH]; simpl; [reflexivity|exact IH].
Qed.

(** X23.  Whatever text a document is called, the name it is uploaded
    under is letters, digits and underscores followed by [.docx]: it has
    no path separator and no other dot, the extension the storage service
    reads off it is [docx], and the path it is stored under is the folder,
    the user and the generated identifier with that extension. *)
Theorem documentFileName_is_safe :
  forall (name : jsval) (fileName : string),
    documentFileName name = Ok fileName ->
    exists stem,
      fileName = stem ++ ".docx" /\
      all_chars file_char stem = true /\
      mentions "/" fileName = false /\
      fileExtension fileName = "docx" /\
      forall uuid userId folder,
        filePath uuid fileName userId folder
        = folder ++ "/" ++ userId ++ "/" ++ uuid ++ ".docx".
Proof.
  intros name fileName H. unfold documentFileName in H.
  destruct name; try discriminate. cbn in H. injection H as <-.
  exists (underscore s).
  assert (Hext : fileExtension (underscore s ++ ".docx") = "docx").
  { unfold fileExtension.
    change (underscore s ++ ".docx") with (underscore s ++ String "." "docx").
    rewrite split_app, split_plain
      by (apply file_char_excludes; [reflexivity|apply underscore_chars]).
    reflexivity. }
  split; [reflexivity|]. split; [apply underscore_chars|].
  split; [|split; [exact Hext|]].
  - rewrite mentions_app.
    rewrite file_char_excludes
      by (try reflexivity; apply underscore_chars).
    reflexivity.
  - intros uuid userId folder. unfold filePath. now rewrite Hext.
Qed.

Lemma documentFileName_is_safe_witness :
  fileExtension "Q3_report__final_.docx" = "docx".
Proof.
  destruct (@documentFileName_is_safe (VStr "Q3 report (final)")
              "Q3_report__final_.docx" eq_refl)
    as (stem & _ & _ & _ & Hext & _).
  exact Hext.
Defined.

(** X24.  The download route reads the stored path back: from a URL that
    ends in a separator and the path [uploadFile] stored the file under,
    it takes that path, when neither the folder, the user, the identifier
    nor the extension has a separator. *)
Theorem downloadPath_of_filePath :
  forall (base uuid fileName userId folder : string),
    mentions "/" folder = false ->
    mentions "/" userId = false ->
    mentions "/" uuid = false ->
    mentions "/" (fileExtension fileName) = false ->
    downloadPath (base ++ "/" ++ filePath uuid fileName userId folder)
    = filePath uuid fileName userId folder.
Proof.
  intros base uuid fileName userId folder Hf Hu Hi He.
  unfold downloadPath, filePath.
  set (file := uuid ++ "." ++ fileExtension fileName).
  assert (Hfile : mentions "/" file = false).
  { unfold file. rewrite !mentions_app, Hi, He. reflexivity. }
  change (base ++ "/" ++ folder ++ "/" ++ userId ++ "/" ++ file)
    with (base ++ String "/" (folder ++ String "/" (userId ++ String "/" file))).
  rewrite !split_app, (@split_plain "/" folder Hf), (@split_plain "/" userId Hu),
    (@split_plain "/" file Hfile).
  change (split "/" base ++ [folder] ++ [userId] ++ [file])%list
    with (split "/" base ++ [folder; userId; file])%list.
  pose proof (slice_last_app (split "/" base) [folder; userId; file]) as E.
  cbn [List.length] in E. rewrite E. reflexivity.
Qed.

Lemma downloadPath_of_filePath_witness :
  downloadPath
    ("https://host/storage/v1/object/public/documents" ++ "/"
     ++ filePath "0b1c" "Plan.docx" "u42" "generated")
  = "generated/u42/0b1c.docx".
Proof.
  refine (eq_trans
            (@downloadPath_of_filePath
               "https://host/storage/v1/object/public/documents"
               "0b1c" "Plan.docx" "u42" "generated"
               eq_refl eq_refl eq_refl eq_refl) _).
  reflexivity.
Defined.

(** ** The rows of a table field *)

Import TableField.

Lemma assoc_assign_same (k : string) (v : jsval) (props : list (string * jsval)) :
  assoc k (assign k v props) = v.
Proof.
  induction props as [|[k' v'] props IH]; simpl.
  - now rewrite String.eqb_refl.
  - destruct (String.eqb k k') eqn:E; simpl;
      [now rewrite String.eqb_refl | now rewrite E].
Qed.

Lemma assoc_assign_other (k k' : string) (v : jsval)
    (props : list (string * jsval)) :
  k' <> k -> assoc k' (assign k v props) = assoc k' props.
Proof.
  intros Hne. apply String.eqb_neq in Hne.
  induction props as [|[k0 v0] props IH]; simpl.
  - now rewrite Hne.
  - destruct (String.eqb k k0) eqn:E; simpl.
    + apply String.eqb_eq in E. subst k0. now rewrite Hne.
    + destruct (String.eqb k' k0); [reflexivity|exact IH].
Qed.

Lemma store_nth_same (cell : jsval -> jsval) (rows : list jsval) (i : nat) :
  nth i (store rows i cell) VUndef = cell (nth i rows VUndef).
Proof.
  revert rows. induction i as [|i IH]; intros [|row rows]; simpl;
    try reflexivity.
  - specialize (IH []). destruct i; exact IH.
  - apply IH.
Qed.

Lemma store_nth_other (cell : jsval -> jsval) (rows : list jsval) (i j : nat) :
  j <> i -> nth j (store rows i cell) VUndef = nth j rows VUndef.
Proof.
  revert rows j. induction i as [|i IH]; intros [|row rows] [|j] Hne; simpl;
    try reflexivity; try congruence.
  - now destruct j.
  - specialize (IH [] j). rewrite IH by congruence. now destruct j.
  - apply IH. congruence.
Qed.

Lemma store_length (cell : jsval -> jsval) (rows : list jsval) (i : nat) :
  List.length (store rows i cell) = Nat.max (List.length rows) (S i).
Proof.
  revert rows. induction i as [|i IH]; intros [|row rows]; simpl;
    try reflexivity.
  - f_equal. lia.
  - f_equal. exact (IH []).
  - f_equal. rewrite IH. reflexivity.
Qed.

(** X25.  A cell that is set reads back: after [handleCellChange] the row
    has the value under the column key and its other keys as before, the
    other rows are the rows they were, and the table has as many rows as
    before or reaches to the row that was set. *)
Theorem handleCellChange_reads_back :
  forall (rows : list jsval) (rowIndex : nat) (columnKey : string)
         (value : jsval),
    get_prop (nth rowIndex (handleCellChange rows rowIndex columnKey value) VUndef)
      columnKey = value /\
    (forall k, k <> columnKey ->
       get_prop (nth rowIndex (handleCellChange rows rowIndex columnKey value)
                   VUndef) k
       = assoc k (own_entries (nth rowIndex rows VUndef))) /\
    (forall j, j <> rowIndex ->
       nth j (handleCellChange rows rowIndex columnKey value) VUndef
       = nth j rows VUndef) /\
    List.length (handleCellChange rows rowIndex columnKey value)
    = Nat.max (List.length rows) (S rowIndex).
Proof.
  intros rows rowIndex columnKey value. unfold handleCellChange.
  rewrite store_nth_same. unfold with_cell. cbn [get_prop].
  split; [apply assoc_assign_same|].
  split; [intros k Hk; now apply assoc_assign_other|].
  split; [intros j Hj; now apply store_nth_other|apply store_length].
Qed.

Lemma handleCellChange_reads_back_witness :
  nth 0
    (handleCellChange
       [VObj [("item", VStr "bolt"); ("qty", VStr "4")]; VObj [("item", VStr "nut")]]
       1 "qty" (VStr "9"))
    VUndef
  = VObj [("item", VStr "bolt"); ("qty", VStr "4")].
Proof.
  refine (eq_trans
            (proj1 (proj2 (proj2
               (@handleCellChange_reads_back
                  [VObj [("item", VStr "bolt"); ("qty", VStr "4")];
                   VObj [("item", VStr "nut")]]
                  1 "qty" (VStr "9")))) 0 _) _);
    [discriminate | reflexivity].
Defined.







Lemma no_proto_assign (k : string) (v : jsval) (props : list (string * jsval)) :
  String.eqb k "__proto__" = false ->
  has_own (VObj props) "__proto__" = false ->
  has_own (VObj (assign k v props)) "__proto__" = false.
Proof.
  intros Hk. cbn [has_own].
  induction props as [|[k' x] props IH]; cbn [assign existsb fst].
  - intros _. rewrite String.eqb_sym, Hk. reflexivity.
  - intros H. apply orb_false_iff in H as (H1 & H2).
    destruct (String.eqb k k') eqn:E; cbn [existsb fst].
    + apply String.eqb_eq in E. subst k'. now rewrite H1, H2.
    + now rewrite H1, IH.
Qed.

Lemma emptyRow_keys (cols : list jsval) :
  forall props props' : list (string * jsval),
    foldM (fun props col =>
             key <- member col "key" ;;
             Ok (set_empty (to_string key) props))
      cols props = Ok props' ->
    (forall k, assoc k props = VStr EmptyString ->
               assoc k props' = VStr EmptyString) /\
    (has_own (VObj props) "__proto__" = false ->
     has_own (VObj props') "__proto__" = false) /\
    Forall (fun col =>
              String.eqb (to_string (get_prop col "key")) "__proto__" = false ->
              assoc (to_string (get_prop col "key")) props' = VStr EmptyString)
      cols.
Proof.
  induction cols as [|col cols IH]; intros props props' H; simpl in H.
  - injection H as <-. split; [auto|]. split; [auto|constructor].
  - apply bind_ok in H as (props1 & H1 & H).
    apply bind_ok in H1 as (key & Hkey & H1). injection H1 as <-.
    apply member_ok in Hkey as (_ & ->).
    destruct (IH _ _ H) as (Hkeep & Hproto & Hall).
    set (key := to_string (get_prop col "key")) in *.
    assert (Hstep : forall k, assoc k props = VStr EmptyString ->
              assoc k (set_empty key props) = VStr EmptyString).
    { intros k Hk. unfold set_empty.
      destruct (String.eqb key "__proto__"); [exact Hk|].
      destruct (string_dec k key) as [-> | Hne];
        [apply assoc_assign_same|now rewrite assoc_assign_other]. }
    split; [intros k Hk; apply Hkeep, Hstep, Hk|]. split.
    + intros Hno. apply Hproto. unfold set_empty.
      destruct (String.eqb key "__proto__") eqn:E; [exact Hno|].
      now apply no_proto_assign.
    + constructor; [|exact Hall].
      intros Hk. change (String.eqb key "__proto__" = false) in Hk.
      apply Hkeep. unfold set_empty. rewrite Hk.
      apply assoc_assign_same.
Qed.

(** X28.  The rows a table field starts with: under the key of every
    column a row reads the empty text, except under [__proto__], where the
    assignment is ignored and the row reads the prototype of objects; and
    there are as many rows as the field's [defaultRows], 5 when the field
    gives none or gives 0.  The keys are taken to have the built-in
    conversion to text. *)
Theorem getInitialRows_cells :
  forall (field : jsval) (cols rows : list jsval),
    get_prop field "columns" = VArr cols ->
    Forall (fun col => plain_text (get_prop col "key") = true) cols ->
    getInitialRows field = Ok rows ->
    Forall (fun row => Forall (empty_cell row) cols) rows /\
    (forall n, or_else (get_prop field "defaultRows") (VNum 5) = VNum n ->
               List.length rows = Z.to_nat n) /\
    (get_prop field "defaultRows" = VNum 0 -> List.length rows = 5).
Proof.
  intros field cols rows Hcols _ H. unfold getInitialRows in H.
  apply bind_ok in H as (defaultRows & Hmem & H).
  apply member_ok in Hmem as (Hn & ->).
  apply bind_ok in H as (row & Hrow & H).
  apply bind_ok in H as (n & Hlen & H). injection H as <-.
  assert (Hcount : forall z,
            or_else (get_prop field "defaultRows") (VNum 5) = VNum z ->
            n = Z.to_nat z).
  { intros z Hz. rewrite Hz in Hlen. unfold array_length in Hlen.
    destruct (Z.ltb z 0 || Z.ltb 4294967295 z)%bool; [discriminate|].
    now injection Hlen as <-. }
  split; [|split].
  - unfold emptyRow, member in Hrow. rewrite Hn, Hcols in Hrow.
    cbn [bind is_nullish as_array] in Hrow.
    apply bind_ok in Hrow as (props & Hfold & Hrow). injection Hrow as <-.
    apply emptyRow_keys in Hfold as (_ & Hproto & Hall).
    specialize (Hproto eq_refl).
    apply Forall_forall. intros r Hr. apply repeat_spec in Hr. subst r.
    cbn [own_entries].
    eapply Forall_impl; [|exact Hall].
    intros col Hcol. cbv beta in Hcol. unfold empty_cell.
    destruct (String.eqb (to_string (get_prop col "key")) "__proto__") eqn:E.
    + apply String.eqb_eq in E. rewrite E. unfold lookup.
      rewrite Hproto. reflexivity.
    + specialize (Hcol eq_refl).
      rewrite lookup_own; cbn [get_prop]; rewrite Hcol;
        [reflexivity|discriminate].
  - intros z Hz. rewrite repeat_length. now apply Hcount.
  - intros Hz. rewrite repeat_length.
    rewrite (Hcount 5%Z); [reflexivity|]. now rewrite Hz.
Qed.

Lemma getInitialRows_cells_witness :
  exists rows,
    getInitialRows
      (VObj [("defaultRows", VNum 0);
             ("columns", VArr [VObj [("key", VStr "item")];
                               VObj [("key", VStr "__proto__")]])])
    = Ok rows /\
    List.length rows = 5 /\
    Forall (fun row => lookup row "item" = Ok (VStr EmptyString)) rows.
Proof.
  eexists. split; [reflexivity|].
  pose proof
    (@getInitialRows_cells
       (VObj [("defaultRows", VNum 0);
              ("columns", VArr [VObj [("key", VStr "item")];
                                VObj [("key", VStr "__proto__")]])])
       [VObj [("key", VStr "item")]; VObj [("key", VStr "__proto__")]]
       _ eq_refl ltac:(repeat constructor) eq_refl) as (Hcells & _ & Hfive).
  split; [exact (Hfive eq_refl)|].
  eapply Forall_impl; [|exact Hcells].
  intros row Hrow. inversion Hrow as [|col cols' Hitem _]. exact Hitem.
Defined.
